(** * chess-data-analytics: the extractor (parser.py) and the aggregator
      (analytics.py), embedded shallowly and checked against the specification.

    Layout of the development:
    - Python [str] as a sequence of code points, with the string methods
      the sources call ([strip], [replace], [split], [in]);
    - [int()] and the [unicode_escape] codec, as parser.py uses them;
    - a backtracking matcher for the five regular expressions of parser.py;
    - the document tree that BeautifulSoup hands back, with the subset of
      CSS selectors written in parser.py;
    - [parse_pgn_text], [_extract_pgn_result], [_extract_user_details] and
      [parse_game_review_page];
    - what [insert_game] of database.py binds, and the functions of cli.py
      that find the identifiers of the games;
    - the two SQL queries of analytics.py over the rows of table [games];
    - sample pages and games;
    - the theorems, property by property (C1 to C10), and further
      properties of the code (X1 to X15).

    Modelling notes.  Library code that the repository calls but does not
    contain is either modelled on its documented behaviour (string methods,
    [int], [re], the [unicode_escape] codec, CSS selection) or taken as a
    section variable ([BeautifulSoup(html, 'html.parser')], [json.loads],
    [float], the Unicode name table, SQLite's REAL arithmetic); the parser
    is taken to return a tree for every text.  In parser.py decimal digits
    are the ASCII ones: [int] and [\d] also accept the other digits of
    Unicode category Nd, which are treated there as non-digits, and the
    limit that recent interpreters put on the number of digits of [int]
    is not modelled.  For cli.py the characters that [\d] matches and
    those of which [str.isdigit] is true are tables of the interpreter,
    taken as section variables.  The integer sums of the two queries are
    sums of integers without bound; the integers of SQLite have 64 bits,
    and [brilliant_in_range] tells when the sum of [get_season_summary]
    stays within them. *)

From Stdlib Require Import List NArith ZArith String Ascii Bool Lia.
From Stdlib Require Import Permutation Sorted.
Import ListNotations.

Set Implicit Arguments.
Set Warnings "-register-all".

(* ===================================================================== *)
(** * Python text                                                          *)
(* ===================================================================== *)

(** A Python [str] is a sequence of Unicode code points. *)
Definition str := list N.

(** The text of an ASCII literal. *)
Definition py (s : string) : str := map N_of_ascii (list_ascii_of_string s).

Fixpoint str_eqb (a b : str) : bool :=
  match a, b with
  | [], [] => true
  | x :: a', y :: b' => N.eqb x y && str_eqb a' b'
  | _, _ => false
  end.

(** [x in xs] for a list of strings. *)
Definition str_mem (x : str) (xs : list str) : bool := existsb (str_eqb x) xs.

(** The double quote, the backslash and the other characters the sources
    name. *)
Definition dquote : N := 34%N.
Definition squote : N := 39%N.
Definition backslash : N := 92%N.
Definition slash : N := 47%N.
Definition hyphen : N := 45%N.

(** [str.isspace] for one character, which is also what [\s] matches in a
    [str] pattern and what [str.strip()] removes. *)
Definition isspace (c : N) : bool :=
  ((9 <=? c) && (c <=? 13) || (28 <=? c) && (c <=? 32) || (c =? 133)
   || (c =? 160) || (c =? 5760) || (8192 <=? c) && (c <=? 8202)
   || (c =? 8232) || (c =? 8233) || (c =? 8239) || (c =? 8287)
   || (c =? 12288))%N.

Fixpoint lstrip (s : str) : str :=
  match s with
  | c :: s' => if isspace c then lstrip s' else s
  | [] => []
  end.

Definition rstrip (s : str) : str := rev (lstrip (rev s)).

(** [s.strip()] *)
Definition strip (s : str) : str := rstrip (lstrip s).

(** [s] with [p] removed from its front, when [p] is a prefix of [s]. *)
Fixpoint strip_prefix (p s : str) : option str :=
  match p, s with
  | [], _ => Some s
  | x :: p', y :: s' => if N.eqb x y then strip_prefix p' s' else None
  | _ :: _, [] => None
  end.

(** [needle in hay] for two strings. *)
Fixpoint str_contains (needle hay : str) : bool :=
  match strip_prefix needle hay with
  | Some _ => true
  | None => match hay with
            | [] => false
            | _ :: hay' => str_contains needle hay'
            end
  end.

(** [s.replace(old, new)] for the two-character [old] of parser.py
    (backslash, slash): occurrences are replaced left to right and do not
    overlap. *)
Fixpoint replace2 (o1 o2 : N) (new : str) (s : str) : str :=
  match s with
  | a :: ((b :: s'') as s') =>
      if N.eqb a o1 && N.eqb b o2 then new ++ replace2 o1 o2 new s''
      else a :: replace2 o1 o2 new s'
  | _ => s
  end.

(** [s.replace(old, new)] with [old] a backslash and a slash, [new] a slash *)
Definition unescape_slashes (s : str) : str := replace2 backslash slash [slash] s.

(** [s.split(sep)] for a one-character separator; the list is never empty. *)
Fixpoint split (sep : N) (s : str) : list str :=
  match s with
  | [] => [[]]
  | c :: s' =>
      if N.eqb c sep then [] :: split sep s'
      else match split sep s' with
           | w :: ws => (c :: w) :: ws
           | [] => [[c]]
           end
  end.

(** [s.split(hyphen)[-1]] *)
Definition last_segment (s : str) : str := last (split hyphen s) [].

(** The maximal runs of non-space characters of [s]: how bs4 cuts a
    [class] attribute into its list of classes. *)
Fixpoint words_aux (cur : str) (s : str) : list str :=
  match s with
  | [] => match cur with [] => [] | _ => [rev cur] end
  | c :: s' =>
      if isspace c
      then match cur with [] => words_aux [] s' | _ => rev cur :: words_aux [] s' end
      else words_aux (c :: cur) s'
  end.

Definition words (s : str) : list str := words_aux [] s.

(* ===================================================================== *)
(** * [int(text)]                                                          *)
(* ===================================================================== *)

Definition digit_val (c : N) : option Z :=
  if ((48 <=? c) && (c <=? 57))%N then Some (Z.of_N (c - 48)) else None.

Definition underscore : N := 95%N.

(** Digits with single underscores between them.  [after_digit] tells
    whether the previous character was a digit, which is when the text may
    end and when an underscore may come. *)
Fixpoint int_digits (acc : Z) (after_digit : bool) (s : str) : option Z :=
  match s with
  | [] => if after_digit then Some acc else None
  | c :: s' =>
      match digit_val c with
      | Some d => int_digits (10 * acc + d)%Z true s'
      | None =>
          if N.eqb c underscore && after_digit then int_digits acc false s'
          else None
      end
  end.

(** [int(text)] in base ten; [None] stands for [ValueError]. *)
Definition py_int (text : str) : option Z :=
  match strip text with
  | c :: rest =>
      if N.eqb c 43 then int_digits 0 false rest
      else if N.eqb c hyphen then option_map Z.opp (int_digits 0 false rest)
      else int_digits 0 false (c :: rest)
  | [] => None
  end.

(* ===================================================================== *)
(** * [text.encode().decode(unicode_escape)]                               *)
(* ===================================================================== *)

(** [str.encode()]: UTF-8; [None] stands for [UnicodeEncodeError], raised
    on a lone surrogate. *)
Definition utf8_char (c : N) : option (list N) :=
  (if c <? 128 then Some [c]
   else if c <? 2048 then Some [192 + c / 64; 128 + c mod 64]
   else if (55296 <=? c) && (c <=? 57343) then None
   else if c <? 65536 then Some [224 + c / 4096; 128 + (c / 64) mod 64; 128 + c mod 64]
   else if c <=? 1114111
        then Some [240 + c / 262144; 128 + (c / 4096) mod 64;
                   128 + (c / 64) mod 64; 128 + c mod 64]
   else None)%N.

Fixpoint utf8_encode (s : str) : option (list N) :=
  match s with
  | [] => Some []
  | c :: s' =>
      match utf8_char c, utf8_encode s' with
      | Some bs, Some rest => Some (bs ++ rest)
      | _, _ => None
      end
  end.

Definition hexval (c : N) : option N :=
  (if (48 <=? c) && (c <=? 57) then Some (c - 48)
   else if (97 <=? c) && (c <=? 102) then Some (c - 87)
   else if (65 <=? c) && (c <=? 70) then Some (c - 55)
   else None)%N.

Definition is_octal (c : N) : bool := ((48 <=? c) && (c <=? 55))%N.

(** Where the decoder stands inside an escape sequence. *)
Inductive esc_state : Type :=
| Plain
| Escaped                          (* after a backslash *)
| Hex (more : nat) (acc : N)       (* [more] hex digits after the next one *)
| Oct (more : nat) (acc : N)       (* up to [more] further octal digits *)
| NameOpen                         (* after backslash N *)
| NameBody (rev_name : list N).    (* inside the braces *)

(** The one-character escapes. *)
Definition simple_escape (c : N) : option N :=
  (if (c =? 92) || (c =? 39) || (c =? 34) then Some c
   else if c =? 98 then Some 8
   else if c =? 102 then Some 12
   else if c =? 116 then Some 9
   else if c =? 110 then Some 10
   else if c =? 114 then Some 13
   else if c =? 118 then Some 11
   else if c =? 97 then Some 7
   else None)%N.

Definition emit (c : N) (rest : option str) : option str := option_map (cons c) rest.

Section UnicodeEscape.

(** The Unicode name table behind [\N{...}]. *)
Variable unicodedata_lookup : list N -> option N.

(** The codec in strict mode, one byte at a time; [None] stands for
    [UnicodeDecodeError].  Bytes outside escapes decode as Latin-1. *)
Fixpoint unicode_escape_from (st : esc_state) (bs : list N) : option str :=
  match bs with
  | [] =>
      match st with
      | Plain => Some []
      | Oct _ acc => Some [acc]
      | _ => None
      end
  | c :: bs' =>
      match st with
      | Plain =>
          if N.eqb c backslash then unicode_escape_from Escaped bs'
          else emit c (unicode_escape_from Plain bs')
      | Escaped =>
          if N.eqb c 10 then unicode_escape_from Plain bs'
          else match simple_escape c with
               | Some x => emit x (unicode_escape_from Plain bs')
               | None =>
                   if is_octal c then unicode_escape_from (Oct 2 (c - 48)) bs'
                   else if N.eqb c 120 then unicode_escape_from (Hex 1 0) bs'
                   else if N.eqb c 117 then unicode_escape_from (Hex 3 0) bs'
                   else if N.eqb c 85 then unicode_escape_from (Hex 7 0) bs'
                   else if N.eqb c 78 then unicode_escape_from NameOpen bs'
                   else emit backslash (emit c (unicode_escape_from Plain bs'))
               end
      | Hex more acc =>
          match hexval c with
          | None => None
          | Some d =>
              let acc' := (16 * acc + d)%N in
              match more with
              | S k => unicode_escape_from (Hex k acc') bs'
              | O => if (acc' <=? 1114111)%N
                     then emit acc' (unicode_escape_from Plain bs')
                     else None
              end
          end
      | Oct more acc =>
          match more with
          | S k =>
              if is_octal c then unicode_escape_from (Oct k (8 * acc + (c - 48))) bs'
              else if N.eqb c backslash then emit acc (unicode_escape_from Escaped bs')
              else emit acc (emit c (unicode_escape_from Plain bs'))
          | O =>
              if N.eqb c backslash then emit acc (unicode_escape_from Escaped bs')
              else emit acc (emit c (unicode_escape_from Plain bs'))
          end
      | NameOpen =>
          if N.eqb c 123 then unicode_escape_from (NameBody []) bs' else None
      | NameBody rev_name =>
          if N.eqb c 125
          then match rev_name with
               | [] => None
               | _ => match unicodedata_lookup (rev rev_name) with
                      | Some x => emit x (unicode_escape_from Plain bs')
                      | None => None
                      end
               end
          else unicode_escape_from (NameBody (c :: rev_name)) bs'
      end
  end.

(** [text.encode().decode(unicode_escape)]; [None] when either call
    raises. *)
Definition unicode_escape (text : str) : option str :=
  match utf8_encode text with
  | Some bs => unicode_escape_from Plain bs
  | None => None
  end.

End UnicodeEscape.

(* ===================================================================== *)
(** * Regular expressions                                                  *)
(* ===================================================================== *)

(** The patterns of parser.py are sequences of quantified character
    classes around one capturing group.  [Star] is the greedy [*],
    [LazyStar] is [*?]; [+] is one occurrence followed by a star. *)
Inductive quant : Type := One | Star | LazyStar.

Inductive ritem : Type :=
| Q (q : quant) (p : N -> bool)
| GroupOpen
| GroupClose.

Definition regex := list ritem.

(** The capture under construction: whether the group is open, and the
    characters it has taken, last first. *)
Record capture : Type := { cap_open : bool; cap_rev : list N }.

Definition cap_init : capture := {| cap_open := false; cap_rev := [] |}.
Definition cap_push (c : N) (k : capture) : capture :=
  if cap_open k then {| cap_open := true; cap_rev := c :: cap_rev k |} else k.
Definition cap_start (k : capture) : capture := {| cap_open := true; cap_rev := [] |}.
Definition cap_stop (k : capture) : capture := {| cap_open := false; cap_rev := cap_rev k |}.

(** [rmatch r s k]: match [r] at the front of [s] the way a backtracking
    engine does, greedy alternatives first for [Star] and last for
    [LazyStar]; the result is [group(1)]. *)
Fixpoint rmatch (r : regex) (s : str) (k : capture) {struct r} : option str :=
  match r with
  | [] => Some (rev (cap_rev k))
  | GroupOpen :: r' => rmatch r' s (cap_start k)
  | GroupClose :: r' => rmatch r' s (cap_stop k)
  | Q One p :: r' =>
      match s with
      | c :: s' => if p c then rmatch r' s' (cap_push c k) else None
      | [] => None
      end
  | Q Star p :: r' =>
      (fix star (s : str) (k : capture) {struct s} : option str :=
         match s with
         | c :: s' =>
             if p c
             then match star s' (cap_push c k) with
                  | Some g => Some g
                  | None => rmatch r' s k
                  end
             else rmatch r' s k
         | [] => rmatch r' s k
         end) s k
  | Q LazyStar p :: r' =>
      (fix lazy (s : str) (k : capture) {struct s} : option str :=
         match rmatch r' s k with
         | Some g => Some g
         | None =>
             match s with
             | c :: s' => if p c then lazy s' (cap_push c k) else None
             | [] => None
             end
         end) s k
  end.

(** [re.search(r, s)]: the match at the leftmost position that has one;
    the value is [group(1)]. *)
Fixpoint re_search (r : regex) (s : str) : option str :=
  match rmatch r s cap_init with
  | Some g => Some g
  | None => match s with
            | [] => None
            | _ :: s' => re_search r s'
            end
  end.

Definition lit (s : string) : regex := map (fun c => Q One (N.eqb c)) (py s).
Definition chr (c : N) : regex := [Q One (N.eqb c)].
Definition plus (p : N -> bool) : regex := [Q One p; Q Star p].
Definition lazy_plus (p : N -> bool) : regex := [Q One p; Q LazyStar p].
Definition spaces : regex := [Q Star isspace].
Definition any_char (c : N) : bool := true.
Definition not_dquote (c : N) : bool := negb (N.eqb c dquote).
Definition isdigit (c : N) : bool := ((48 <=? c) && (c <=? 57))%N.

(** A PGN tag with a quoted value: [\[Name\s+DQ(class+)DQ\]], where DQ
    is the double quote. *)
Definition tag_re (name : string) (class : N -> bool) : regex :=
  lit "[" ++ lit name ++ plus isspace ++ chr dquote
      ++ [GroupOpen] ++ plus class ++ [GroupClose] ++ chr dquote ++ lit "]".

(** [\[Result\s+DQ([^DQ]+)DQ\]] *)
Definition Result_re : regex := tag_re "Result" not_dquote.
(** [\[WhiteElo\s+DQ(\d+)DQ\]] and [\[BlackElo\s+DQ(\d+)DQ\]] *)
Definition WhiteElo_re : regex := tag_re "WhiteElo" isdigit.
Definition BlackElo_re : regex := tag_re "BlackElo" isdigit.

(** [pgn:\s*SQ(.+?)SQ,] with [re.DOTALL], where SQ is the single quote *)
Definition pgn_re : regex :=
  lit "pgn:" ++ spaces ++ chr squote ++ [GroupOpen] ++ lazy_plus any_char
             ++ [GroupClose] ++ chr squote ++ lit ",".

(** [userDetails:\s*JSON\.parse\s*\(\s*DQ(.+?)DQ\s*\)] with [re.DOTALL] *)
Definition userDetails_re : regex :=
  lit "userDetails:" ++ spaces ++ lit "JSON.parse" ++ spaces ++ lit "(" ++ spaces
     ++ chr dquote ++ [GroupOpen] ++ lazy_plus any_char ++ [GroupClose]
     ++ chr dquote ++ spaces ++ lit ")".

(* ===================================================================== *)
(** * The document tree and CSS selection                                  *)
(* ===================================================================== *)

(** Dictionaries with string keys, in insertion order: an element's
    attributes, a JSON object, a returned [dict]. *)
Fixpoint lookup {A : Type} (key : str) (d : list (str * A)) : option A :=
  match d with
  | [] => None
  | (k, v) :: d' => if str_eqb k key then Some v else lookup key d'
  end.

(** What the parser keeps of a page: elements with their attributes and
    contents, and the strings that [get_text] collects.  Comments and the
    strings of script and style regions, which no selector sees and which
    [get_text] skips, are left out.  The parser stores tag and attribute
    names in lower case and each attribute once. *)
Inductive node : Type :=
| Text (s : str)
| Elem (name : str) (attrs : list (str * str)) (contents : list node).

(** The [BeautifulSoup] object: the top-level nodes of the page. *)
Definition soup := list node.

(** A [Tag]: an element together with the elements above it, nearest
    first, since a [Tag] knows its parents. *)
Record tag : Type := {
  tag_parents : list (str * list (str * str));
  tag_name : str;
  tag_attrs : list (str * str);
  tag_contents : list node
}.

(** [el.get(name, [])] for a string-valued attribute *)
Definition attr (name : string) (attrs : list (str * str)) : str :=
  match lookup (py name) attrs with
  | Some v => v
  | None => []
  end.

(** [el.get(class) or []]: bs4 keeps [class] as the list of its words. *)
Definition classes_of (attrs : list (str * str)) : list str := words (attr "class" attrs).

(** The elements below a node, in document order, the node itself first. *)
Fixpoint descendants (parents : list (str * list (str * str))) (n : node) : list tag :=
  match n with
  | Text _ => []
  | Elem name attrs kids =>
      {| tag_parents := parents; tag_name := name; tag_attrs := attrs; tag_contents := kids |}
      :: (fix below (l : list node) : list tag :=
            match l with
            | [] => []
            | k :: l' => descendants ((name, attrs) :: parents) k ++ below l'
            end) kids
  end.

(** The strings below a node, in document order. *)
Fixpoint strings (n : node) : list str :=
  match n with
  | Text s => [s]
  | Elem _ _ kids =>
      (fix below (l : list node) : list str :=
         match l with
         | [] => []
         | k :: l' => strings k ++ below l'
         end) kids
  end.

(** [el.get_text()] *)
Definition get_text (el : tag) : str := List.concat (flat_map strings (tag_contents el)).

Definition nonempty (s : str) : bool := match s with [] => false | _ => true end.

(** [el.get_text(strip=True)]: every string stripped, the empty ones
    dropped. *)
Definition get_text_strip (el : tag) : str :=
  List.concat (filter nonempty (map strip (flat_map strings (tag_contents el)))).

(** The simple selectors written in parser.py. *)
Inductive simple : Type :=
| Class (c : string)                (* .c *)
| AttrIs (a : string) (v : str)     (* [a='v'] *)
| AttrStarts (a : string) (v : str) (* [a^='v'] *)
| AttrHas (a : string) (v : str)    (* [a*='v'] *)
| Name (n : string).                (* n *)

(** A chain [a b] selects the [b] that have an [a] above them; a selector
    is a comma-separated list of chains. *)
Definition chain := list simple.
Definition selector := list chain.

Definition has_attr (a : string) (attrs : list (str * str)) : bool :=
  match lookup (py a) attrs with Some _ => true | None => false end.

Definition matches_simple (x : simple) (name : str) (attrs : list (str * str)) : bool :=
  match x with
  | Class c => str_mem (py c) (classes_of attrs)
  | AttrIs a v =>
      (* soupsieve matches the value against ^v$, and a dollar also matches
         before a final newline *)
      has_attr a attrs
      && (str_eqb (attr a attrs) v || str_eqb (attr a attrs) (v ++ [10%N]))
  | AttrStarts a v =>
      has_attr a attrs && match strip_prefix v (attr a attrs) with Some _ => true | None => false end
  | AttrHas a v => has_attr a attrs && str_contains v (attr a attrs)
  | Name n => str_eqb name (py n)
  end.

(** The rest of a chain, innermost first, is found going up the parents. *)
Fixpoint above (inner_first : list simple) (parents : list (str * list (str * str))) : bool :=
  match inner_first with
  | [] => true
  | x :: more =>
      (fix up (ps : list (str * list (str * str))) : bool :=
         match ps with
         | [] => false
         | (n, a) :: ps' => (matches_simple x n a && above more ps') || up ps'
         end) parents
  end.

Definition matches_chain (c : chain) (el : tag) : bool :=
  match rev c with
  | [] => false
  | x :: more => matches_simple x (tag_name el) (tag_attrs el) && above more (tag_parents el)
  end.

Definition matches (sel : selector) (el : tag) : bool :=
  existsb (fun c => matches_chain c el) sel.

(** [soup.select(sel)]: the matching elements in document order. *)
Definition select (s : soup) (sel : selector) : list tag :=
  filter (matches sel) (flat_map (descendants []) s).

(** [el.select(sel)]: the matching elements below [el]; the parents of a
    chain may lie above [el]. *)
Definition select_in (el : tag) (sel : selector) : list tag :=
  filter (matches sel)
         (flat_map (descendants ((tag_name el, tag_attrs el) :: tag_parents el))
                   (tag_contents el)).

(** [soup.select_one(sel)] and [el.select_one(sel)] *)
Definition select_one (s : soup) (sel : selector) : option tag := hd_error (select s sel).
Definition select_one_in (el : tag) (sel : selector) : option tag := hd_error (select_in el sel).

(* ===================================================================== *)
(** * parser.py                                                            *)
(* ===================================================================== *)

(** The exceptions that can leave the functions of parser.py. *)
Inductive exn : Type :=
| UnicodeError      (* UnicodeEncodeError or UnicodeDecodeError *)
| AttributeError
| OverflowError.

Inductive outcome (A : Type) : Type :=
| Returns (a : A)
| Raises (e : exn).
Arguments Returns {A} a.
Arguments Raises {A} e.

Definition bind {A B : Type} (m : outcome A) (f : A -> outcome B) : outcome B :=
  match m with
  | Returns a => f a
  | Raises e => Raises e
  end.

Notation "x <- m ;; k" := (bind m (fun x => k))
  (at level 61, m at next level, right associativity).

(** [_safe_int(text)]; [None] is Python's [None]. *)
Definition _safe_int (text : option str) : Z :=
  match text with
  | None => 0%Z
  | Some t =>
      let t := strip t in
      if nonempty t
      then match py_int t with
           | Some z => z
           | None => 0%Z
           end
      else 0%Z
  end.

(** The four result symbols of a PGN. *)
Definition result_symbols : list str := [py "1-0"; py "0-1"; py "1/2-1/2"; py "*"].

(** The lines that [parse_pgn_text] and [_extract_pgn_result] share: the
    tag value is stripped, its escaped slashes are restored, and it is
    kept when it is one of the four symbols. *)
Definition result_of_tag (group1 : str) : str :=
  let r := unescape_slashes (strip group1) in
  if str_mem r result_symbols then r else [].

(** The dictionary that [parse_pgn_text] returns, keys [result],
    [white_rating] and [black_rating]. *)
Record PgnInfo : Type := {
  pgn_result : str;
  pgn_white_rating : Z;
  pgn_black_rating : Z
}.

Definition parse_pgn_text (pgn : str) : PgnInfo :=
  let result :=
    match re_search Result_re pgn with
    | Some g => result_of_tag g
    | None => []
    end in
  let white_rating :=
    match re_search WhiteElo_re pgn with
    | Some g => _safe_int (Some g)
    | None => 0%Z
    end in
  let black_rating :=
    match re_search BlackElo_re pgn with
    | Some g => _safe_int (Some g)
    | None => 0%Z
    end in
  {| pgn_result := result; pgn_white_rating := white_rating; pgn_black_rating := black_rating |}.

(** The selectors of [parse_game_review_page]. *)
Definition top_player_sel : selector := [[AttrIs "data-cy" (py "analysis-player-Top")]].
Definition bottom_player_sel : selector := [[AttrIs "data-cy" (py "analysis-player-Bottom")]].
Definition username_sel : selector := [[AttrIs "data-test-element" (py "user-tagline-username")]].
Definition rating_attr_sel : selector := [[AttrStarts "data-cy" (py "review-rating-")]].
Definition overview_row_sel : selector := [[Class "game-overview-row"]].
Definition row_title_sel : selector := [[Class "game-overview-row-title"]].
Definition rating_white_sel : selector := [[Class "review-rating-white"; Name "span"]].
Definition rating_black_sel : selector := [[Class "review-rating-black"; Name "span"]].
Definition accuracy_white_sel : selector :=
  [[Class "review-accuracy-white"; Name "span"];
   [AttrHas "data-cy" (py "accuracy-white"); Name "span"]].
Definition accuracy_black_sel : selector :=
  [[Class "review-accuracy-black"; Name "span"];
   [AttrHas "data-cy" (py "accuracy-black"); Name "span"]].
Definition row_item_sel : selector := [[Class "game-overview-row-item"]].
Definition accuracy_attr_sel : selector :=
  [[AttrStarts "data-cy" (py "review-accuracy-")];
   [AttrStarts "data-cy" (py "game-review-accuracy-")]].
Definition span_sel : selector := [[Name "span"]].
Definition tally_sel (tally_type : str) (color : string) : selector :=
  [[AttrIs "data-cy" (py "game-review-tallies-number-" ++ tally_type ++ py "-" ++ py color)]].

Definition tally_types : list str :=
  [py "Brilliant"; py "GreatFind"; py "Book"; py "BestMove"; py "Excellent";
   py "Good"; py "Inaccuracy"; py "Mistake"; py "Miss"; py "Blunder"].

(** The first overview row whose title contains [label]: the [for] loops
    over [.game-overview-row] act on that row and [break]. *)
Definition labelled_row (s : soup) (label : string) : option tag :=
  find (fun row =>
          match select_one_in row row_title_sel with
          | Some title => str_contains (py label) (get_text title)
          | None => false
          end)
       (select s overview_row_sel).

(** One turn of the loop over [data-cy^='review-rating-'] elements. *)
Definition rating_attr_step (ratings : Z * Z) (el : tag) : Z * Z :=
  let data_cy := attr "data-cy" (tag_attrs el) in
  let classes := classes_of (tag_attrs el) in
  match py_int (last_segment data_cy) with
  | Some num =>
      if str_mem (py "review-rating-white") classes then (num, snd ratings)
      else if str_mem (py "review-rating-black") classes then (fst ratings, num)
      else ratings
  | None => ratings
  end.

(** The ratings after that loop, white first. *)
Definition ratings_from_attrs (s : soup) : Z * Z :=
  fold_left rating_attr_step (select s rating_attr_sel) (0%Z, 0%Z).

(** What a turn of that loop does with an element: the number that the
    element carries, if its suffix is one, and the colour that takes it,
    white for an element with the class of white, else black for an
    element with the class of black. *)
Definition attr_rating (el : tag) : option Z :=
  py_int (last_segment (attr "data-cy" (tag_attrs el))).

Definition sets_white (el : tag) : bool :=
  match attr_rating el with
  | Some _ => str_mem (py "review-rating-white") (classes_of (tag_attrs el))
  | None => false
  end.

Definition sets_black (el : tag) : bool :=
  match attr_rating el with
  | Some _ => negb (str_mem (py "review-rating-white") (classes_of (tag_attrs el)))
              && str_mem (py "review-rating-black") (classes_of (tag_attrs el))
  | None => false
  end.

(** The number of the last of some elements, zero when there is none. *)
Definition last_rating (els : list tag) : Z :=
  last (map (fun el => match attr_rating el with Some num => num | None => 0%Z end) els) 0%Z.

(** The fallback on the row titled Game Rating. *)
Definition ratings_from_row (s : soup) (ratings : Z * Z) : Z * Z :=
  let (white_rating, black_rating) := ratings in
  if (white_rating =? 0)%Z || (black_rating =? 0)%Z
  then match labelled_row s "Game Rating" with
       | Some row =>
           (if (white_rating =? 0)%Z
            then _safe_int (option_map get_text (select_one_in row rating_white_sel))
            else white_rating,
            if (black_rating =? 0)%Z
            then _safe_int (option_map get_text (select_one_in row rating_black_sel))
            else black_rating)
       | None => ratings
       end
  else ratings.

Section Parser.

(** The doubles other than zero (infinities and NaN among them); a Python
    [float] is a zero or one of these, so that [x == 0] can be read off
    the value. *)
Variable nzfloat : Type.

Inductive pyfloat : Type :=
| FZero
| FNonzero (x : nzfloat).

Definition is_zero (x : pyfloat) : bool :=
  match x with FZero => true | FNonzero _ => false end.

(** The values [json.loads] can return, and [None]. *)
Inductive pyval : Type :=
| PNone
| PBool (b : bool)
| PInt (z : Z)
| PFloat (x : pyfloat)
| PStr (s : str)
| PList (l : list pyval)
| PDict (d : list (str * pyval)).

(** Truth value of an object *)
Definition truthy (v : pyval) : bool :=
  match v with
  | PNone => false
  | PBool b => b
  | PInt z => negb (z =? 0)%Z
  | PFloat x => negb (is_zero x)
  | PStr s => nonempty s
  | PList l => match l with [] => false | _ => true end
  | PDict d => match d with [] => false | _ => true end
  end.

(** [v or d] *)
Definition py_or (v d : pyval) : pyval := if truthy v then v else d.

(** [float(text)]; [None] stands for [ValueError]. *)
Variable py_float : str -> option pyfloat.
(** [n / 10.0]; [None] stands for [OverflowError], raised when [n] is too
    large for a double. *)
Variable int_over_ten : Z -> option pyfloat.
(** [BeautifulSoup(html, 'html.parser')] *)
Variable BeautifulSoup : str -> soup.
(** [json.loads(text)]; [None] stands for any exception. *)
Variable json_loads : str -> option pyval.
Variable unicodedata_lookup : list N -> option N.

(** [_safe_float(text)] *)
Definition _safe_float (text : option str) : pyfloat :=
  match text with
  | None => FZero
  | Some t =>
      let t := strip t in
      if nonempty t
      then match py_float t with
           | Some x => x
           | None => FZero
           end
      else FZero
  end.

Definition _extract_pgn_result (html : str) : str :=
  match re_search pgn_re html with
  | None => []
  | Some g =>
      let pgn_raw := unescape_slashes g in
      match unicode_escape unicodedata_lookup pgn_raw with
      | None => []                           (* except Exception *)
      | Some pgn =>
          match re_search Result_re pgn with
          | None => []
          | Some g1 => result_of_tag g1
          end
      end
  end.

(** The decoding sits before the [try], so its exception leaves the
    function; the exceptions of [json.loads] are caught. *)
Definition _extract_user_details (html : str) : outcome pyval :=
  match re_search userDetails_re html with
  | None => Returns (PDict [])
  | Some escaped =>
      match unicode_escape unicodedata_lookup escaped with
      | None => Raises UnicodeError
      | Some unescaped =>
          match json_loads unescaped with
          | Some v => Returns v
          | None => Returns (PDict [])
          end
      end
  end.

(** [user_details.get(color, {})]: only a [dict] has [get]. *)
Definition side_details (user_details : pyval) (color : string) : outcome pyval :=
  match user_details with
  | PDict d => Returns (match lookup (py color) d with
                        | Some v => v
                        | None => PDict []
                        end)
  | _ => Raises AttributeError
  end.

(** [details.get(key) if isinstance(details, dict) else None] *)
Definition detail (details : pyval) (key : string) : pyval :=
  match details with
  | PDict d => match lookup (py key) d with
               | Some v => v
               | None => PNone
               end
  | _ => PNone
  end.

(** The fallback on the player panel of the page. *)
Definition username_from_dom (s : soup) (panel : selector) (username : pyval) : pyval :=
  if truthy username then username
  else match select_one s panel with
       | Some player =>
           match select_one_in player username_sel with
           | Some username_el => PStr (get_text_strip username_el)
           | None => PNone
           end
       | None => username
       end.

(** The fallback on [gameRating] of the embedded details. *)
Definition rating_from_details (rating : Z) (details : pyval) : pyval :=
  match details with
  | PDict _ => if (rating =? 0)%Z then py_or (detail details "gameRating") (PInt 0)
               else PInt rating
  | _ => PInt rating
  end.

(** The accuracy of one colour in the row titled Accuracy: that of the
    colour-specific element when there is one, else the initial 0.0. *)
Definition accuracy_of (el : option tag) : pyfloat :=
  match el with
  | Some e => _safe_float (Some (get_text e))
  | None => FZero
  end.

(** The accuracies read in the row titled Accuracy, white first. *)
Definition accuracy_from_row (row : tag) : pyfloat * pyfloat :=
  let w_el := select_one_in row accuracy_white_sel in
  let b_el := select_one_in row accuracy_black_sel in
  let white_accuracy := accuracy_of w_el in
  let black_accuracy := accuracy_of b_el in
  if is_zero white_accuracy && is_zero black_accuracy
  then match select_in row row_item_sel with
       | item0 :: item1 :: _ =>
           (_safe_float (Some (get_text_strip item0)),
            _safe_float (Some (get_text_strip item1)))
       | _ => (white_accuracy, black_accuracy)
       end
  else (white_accuracy, black_accuracy).

(** One turn of the loop over the accuracy elements found by attribute. *)
Definition accuracy_attr_step (acc : pyfloat * pyfloat) (el : tag)
  : outcome (pyfloat * pyfloat) :=
  let data_cy := attr "data-cy" (tag_attrs el) in
  let classes := classes_of (tag_attrs el) in
  let val :=
    match select_one_in el span_sel with
    | Some span => _safe_float (Some (get_text span))
    | None => FZero
    end in
  val <- (if is_zero val && nonempty data_cy
          then match py_int (last_segment data_cy) with
               | Some n => match int_over_ten n with
                           | Some x => Returns x
                           | None => Raises OverflowError
                           end
               | None => Returns val               (* except ValueError *)
               end
          else Returns val) ;;
  Returns
    (if str_contains (py "white") data_cy
        || existsb (str_contains (py "review-accuracy-white")) classes
     then (val, snd acc)
     else if str_contains (py "black") data_cy
             || existsb (str_contains (py "review-accuracy-black")) classes
          then (fst acc, val)
          else acc).

Fixpoint accuracy_attr_loop (els : list tag) (acc : pyfloat * pyfloat)
  : outcome (pyfloat * pyfloat) :=
  match els with
  | [] => Returns acc
  | el :: els' => acc' <- accuracy_attr_step acc el ;; accuracy_attr_loop els' acc'
  end.

(** The whole accuracy resolution. *)
Definition accuracies (s : soup) : outcome (pyfloat * pyfloat) :=
  let acc :=
    match labelled_row s "Accuracy" with
    | Some row => accuracy_from_row row
    | None => (FZero, FZero)
    end in
  if is_zero (fst acc) && is_zero (snd acc)
  then accuracy_attr_loop (select s accuracy_attr_sel) acc
  else Returns acc.

(** The move tallies, keyed as in the returned dictionary. *)
Definition tally_entries (s : soup) (tally_type : str) : list (str * Z) :=
  let white_el := select_one s (tally_sel tally_type "white") in
  let black_el := select_one s (tally_sel tally_type "black") in
  [(tally_type ++ py "_white", _safe_int (option_map get_text white_el));
   (tally_type ++ py "_black", _safe_int (option_map get_text black_el))].

(** The dictionary that [parse_game_review_page] returns; the twenty
    tally keys are kept as the dictionary [tallies]. *)
Record GameRecord : Type := {
  game_id : str;
  white_username : pyval;
  black_username : pyval;
  white_rating : pyval;
  black_rating : pyval;
  white_accuracy : pyfloat;
  black_accuracy : pyfloat;
  result : str;
  tallies : list (str * Z)
}.

Definition parse_game_review_page (html : str) (game_id : str) : outcome GameRecord :=
  let soup := BeautifulSoup html in
  user_details <- _extract_user_details html ;;
  white_details <- side_details user_details "white" ;;
  black_details <- side_details user_details "black" ;;
  let white_username := username_from_dom soup top_player_sel (detail white_details "username") in
  let black_username := username_from_dom soup bottom_player_sel (detail black_details "username") in
  let ratings := ratings_from_row soup (ratings_from_attrs soup) in
  let white_rating := rating_from_details (fst ratings) white_details in
  let black_rating := rating_from_details (snd ratings) black_details in
  acc <- accuracies soup ;;
  let tallies := flat_map (tally_entries soup) tally_types in
  let result := _extract_pgn_result html in
  Returns {| game_id := game_id;
             white_username := py_or white_username (PStr []);
             black_username := py_or black_username (PStr []);
             white_rating := py_or white_rating (PInt 0);
             black_rating := py_or black_rating (PInt 0);
             white_accuracy := fst acc;
             black_accuracy := snd acc;
             result := result;
             tallies := tallies |}.

(** A page on which none of the selectors of [parse_game_review_page]
    finds an element.  The selectors nested in a panel or in an overview
    row cannot find one either. *)
Definition lacks_selectors (s : soup) : Prop :=
  select s top_player_sel = []
  /\ select s bottom_player_sel = []
  /\ select s rating_attr_sel = []
  /\ select s overview_row_sel = []
  /\ select s accuracy_attr_sel = []
  /\ Forall (fun t => select s (tally_sel t "white") = []
                      /\ select s (tally_sel t "black") = []) tally_types.

(** The record of defaults. *)
Definition default_record (game_id : str) : GameRecord :=
  {| game_id := game_id;
     white_username := PStr [];
     black_username := PStr [];
     white_rating := PInt 0;
     black_rating := PInt 0;
     white_accuracy := FZero;
     black_accuracy := FZero;
     result := [];
     tallies := flat_map (fun t => [(t ++ py "_white", 0%Z); (t ++ py "_black", 0%Z)])
                         tally_types |}.




End Parser.

(* ===================================================================== *)
(** * database.py: what [insert_game] binds                                *)
(* ===================================================================== *)

Section Storage.

Variable nzfloat : Type.

(** The dictionary that [parse_game_review_page] returns, as a dictionary:
    the eight fixed keys in the order of the source, then the tallies. *)
Definition as_dict (r : GameRecord nzfloat) : list (str * pyval nzfloat) :=
  [(py "game_id", PStr _ (game_id r));
   (py "white_username", white_username r);
   (py "black_username", black_username r);
   (py "white_rating", white_rating r);
   (py "black_rating", black_rating r);
   (py "white_accuracy", PFloat (white_accuracy r));
   (py "black_accuracy", PFloat (black_accuracy r));
   (py "result", PStr _ (result r))]
  ++ map (fun kv => (fst kv, PInt _ (snd kv))) (tallies r).

(** [data.get(key, default)] *)
Definition dict_get (data : list (str * pyval nzfloat)) (key : string)
           (default : pyval nzfloat) : pyval nzfloat :=
  match lookup (py key) data with
  | Some v => v
  | None => default
  end.

(** The columns that [insert_game] names, in its order. *)
Definition insert_columns : list str :=
  [py "game_id"; py "white_username"; py "black_username";
   py "white_rating"; py "black_rating";
   py "brilliant_white"; py "brilliant_black";
   py "great_white"; py "great_black";
   py "book_white"; py "book_black";
   py "best_white"; py "best_black";
   py "excellent_white"; py "excellent_black";
   py "good_white"; py "good_black";
   py "inaccuracy_white"; py "inaccuracy_black";
   py "mistake_white"; py "mistake_black";
   py "miss_white"; py "miss_black";
   py "blunder_white"; py "blunder_black";
   py "accuracy_white"; py "accuracy_black";
   py "result"].

(** The keys that [insert_game] reads, and the defaults it falls back on,
    in the order of the columns. *)
Definition insert_keys : list (string * pyval nzfloat) :=
  [("game_id"%string, PStr _ []);
   ("white_username"%string, PStr _ []);
   ("black_username"%string, PStr _ []);
   ("white_rating"%string, PInt _ 0);
   ("black_rating"%string, PInt _ 0);
   ("Brilliant_white"%string, PInt _ 0);
   ("Brilliant_black"%string, PInt _ 0);
   ("GreatFind_white"%string, PInt _ 0);
   ("GreatFind_black"%string, PInt _ 0);
   ("Book_white"%string, PInt _ 0);
   ("Book_black"%string, PInt _ 0);
   ("BestMove_white"%string, PInt _ 0);
   ("BestMove_black"%string, PInt _ 0);
   ("Excellent_white"%string, PInt _ 0);
   ("Excellent_black"%string, PInt _ 0);
   ("Good_white"%string, PInt _ 0);
   ("Good_black"%string, PInt _ 0);
   ("Inaccuracy_white"%string, PInt _ 0);
   ("Inaccuracy_black"%string, PInt _ 0);
   ("Mistake_white"%string, PInt _ 0);
   ("Mistake_black"%string, PInt _ 0);
   ("Miss_white"%string, PInt _ 0);
   ("Miss_black"%string, PInt _ 0);
   ("Blunder_white"%string, PInt _ 0);
   ("Blunder_black"%string, PInt _ 0);
   ("white_accuracy"%string, PFloat (FZero nzfloat));
   ("black_accuracy"%string, PFloat (FZero nzfloat));
   ("result"%string, PStr _ [])].

(** The list of values that [insert_game] hands to the INSERT OR REPLACE
    statement, one for each column.  What the statement does to the table
    is SQLite's and is not modelled. *)
Definition insert_game_params (data : list (str * pyval nzfloat)) : list (pyval nzfloat) :=
  map (fun kd => dict_get data (fst kd) (snd kd)) insert_keys.

(** [args.result or parsed_result] in [cmd_manual_pgn]: the option of the
    command line wins when it is given. *)
Definition result_or (result_arg : option str) (parsed_result : str) : str :=
  match result_arg with
  | Some r => if nonempty r then r else parsed_result
  | None => parsed_result
  end.

(** The dictionary that [cmd_manual_pgn] builds from a PGN text (the
    branch of a PGN file or of the standard input). *)
Definition manual_pgn_data (pgn_code white black : str) (result_arg : option str)
           (pgn : str) : list (str * pyval nzfloat) :=
  let parsed := parse_pgn_text pgn in
  let result := result_or result_arg (pgn_result parsed) in
  [(py "game_id", PStr _ pgn_code);
   (py "white_username", PStr _ white);
   (py "black_username", PStr _ black);
   (py "white_rating", PInt _ (pgn_white_rating parsed));
   (py "black_rating", PInt _ (pgn_black_rating parsed));
   (py "result", PStr _ result);
   (py "white_accuracy", PFloat (FZero nzfloat));
   (py "black_accuracy", PFloat (FZero nzfloat));
   (py "Brilliant_white", PInt _ 0); (py "Brilliant_black", PInt _ 0);
   (py "GreatFind_white", PInt _ 0); (py "GreatFind_black", PInt _ 0);
   (py "Book_white", PInt _ 0); (py "Book_black", PInt _ 0);
   (py "BestMove_white", PInt _ 0); (py "BestMove_black", PInt _ 0);
   (py "Excellent_white", PInt _ 0); (py "Excellent_black", PInt _ 0);
   (py "Good_white", PInt _ 0); (py "Good_black", PInt _ 0);
   (py "Inaccuracy_white", PInt _ 0); (py "Inaccuracy_black", PInt _ 0);
   (py "Mistake_white", PInt _ 0); (py "Mistake_black", PInt _ 0);
   (py "Miss_white", PInt _ 0); (py "Miss_black", PInt _ 0);
   (py "Blunder_white", PInt _ 0); (py "Blunder_black", PInt _ 0)].

End Storage.

(* ===================================================================== *)
(** * cli.py and config.py                                                 *)
(* ===================================================================== *)

(** A pattern that starts with a choice, [(?:a|b)c], tries [ac] and then
    [bc] at each position. *)
Fixpoint rmatch_first (rs : list regex) (s : str) : option str :=
  match rs with
  | [] => None
  | r :: rs' =>
      match rmatch r s cap_init with
      | Some g => Some g
      | None => rmatch_first rs' s
      end
  end.

Fixpoint re_search_alt (rs : list regex) (s : str) : option str :=
  match rmatch_first rs s with
  | Some g => Some g
  | None => match s with
            | [] => None
            | _ :: s' => re_search_alt rs s'
            end
  end.

(** [GAME_REVIEW_URL.format(game_id=...)] of config.py *)
Definition GAME_REVIEW_URL (game_id : str) : str :=
  py "https://www.chess.com/analysis/game/live/" ++ game_id ++ py "/review".

Section Identifiers.

(** Two tables of the interpreter: the characters that [\d] matches in a
    [str] pattern (the decimal digits of Unicode, category Nd), and the
    characters of which [str.isdigit] is true (those of numeric type
    Digit or Decimal, which also holds of superscript digits and the
    like). *)
Variable is_decimal : N -> bool.
Variable is_digit_char : N -> bool.

(** [value.isdigit()] *)
Definition str_isdigit (s : str) : bool := nonempty s && forallb is_digit_char s.

(** A string that [\d+] matches as a whole. *)
Definition str_isdecimal (s : str) : bool := nonempty s && forallb is_decimal s.

(** [(?:game/live|analysis/game/live)/(\d+)] *)
Definition game_id_tail : regex := lit "/" ++ [GroupOpen] ++ plus is_decimal ++ [GroupClose].
Definition game_id_res : list regex :=
  [lit "game/live" ++ game_id_tail; lit "analysis/game/live" ++ game_id_tail].

Definition extract_game_id (value : str) : option str :=
  match re_search_alt game_id_res value with
  | Some g => Some g
  | None => if str_isdigit value then Some value else None
  end.

(** The column that [load_game_ids_from_csv] reads: [game_id] when the
    header has it, else the first column. *)
Definition id_column (fieldnames : list str) : str :=
  if str_mem (py "game_id") fieldnames then py "game_id" else hd [] fieldnames.

(** The loop of [load_game_ids_from_csv] over the rows of the
    [csv.DictReader]; a cell is [None] where a row is shorter than the
    header, and [None] has no [strip]. *)
Fixpoint load_rows (col : str) (rows : list (list (str * option str))) : outcome (list str) :=
  match rows with
  | [] => Returns []
  | row :: rows' =>
      cell <- match lookup col row with
              | None => Returns []                    (* the default of [get] *)
              | Some (Some v) => Returns v
              | Some None => Raises AttributeError
              end ;;
      let val := strip cell in
      let gid := if nonempty val then extract_game_id val else None in
      ids <- load_rows col rows' ;;
      Returns match gid with
              | Some g => if nonempty g then g :: ids else ids
              | None => ids
              end
  end.

(** [load_game_ids_from_csv] on what the reader gives: the header and the
    rows as dictionaries.  Opening and decoding the file is left out. *)
Definition load_game_ids_from_csv (fieldnames : list str)
           (rows : list (list (str * option str))) : outcome (list str) :=
  match fieldnames with
  | [] => Returns []
  | _ => load_rows (id_column fieldnames) rows
  end.

End Identifiers.

(** What is known of the two tables: among the ASCII characters both hold
    the digits 0 to 9 and nothing else, and a decimal digit is a digit
    for [str.isdigit]. *)
Definition digit_tables (is_decimal is_digit_char : N -> bool) : Prop :=
  (forall c, (c < 128)%N -> is_decimal c = isdigit c)
  /\ (forall c, (c < 128)%N -> is_digit_char c = isdigit c)
  /\ (forall c, is_decimal c = true -> is_digit_char c = true).

(* ===================================================================== *)
(** * What a pattern can capture                                           *)
(* ===================================================================== *)

(** [captures P open r]: while the group is open, [r] only takes
    characters that satisfy [P]. *)
Fixpoint captures (P : N -> bool) (open : bool) (r : regex) : Prop :=
  match r with
  | [] => True
  | GroupOpen :: r' => captures P true r'
  | GroupClose :: r' => captures P false r'
  | Q _ p :: r' =>
      (open = true -> forall c, p c = true -> P c = true) /\ captures P open r'
  end.

(** [takes_one open have r]: the group of [r] takes at least one
    character; [have] tells that it already has. *)
Fixpoint takes_one (open have : bool) (r : regex) : bool :=
  match r with
  | [] => have
  | GroupOpen :: r' => takes_one true false r'
  | GroupClose :: r' => takes_one false have r'
  | Q One _ :: r' => takes_one open (have || open) r'
  | Q _ _ :: r' => takes_one open have r'
  end.

(** The characters of a literal. *)
Definition literal (l : str) : regex := map (fun c => Q One (N.eqb c)) l.

(* ===================================================================== *)
(** * analytics.py                                                         *)
(* ===================================================================== *)

Module Analytics.

(** The ten move-quality columns of table [games], each in two colours:
    [brilliant_white] is [tally Brilliant White], and so on. *)
Inductive category : Type :=
| Brilliant | Great | Book | Best | Excellent
| Good | Inaccuracy | Mistake | Miss | Blunder.

Inductive side : Type := White | Black.

Definition categories : list category :=
  [Brilliant; Great; Book; Best; Excellent; Good; Inaccuracy; Mistake; Miss; Blunder].

(** The word of a category in the column names. *)
Definition category_name (c : category) : str :=
  match c with
  | Brilliant => py "brilliant" | Great => py "great" | Book => py "book"
  | Best => py "best" | Excellent => py "excellent" | Good => py "good"
  | Inaccuracy => py "inaccuracy" | Mistake => py "mistake"
  | Miss => py "miss" | Blunder => py "blunder"
  end.

(** SUM over the rows of a group; NULL when there is no row.  Integers
    are taken within SQLite's 64-bit range. *)
Definition sql_sum (l : list Z) : option Z :=
  match l with
  | [] => None
  | _ => Some (fold_right Z.add 0%Z l)
  end.

(** COUNT of the rows *)
Definition sql_count {A : Type} (l : list A) : Z := Z.of_nat (List.length l).

(** The values of a column, first occurrences kept: the keys of a GROUP
    BY, the rows of a UNION. *)
Fixpoint distinct (l : list str) : list str :=
  match l with
  | [] => []
  | x :: l' => x :: filter (fun y => negb (str_eqb y x)) (distinct l')
  end.

Section Queries.

(** SQLite's REAL values and the arithmetic the queries use on them. *)
Variable real : Type.
Variable real_of_int : Z -> real.
Variable real_one : real.                      (* 1.0 *)
Variable real_mul : real -> real -> real.
Variable real_div : real -> real -> real.
Variable real_avg : list real -> real.         (* AVG of a non-empty column *)
Variable real_round : real -> Z -> real.       (* ROUND(x, digits) *)

(** A row of table [games] (database.py), without [created_at]. *)
Record Game : Type := {
  game_id : str;
  white_username : str;
  black_username : str;
  white_rating : Z;
  black_rating : Z;
  tally : category -> side -> Z;
  accuracy_white : real;
  accuracy_black : real;
  result : str
}.

(** A row of the common table expression [player_games]. *)
Record PlayerGame : Type := {
  username : str;
  color : side;
  rating : Z;
  accuracy : real;
  win : Z;
  loss : Z;
  draw : Z;
  moves : category -> Z
}.

(** CASE WHEN result = symbol THEN 1 ELSE 0 END *)
Definition when_result (g : Game) (symbol : string) : Z :=
  if str_eqb (result g) (py symbol) then 1%Z else 0%Z.

Definition white_row (g : Game) : PlayerGame :=
  {| username := white_username g; color := White;
     rating := white_rating g; accuracy := accuracy_white g;
     win := when_result g "1-0";
     loss := when_result g "0-1";
     draw := when_result g "1/2-1/2";
     moves := fun c => tally g c White |}.

Definition black_row (g : Game) : PlayerGame :=
  {| username := black_username g; color := Black;
     rating := black_rating g; accuracy := accuracy_black g;
     win := when_result g "0-1";
     loss := when_result g "1-0";
     draw := when_result g "1/2-1/2";
     moves := fun c => tally g c Black |}.

(** The two SELECTs of [player_games] and their UNION ALL. *)
Definition player_games (games : list Game) : list PlayerGame :=
  map white_row (filter (fun g => negb (str_eqb (white_username g) [])) games)
  ++ map black_row (filter (fun g => negb (str_eqb (black_username g) [])) games).

(** GROUP BY username *)
Definition rows_of (u : str) (rows : list PlayerGame) : list PlayerGame :=
  filter (fun r => str_eqb (username r) u) rows.

Definition group_by_username (rows : list PlayerGame) : list (str * list PlayerGame) :=
  map (fun u => (u, rows_of u rows)) (distinct (map username rows)).

(** ROUND(AVG(column), 1) *)
Definition round_avg (column : list real) : option real :=
  match column with
  | [] => None
  | _ => Some (real_round (real_avg column) 1)
  end.

(** ROUND(1.0 * SUM(column) / NULLIF(COUNT, 0), 2); NULL as soon as an
    operand is NULL. *)
Definition per_game (sum : option Z) (count : Z) : option real :=
  match sum, (if (count =? 0)%Z then None else Some count) with
  | Some s, Some n =>
      Some (real_round (real_div (real_mul real_one (real_of_int s)) (real_of_int n)) 2)
  | _, _ => None
  end.

(** A row of the outer SELECT. *)
Record Summary : Type := {
  s_username : str;
  games_played : Z;
  wins : option Z;
  losses : option Z;
  draws : option Z;
  avg_rating : option real;
  avg_accuracy : option real;
  total : category -> option Z;
  avg_brilliant_per_game : option real;
  avg_great_per_game : option real;
  avg_blunder_per_game : option real
}.

Definition summarize (group : str * list PlayerGame) : Summary :=
  let rows := snd group in
  let total := fun c => sql_sum (map (fun r => moves r c) rows) in
  {| s_username := fst group;
     games_played := sql_count rows;
     wins := sql_sum (map win rows);
     losses := sql_sum (map loss rows);
     draws := sql_sum (map draw rows);
     avg_rating := round_avg (map (fun r => real_of_int (rating r)) rows);
     avg_accuracy := round_avg (map accuracy rows);
     total := total;
     avg_brilliant_per_game := per_game (total Brilliant) (sql_count rows);
     avg_great_per_game := per_game (total Great) (sql_count rows);
     avg_blunder_per_game := per_game (total Blunder) (sql_count rows) |}.

(** ORDER BY total_brilliant DESC, games_played DESC.  NULL sorts below
    every integer.  [before a b] tells that [a] may stand before [b]. *)
Definition null_leb (x y : option Z) : bool :=
  match x, y with
  | None, _ => true
  | Some _, None => false
  | Some a, Some b => (a <=? b)%Z
  end.

Definition before (a b : Summary) : bool :=
  let ta := total a Brilliant in
  let tb := total b Brilliant in
  if null_leb ta tb
  then if null_leb tb ta then (games_played b <=? games_played a)%Z else false
  else true.

Fixpoint insert_row (x : Summary) (l : list Summary) : list Summary :=
  match l with
  | [] => [x]
  | y :: l' => if before x y then x :: y :: l' else y :: insert_row x l'
  end.

(** The rows in the order of the ORDER BY clause; rows with equal keys,
    whose order SQL leaves open, stay in the order of the groups. *)
Definition order_by (l : list Summary) : list Summary :=
  fold_right insert_row [] l.

(** The values of a result row. *)
Inductive sqlval : Type :=
| SNull
| SInt (z : Z)
| SReal (r : real)
| SText (s : str).

Definition int_or_null (x : option Z) : sqlval :=
  match x with Some z => SInt z | None => SNull end.
Definition real_or_null (x : option real) : sqlval :=
  match x with Some r => SReal r | None => SNull end.

(** [dict(r)] for a result row: the columns of the SELECT by name. *)
Definition dict_of_row (s : Summary) : list (str * sqlval) :=
  [(py "username", SText (s_username s));
   (py "games_played", SInt (games_played s));
   (py "wins", int_or_null (wins s));
   (py "losses", int_or_null (losses s));
   (py "draws", int_or_null (draws s));
   (py "avg_rating", real_or_null (avg_rating s));
   (py "avg_accuracy", real_or_null (avg_accuracy s))]
  ++ map (fun c => (py "total_" ++ category_name c, int_or_null (total s c))) categories
  ++ [(py "avg_brilliant_per_game", real_or_null (avg_brilliant_per_game s));
      (py "avg_great_per_game", real_or_null (avg_great_per_game s));
      (py "avg_blunder_per_game", real_or_null (avg_blunder_per_game s))].

(** The rows of the query of [get_player_stats], before [dict]. *)
Definition player_rows (games : list Game) : list Summary :=
  order_by (map summarize (group_by_username (player_games games))).

Definition get_player_stats (games : list Game) : list (list (str * sqlval)) :=
  map dict_of_row (player_rows games).

(** The dictionary that [get_season_summary] returns. *)
Record SeasonSummary : Type := {
  total_games : Z;
  unique_players : Z;
  total_brilliant_moves : Z
}.

(** [get_season_summary].  The sum is the sum of the integers: it is what
    SQLite gives as long as its additions stay within 64 bits, which
    [brilliant_in_range] below tells. *)
Definition get_season_summary (games : list Game) : SeasonSummary :=
  let total_games := sql_count games in
  let players :=
    distinct (map white_username (filter (fun g => negb (str_eqb (white_username g) [])) games)
              ++ map black_username (filter (fun g => negb (str_eqb (black_username g) [])) games)) in
  let unique_players := Z.of_nat (List.length (distinct players)) in
  let total_brilliant :=
    match sql_sum (map (fun g => (tally g Brilliant White + tally g Brilliant Black)%Z) games) with
    | Some z => z
    | None => 0%Z                               (* COALESCE(..., 0) *)
    end in
  {| total_games := total_games;
     unique_players := unique_players;
     total_brilliant_moves := total_brilliant |}.

(** The integer held by a column of a result row. *)
Definition int_column (key : str) (d : list (str * sqlval)) : option Z :=
  match lookup key d with
  | Some (SInt z) => Some z
  | _ => None
  end.

(** The order of the result rows: more brilliant moves first, and among
    equals more games first. *)
Definition ranked_before (d1 d2 : list (str * sqlval)) : Prop :=
  exists b1 n1 b2 n2,
    int_column (py "total_brilliant") d1 = Some b1
    /\ int_column (py "games_played") d1 = Some n1
    /\ int_column (py "total_brilliant") d2 = Some b2
    /\ int_column (py "games_played") d2 = Some n2
    /\ (b2 < b1 \/ (b1 = b2 /\ n2 <= n1))%Z.

(** The games that a player played with each colour, and how many of a
    list of games satisfy a test. *)
Definition as_white (u : str) (games : list Game) : list Game :=
  filter (fun g => str_eqb (white_username g) u) games.
Definition as_black (u : str) (games : list Game) : list Game :=
  filter (fun g => str_eqb (black_username g) u) games.
Definition has_result (symbol : string) (g : Game) : bool :=
  str_eqb (result g) (py symbol).
Definition count_if {A : Type} (p : A -> bool) (l : list A) : Z :=
  Z.of_nat (List.length (filter p l)).

(** The categories whose per-game mean the query computes, and the
    name of such a column. *)
Definition mean_categories : list category := [Brilliant; Great; Blunder].
Definition mean_column (c : category) : str :=
  py "avg_" ++ category_name c ++ py "_per_game".
Definition total_column (c : category) : str := py "total_" ++ category_name c.

(** What one stored game contributes to [player_games]: its white side and
    its black side, a side with an empty username left out. *)
Definition sides (g : Game) : list PlayerGame :=
  (if negb (str_eqb (white_username g) []) then [white_row g] else [])
  ++ (if negb (str_eqb (black_username g) []) then [black_row g] else []).

End Queries.

End Analytics.

(** The sum of an integer column over the rows that [get_player_stats]
    returns. *)
Definition sum_column {real : Type} (key : str)
           (rows : list (list (str * Analytics.sqlval real))) : Z :=
  fold_right Z.add 0%Z
             (map (fun d => match Analytics.int_column key d with
                            | Some z => z
                            | None => 0%Z
                            end) rows).

(** ** The integers of SQLite

    An integer of SQLite has 64 bits.  The sum of two integers that does
    not fit is a REAL, and a SUM whose running total does not fit raises
    the error integer overflow; both depend on the order of the rows.
    [None] stands for either: SQLite gives no integer. *)
Definition int64_min : Z := (-9223372036854775808)%Z.
Definition int64_max : Z := 9223372036854775807%Z.

Definition in_int64 (z : Z) : bool := ((int64_min <=? z) && (z <=? int64_max))%Z.

(** [a + b] on two integers *)
Definition int64_add (a b : Z) : option Z :=
  if in_int64 (a + b) then Some (a + b)%Z else None.

(** SUM over the terms in the order of the rows, from the running total
    [acc]. *)
Fixpoint int64_sum_from (acc : Z) (terms : list (option Z)) : option Z :=
  match terms with
  | [] => Some acc
  | None :: _ => None
  | Some v :: rest =>
      match int64_add acc v with
      | Some acc' => int64_sum_from acc' rest
      | None => None
      end
  end.

(** [COALESCE(SUM(brilliant_white + brilliant_black), 0)] of
    [get_season_summary] on the integers of SQLite. *)
Definition total_brilliant_int64 {real : Type} (games : list (Analytics.Game real)) : option Z :=
  int64_sum_from 0%Z
    (map (fun g => int64_add (Analytics.tally g Analytics.Brilliant Analytics.White)
                             (Analytics.tally g Analytics.Brilliant Analytics.Black)) games).

(** The brilliant moves of the stored games add up within the integers of
    SQLite in whatever order and grouping: their absolute values together
    do not exceed the largest integer. *)
Definition brilliant_in_range {real : Type} (games : list (Analytics.Game real)) : Prop :=
  (fold_right Z.add 0%Z
              (map (fun g => (Z.abs (Analytics.tally g Analytics.Brilliant Analytics.White)
                              + Z.abs (Analytics.tally g Analytics.Brilliant Analytics.Black))%Z)
                   games)
   <= int64_max)%Z.

(* ===================================================================== *)
(** * Sample pages and games                                               *)
(* ===================================================================== *)

(** [s] between double quotes *)
Definition quoted (s : string) : str := dquote :: py s ++ [dquote].

Module Fixture.

(** Decimal numbers [m / 10^d] stand for the doubles of the examples. *)
Definition decimal : Type := (Z * nat)%type.

Definition to_float (m : Z) (d : nat) : pyfloat decimal :=
  if (m =? 0)%Z then FZero decimal else FNonzero (m, d).

(** Digits, then optionally a point and digits. *)
Fixpoint read_decimal (acc : Z) (point : option nat) (s : str) : option (Z * nat) :=
  match s with
  | [] => Some (acc, match point with Some d => d | None => O end)
  | c :: s' =>
      match digit_val c, point with
      | Some v, None => read_decimal (10 * acc + v)%Z None s'
      | Some v, Some d => read_decimal (10 * acc + v)%Z (Some (S d)) s'
      | None, None => if N.eqb c 46 then read_decimal acc (Some O) s' else None
      | None, Some _ => None
      end
  end.

Definition py_float (text : str) : option (pyfloat decimal) :=
  match strip text with
  | [] => None
  | t => option_map (fun md => to_float (fst md) (snd md)) (read_decimal 0 None t)
  end.

Definition int_over_ten (n : Z) : option (pyfloat decimal) := Some (to_float n 1).

(** No embedded details are read in the examples. *)
Definition json_loads (text : str) : option (pyval decimal) := None.
Definition unicodedata_lookup (name : list N) : option N := None.

Definition el (name : string) (attrs : list (str * str)) (kids : list node) : node :=
  Elem (py name) attrs kids.
Definition at_ (k v : string) : str * str := (py k, py v).
Definition txt (s : string) : node := Text (py s).

(** A page whose embedded details end in a truncated escape. *)
Definition truncated_escape_html : str :=
  py "userDetails: JSON.parse(" ++ quoted "\x" ++ py ")".

(** A page whose embedded details are the JSON number 1. *)
Definition number_details_html : str :=
  py "userDetails: JSON.parse(" ++ quoted "1" ++ py ")".

(** A PGN whose result tag is padded with a space, and the draw written
    with escaped slashes, alone and in a script region. *)
Definition padded_result_pgn : str := py "[Result " ++ quoted " 1-0" ++ py "]".
Definition escaped_draw : str := py "1\/2-1\/2".
Definition escaped_draw_html : str :=
  py "window.chesscom = { analysis: { pgn: '[Result " ++ quoted "1\/2-1\/2" ++ py "]', } };".

(** The Game Rating row of the test page of tests/test_parser.py, the
    white rating also carried by a [data-cy] attribute that disagrees
    with the text of the row, the black rating by the row only: the
    markup and its tree. *)
Definition rating_html : str :=
  py "<div class='game-overview-row'><span class='game-overview-row-title'>Game Rating</span>"
  ++ py "<div class='game-overview-row-item'>"
  ++ py "<div class='review-rating-component review-rating-white' data-cy='review-rating-1300'>"
  ++ py "<span>1250</span></div></div>"
  ++ py "<div class='game-overview-row-item'>"
  ++ py "<div class='review-rating-component review-rating-black'><span>1450</span></div></div>"
  ++ py "</div>".

Definition rating_page : soup :=
  [el "div" [at_ "class" "game-overview-row"]
      [el "span" [at_ "class" "game-overview-row-title"] [txt "Game Rating"];
       el "div" [at_ "class" "game-overview-row-item"]
          [el "div" [at_ "class" "review-rating-component review-rating-white";
                     at_ "data-cy" "review-rating-1300"]
              [el "span" [] [txt "1250"]]];
       el "div" [at_ "class" "game-overview-row-item"]
          [el "div" [at_ "class" "review-rating-component review-rating-black"]
              [el "span" [] [txt "1450"]]]]].

(** An Accuracy row without colour-specific elements. *)
Definition accuracy_html : str :=
  py "<div class='game-overview-row'><span class='game-overview-row-title'>Accuracy</span>"
  ++ py "<div class='game-overview-row-item'>76.6</div>"
  ++ py "<div class='game-overview-row-item'>81.5</div></div>".

Definition accuracy_page : soup :=
  [el "div" [at_ "class" "game-overview-row"]
      [el "span" [at_ "class" "game-overview-row-title"] [txt "Accuracy"];
       el "div" [at_ "class" "game-overview-row-item"] [txt "76.6"];
       el "div" [at_ "class" "game-overview-row-item"] [txt "81.5"]]].

(** A tally whose text carries a minus sign. *)
Definition negative_tally_html : str :=
  py "<div data-cy='game-review-tallies-number-Brilliant-white'>-3</div>".

Definition negative_tally_page : soup :=
  [el "div" [at_ "data-cy" "game-review-tallies-number-Brilliant-white"] [txt "-3"]].

(** Two attribute-encoded elements of white, 1300 and then 0, before a
    Game Rating row that reads 1250 for white. *)
Definition overridden_rating_page : soup :=
  [el "div" [at_ "class" "review-rating-white"; at_ "data-cy" "review-rating-1300"] [];
   el "div" [at_ "class" "review-rating-white"; at_ "data-cy" "review-rating-0"] [];
   el "div" [at_ "class" "game-overview-row"]
      [el "span" [at_ "class" "game-overview-row-title"] [txt "Game Rating"];
       el "div" [at_ "class" "game-overview-row-item"]
          [el "div" [at_ "class" "review-rating-component review-rating-white"]
              [el "span" [] [txt "1250"]]]]].

(** The page of tests/test_parser.py, without the white space between
    its elements: the markup and its tree. *)
Definition sample_html : str :=
  py "<html><body><div data-cy='analysis-player-Top'><div data-test-element='user-tagline-username'>white_player</div><img class='cc-avatar-img' src='https://noavatar.gif' /></div>"
  ++ py "<div data-cy='analysis-player-Bottom'><div data-test-element='user-tagline-username'>black_player</div><img class='cc-avatar-img' src='https://noavatar.gif' /></div>"
  ++ py "<div data-cy='game-review-tallies-number-Brilliant-white'>0</div><div data-cy='game-review-tallies-number-Brilliant-black'>1</div>"
  ++ py "<div data-cy='game-review-tallies-number-GreatFind-white'>1</div><div data-cy='game-review-tallies-number-GreatFind-black'>0</div>"
  ++ py "<div data-cy='game-review-tallies-number-Book-white'>5</div><div data-cy='game-review-tallies-number-Book-black'>5</div>"
  ++ py "<div data-cy='game-review-tallies-number-BestMove-white'>4</div><div data-cy='game-review-tallies-number-BestMove-black'>10</div>"
  ++ py "<div data-cy='game-review-tallies-number-Excellent-white'>11</div><div data-cy='game-review-tallies-number-Excellent-black'>9</div>"
  ++ py "<div data-cy='game-review-tallies-number-Good-white'>10</div><div data-cy='game-review-tallies-number-Good-black'>4</div>"
  ++ py "<div data-cy='game-review-tallies-number-Inaccuracy-white'>2</div><div data-cy='game-review-tallies-number-Inaccuracy-black'>4</div>"
  ++ py "<div data-cy='game-review-tallies-number-Mistake-white'>0</div><div data-cy='game-review-tallies-number-Mistake-black'>2</div>"
  ++ py "<div data-cy='game-review-tallies-number-Miss-white'>0</div><div data-cy='game-review-tallies-number-Miss-black'>0</div>"
  ++ py "<div data-cy='game-review-tallies-number-Blunder-white'>1</div><div data-cy='game-review-tallies-number-Blunder-black'>0</div>"
  ++ py "<div class='game-overview-row'><span class='game-overview-row-title'>Accuracy</span><div class='game-overview-row-item'><div class='review-accuracy-white'><span>76.6</span></div></div>"
  ++ py "<div class='game-overview-row-item'><div class='review-accuracy-black'><span>81.5</span></div></div></div>"
  ++ py "<div class='game-overview-row'><span class='game-overview-row-title'>Game Rating</span><div class='game-overview-row-item'><div class='review-rating-component review-rating-white'><span>1300</span></div></div>"
  ++ py "<div class='game-overview-row-item'><div class='review-rating-component review-rating-black'><span>1450</span></div></div></div>"
  ++ py "<script>window.chesscom = { analysis: { pgn: '[Result "
  ++ quoted "0-1" ++ py "]', } };</script></body></html>".

Definition sample_page : soup :=
  [el "html" [] [el "body" []
     [el "div" [at_ "data-cy" "analysis-player-Top"]
         [el "div" [at_ "data-test-element" "user-tagline-username"] [txt "white_player"];
          el "img" [at_ "class" "cc-avatar-img"; at_ "src" "https://noavatar.gif"] []];
      el "div" [at_ "data-cy" "analysis-player-Bottom"]
         [el "div" [at_ "data-test-element" "user-tagline-username"] [txt "black_player"];
          el "img" [at_ "class" "cc-avatar-img"; at_ "src" "https://noavatar.gif"] []];
      el "div" [at_ "data-cy" "game-review-tallies-number-Brilliant-white"] [txt "0"];
      el "div" [at_ "data-cy" "game-review-tallies-number-Brilliant-black"] [txt "1"];
      el "div" [at_ "data-cy" "game-review-tallies-number-GreatFind-white"] [txt "1"];
      el "div" [at_ "data-cy" "game-review-tallies-number-GreatFind-black"] [txt "0"];
      el "div" [at_ "data-cy" "game-review-tallies-number-Book-white"] [txt "5"];
      el "div" [at_ "data-cy" "game-review-tallies-number-Book-black"] [txt "5"];
      el "div" [at_ "data-cy" "game-review-tallies-number-BestMove-white"] [txt "4"];
      el "div" [at_ "data-cy" "game-review-tallies-number-BestMove-black"] [txt "10"];
      el "div" [at_ "data-cy" "game-review-tallies-number-Excellent-white"] [txt "11"];
      el "div" [at_ "data-cy" "game-review-tallies-number-Excellent-black"] [txt "9"];
      el "div" [at_ "data-cy" "game-review-tallies-number-Good-white"] [txt "10"];
      el "div" [at_ "data-cy" "game-review-tallies-number-Good-black"] [txt "4"];
      el "div" [at_ "data-cy" "game-review-tallies-number-Inaccuracy-white"] [txt "2"];
      el "div" [at_ "data-cy" "game-review-tallies-number-Inaccuracy-black"] [txt "4"];
      el "div" [at_ "data-cy" "game-review-tallies-number-Mistake-white"] [txt "0"];
      el "div" [at_ "data-cy" "game-review-tallies-number-Mistake-black"] [txt "2"];
      el "div" [at_ "data-cy" "game-review-tallies-number-Miss-white"] [txt "0"];
      el "div" [at_ "data-cy" "game-review-tallies-number-Miss-black"] [txt "0"];
      el "div" [at_ "data-cy" "game-review-tallies-number-Blunder-white"] [txt "1"];
      el "div" [at_ "data-cy" "game-review-tallies-number-Blunder-black"] [txt "0"];
      el "div" [at_ "class" "game-overview-row"]
         [el "span" [at_ "class" "game-overview-row-title"] [txt "Accuracy"];
          el "div" [at_ "class" "game-overview-row-item"]
             [el "div" [at_ "class" "review-accuracy-white"] [el "span" [] [txt "76.6"]]];
          el "div" [at_ "class" "game-overview-row-item"]
             [el "div" [at_ "class" "review-accuracy-black"] [el "span" [] [txt "81.5"]]]];
      el "div" [at_ "class" "game-overview-row"]
         [el "span" [at_ "class" "game-overview-row-title"] [txt "Game Rating"];
          el "div" [at_ "class" "game-overview-row-item"]
             [el "div" [at_ "class" "review-rating-component review-rating-white"]
                 [el "span" [] [txt "1300"]]];
          el "div" [at_ "class" "game-overview-row-item"]
             [el "div" [at_ "class" "review-rating-component review-rating-black"]
                 [el "span" [] [txt "1450"]]]];
      el "script" [] []]]].

(** The PGN of the test of [parse_pgn_text]. *)
Definition league_pgn : str :=
  py "[Event " ++ quoted "League" ++ py "]" ++ [10%N]
  ++ py "[White " ++ quoted "Alice" ++ py "]" ++ [10%N]
  ++ py "[Black " ++ quoted "Bob" ++ py "]" ++ [10%N]
  ++ py "[Result " ++ quoted "1-0" ++ py "]" ++ [10%N]
  ++ py "[WhiteElo " ++ quoted "1200" ++ py "]" ++ [10%N]
  ++ py "[BlackElo " ++ quoted "1150" ++ py "]" ++ [10%N; 10%N]
  ++ py "1. e4 e5 1-0".

(** The parser on the pages above; a text without markup is one string. *)
Definition BeautifulSoup (html : str) : soup :=
  if str_eqb html sample_html then sample_page
  else if str_eqb html rating_html then rating_page
  else if str_eqb html accuracy_html then accuracy_page
  else if str_eqb html negative_tally_html then negative_tally_page
  else match html with
       | [] => []
       | _ => [Text html]
       end.

Definition parse (html gid : str) : outcome (GameRecord decimal) :=
  parse_game_review_page py_float int_over_ten BeautifulSoup json_loads
                         unicodedata_lookup html gid.

(** Thousandths stand for SQLite's REAL values in the examples. *)
Definition milli : Type := Z.
Definition real_of_int (z : Z) : milli := (1000 * z)%Z.
Definition real_one : milli := 1000%Z.
Definition real_mul (a b : milli) : milli := (a * b / 1000)%Z.
Definition real_div (a b : milli) : milli := (a * 1000 / b)%Z.
Definition real_avg (l : list milli) : milli :=
  (fold_right Z.add 0 l / Z.of_nat (List.length l))%Z.
Definition real_round (x : milli) (digits : Z) : milli :=
  let unit := (10 ^ (3 - digits))%Z in ((2 * x + unit) / (2 * unit) * unit)%Z.

Definition no_tally (c : Analytics.category) (s : Analytics.side) : Z := 0%Z.

(** The two games of the example of the specification. *)
Definition game_a : Analytics.Game milli :=
  {| Analytics.game_id := py "A";
     Analytics.white_username := py "alice"; Analytics.black_username := py "bob";
     Analytics.white_rating := 1300; Analytics.black_rating := 1450;
     Analytics.tally := fun c s =>
       match c, s with Analytics.Brilliant, Analytics.Black => 1%Z | _, _ => 0%Z end;
     Analytics.accuracy_white := 76600%Z; Analytics.accuracy_black := 81500%Z;
     Analytics.result := py "0-1" |}.

Definition game_b : Analytics.Game milli :=
  {| Analytics.game_id := py "B";
     Analytics.white_username := py "bob"; Analytics.black_username := py "alice";
     Analytics.white_rating := 1400; Analytics.black_rating := 1350;
     Analytics.tally := fun c s =>
       match c, s with Analytics.Brilliant, Analytics.White => 2%Z | _, _ => 0%Z end;
     Analytics.accuracy_white := 70000%Z; Analytics.accuracy_black := 90000%Z;
     Analytics.result := py "1-0" |}.

Definition player_stats (games : list (Analytics.Game milli)) :=
  Analytics.get_player_stats real_of_int real_one real_mul real_div real_avg real_round games.


(** The rows of a CSV file as [csv.DictReader] gives them: an address, a
    number, a cell without identifier and an empty cell. *)
Definition cell (k v : string) : str * option str := (py k, Some (py v)).

Definition csv_header : list str := [py "name"; py "game_id"].
Definition csv_rows : list (list (str * option str)) :=
  [[cell "name" "first";
    cell "game_id" " https://www.chess.com/game/live/165168859868?tab=review "];
   [cell "name" "second"; cell "game_id" "42"];
   [cell "name" "third"; cell "game_id" "not a game"];
   [cell "name" "fourth"; cell "game_id" ""]].

(** A part of the two tables of digits: the ASCII digits and the
    Arabic-Indic digits are decimal digits, and [str.isdigit] is also
    true of the superscript two. *)
Definition is_decimal (c : N) : bool := isdigit c || ((1632 <=? c) && (c <=? 1641))%N.
Definition is_digit_char (c : N) : bool := is_decimal c || (c =? 178)%N.

(** The digits one, two, three in Arabic-Indic script. *)
Definition arabic_123 : str := [1633; 1634; 1635]%N.

End Fixture.

(* ===================================================================== *)
(** * Properties of the text functions                                     *)
(* ===================================================================== *)

Lemma str_eqb_eq (a b : str) : str_eqb a b = true <-> a = b.
Proof.
  revert b; induction a as [|x a IH]; intros [|y b]; simpl; split;
    try congruence; try reflexivity.
  - intros H. apply andb_true_iff in H as [Hx Ha].
    apply N.eqb_eq in Hx. apply IH in Ha. congruence.
  - intros H. injection H as -> ->. rewrite N.eqb_refl. simpl. now apply IH.
Qed.

Lemma str_eqb_refl (a : str) : str_eqb a a = true.
Proof. now apply str_eqb_eq. Qed.

Lemma str_eqb_neq (a b : str) : str_eqb a b = false <-> a <> b.
Proof.
  split.
  - intros H E. apply str_eqb_eq in E. congruence.
  - intros H. destruct (str_eqb a b) eqn:E; [|reflexivity].
    apply str_eqb_eq in E. contradiction.
Qed.

Lemma str_eqb_sym (a b : str) : str_eqb a b = str_eqb b a.
Proof.
  destruct (str_eqb a b) eqn:E.
  - apply str_eqb_eq in E. subst. symmetry. apply str_eqb_refl.
  - symmetry. apply str_eqb_neq. apply str_eqb_neq in E. congruence.
Qed.

Lemma str_mem_In (x : str) (xs : list str) : str_mem x xs = true <-> In x xs.
Proof.
  unfold str_mem. rewrite existsb_exists. split.
  - intros [y [Hy E]]. apply str_eqb_eq in E. now subst.
  - intros H. exists x. split; [assumption | apply str_eqb_refl].
Qed.

(** Stripping only removes characters. *)
Lemma lstrip_incl (s : str) (c : N) : In c (lstrip s) -> In c s.
Proof.
  induction s as [|x s IH]; simpl; [tauto|].
  destruct (isspace x); simpl; intuition.
Qed.

Lemma strip_incl (s : str) (c : N) : In c (strip s) -> In c s.
Proof.
  unfold strip, rstrip. intros H.
  apply in_rev, lstrip_incl, in_rev in H. now apply lstrip_incl.
Qed.

(** * The result symbols *)

Lemma result_of_tag_closed (tag : str) : In (result_of_tag tag) ([] :: result_symbols).
Proof.
  unfold result_of_tag.
  destruct (str_mem _ result_symbols) eqn:E.
  - right. now apply str_mem_In.
  - now left.
Qed.

Lemma extract_pgn_result_closed (lookup_name : list N -> option N) (html : str) :
  In (_extract_pgn_result lookup_name html) ([] :: result_symbols).
Proof.
  unfold _extract_pgn_result.
  destruct (re_search pgn_re html); [|now left].
  destruct (unicode_escape _ _); [|now left].
  destruct (re_search Result_re _); [|now left].
  apply result_of_tag_closed.
Qed.

(** * The tests of tests/test_parser.py *)

Example test_parse_pgn_text :
  parse_pgn_text Fixture.league_pgn
  = {| pgn_result := py "1-0"; pgn_white_rating := 1200; pgn_black_rating := 1150 |}.
Proof. vm_compute. reflexivity. Qed.

Example test_parse_game_review_page :
  exists r,
    Fixture.parse Fixture.sample_html (py "165168859868") = Returns r
    /\ game_id r = py "165168859868"
    /\ white_username r = PStr _ (py "white_player")
    /\ black_username r = PStr _ (py "black_player")
    /\ lookup (py "Brilliant_white") (tallies r) = Some 0%Z
    /\ lookup (py "Brilliant_black") (tallies r) = Some 1%Z
    /\ lookup (py "GreatFind_white") (tallies r) = Some 1%Z
    /\ lookup (py "Book_white") (tallies r) = Some 5%Z
    /\ lookup (py "BestMove_black") (tallies r) = Some 10%Z
    /\ lookup (py "Blunder_white") (tallies r) = Some 1%Z
    /\ white_rating r = PInt _ 1300
    /\ black_rating r = PInt _ 1450
    /\ white_accuracy r = Fixture.to_float 766 1
    /\ black_accuracy r = Fixture.to_float 815 1
    /\ result r = py "0-1".
Proof. eexists. split; [vm_compute; reflexivity|]. repeat split. Qed.

(** C2, as stated, fails: the tag value of [Fixture.padded_result_pgn] is the
    symbol 1-0 after a space, which is neither one of the four symbols
    nor the escaped draw, and [parse_pgn_text] stores 1-0 for it instead
    of the empty string. *)
Lemma C2_counterexample :
  re_search Result_re Fixture.padded_result_pgn = Some (py " 1-0")
  /\ str_mem (py " 1-0") result_symbols = false
  /\ str_eqb (py " 1-0") Fixture.escaped_draw = false
  /\ pgn_result (parse_pgn_text Fixture.padded_result_pgn) = py "1-0".
Proof. repeat split; vm_compute; reflexivity. Qed.

(** C2 (amended): a result tag value is trimmed and its escaped slashes
    are restored before it is compared.  The stored result is that
    trimmed, unescaped value when it is one of the four symbols, and the
    empty string otherwise: the four symbols pass unchanged, the escaped
    draw becomes 1/2-1/2, a padded symbol is stored without its padding,
    and the stored result is always one of the four symbols or empty.
    [parse_pgn_text] stores in this way the value of the first result
    tag of the PGN text, [_extract_pgn_result] that of the first result
    tag of the decoded embedded PGN, and [parse_game_review_page] stores
    what [_extract_pgn_result] returns; the result is empty without a
    tag, and when the embedded PGN is missing or cannot be decoded. *)
Theorem C2_result_normalization :
  Forall (fun symbol => result_of_tag symbol = symbol) result_symbols
  /\ result_of_tag Fixture.escaped_draw = py "1/2-1/2"
  /\ result_of_tag (py " 1-0") = py "1-0"
  /\ (forall tag, In (result_of_tag tag) ([] :: result_symbols))
  /\ (forall tag,
        In (unescape_slashes (strip tag)) result_symbols ->
        result_of_tag tag = unescape_slashes (strip tag))
  /\ (forall tag,
        ~ In (unescape_slashes (strip tag)) result_symbols ->
        result_of_tag tag = [])
  /\ (forall pgn,
        pgn_result (parse_pgn_text pgn)
        = match re_search Result_re pgn with
          | Some tag => result_of_tag tag
          | None => []
          end)
  /\ (forall lookup_name html,
        _extract_pgn_result lookup_name html
        = match re_search pgn_re html with
          | Some raw =>
              match unicode_escape lookup_name (unescape_slashes raw) with
              | Some pgn =>
                  match re_search Result_re pgn with
                  | Some tag => result_of_tag tag
                  | None => []
                  end
              | None => []
              end
          | None => []
          end)
  /\ (forall lookup_name html,
        In (_extract_pgn_result lookup_name html) ([] :: result_symbols))
  /\ (forall lookup_name,
        _extract_pgn_result lookup_name Fixture.escaped_draw_html = py "1/2-1/2")
  /\ (forall (nzfloat : Type) py_float int_over_ten BeautifulSoup json_loads lookup_name
             html gid (r : GameRecord nzfloat),
        parse_game_review_page py_float int_over_ten BeautifulSoup json_loads lookup_name
                               html gid = Returns r ->
        result r = _extract_pgn_result lookup_name html).
Proof.
  split; [repeat constructor|].
  split; [vm_compute; reflexivity|].
  split; [vm_compute; reflexivity|].
  split; [apply result_of_tag_closed|].
  split.
  { intros tag H. unfold result_of_tag. apply str_mem_In in H. now rewrite H. }
  split.
  { intros tag H. unfold result_of_tag.
    destruct (str_mem _ result_symbols) eqn:E; [|reflexivity].
    apply str_mem_In in E. contradiction. }
  split; [reflexivity|].
  split; [reflexivity|].
  split; [apply extract_pgn_result_closed|].
  split; [intros lookup_name; vm_compute; reflexivity|].
  intros nzfloat py_float int_over_ten BeautifulSoup json_loads lookup_name html gid r.
  unfold parse_game_review_page.
  destruct (_extract_user_details _ _ _) as [ud|]; cbn [bind]; [|discriminate].
  destruct (side_details ud "white") as [wd|]; cbn [bind]; [|discriminate].
  destruct (side_details ud "black") as [bd|]; cbn [bind]; [|discriminate].
  destruct (accuracies _ _ _) as [acc|]; cbn [bind]; [|discriminate].
  intros H. injection H as <-. reflexivity.
Qed.

(** C2 on the padded tag value and on a value that is no symbol. *)
Lemma C2_result_normalization_witness :
  result_of_tag (py " 1-0") = py "1-0" /\ result_of_tag (py "2-0") = [].
Proof.
  destruct C2_result_normalization as (_ & _ & _ & _ & Hin & Hout & _).
  split.
  - apply (Hin (py " 1-0")). vm_compute. tauto.
  - apply (Hout (py "2-0")). vm_compute. intros [H|[H|[H|[H|[]]]]]; discriminate.
Defined.

(* ===================================================================== *)
(** * Properties of [parse_game_review_page]                               *)
(* ===================================================================== *)

Section ParserProperties.

Variable nzfloat : Type.
Variable py_float : str -> option (pyfloat nzfloat).
Variable int_over_ten : Z -> option (pyfloat nzfloat).
Variable BeautifulSoup : str -> soup.
Variable json_loads : str -> option (pyval nzfloat).
Variable unicodedata_lookup : list N -> option N.

Local Abbreviation parse :=
  (parse_game_review_page py_float int_over_ten BeautifulSoup json_loads unicodedata_lookup).
Local Abbreviation user_details_of := (_extract_user_details json_loads unicodedata_lookup).

(** What a returned record is made of. *)
Lemma parse_returns_inv (html gid : str) (r : GameRecord nzfloat) :
  parse html gid = Returns r ->
  exists ud wd bd acc,
    user_details_of html = Returns ud
    /\ side_details ud "white" = Returns wd
    /\ side_details ud "black" = Returns bd
    /\ accuracies py_float int_over_ten (BeautifulSoup html) = Returns acc
    /\ r = {| game_id := gid;
              white_username :=
                py_or (username_from_dom (BeautifulSoup html) top_player_sel
                                         (detail wd "username")) (PStr _ []);
              black_username :=
                py_or (username_from_dom (BeautifulSoup html) bottom_player_sel
                                         (detail bd "username")) (PStr _ []);
              white_rating :=
                py_or (rating_from_details
                         (fst (ratings_from_row (BeautifulSoup html)
                                                (ratings_from_attrs (BeautifulSoup html)))) wd)
                      (PInt _ 0);
              black_rating :=
                py_or (rating_from_details
                         (snd (ratings_from_row (BeautifulSoup html)
                                                (ratings_from_attrs (BeautifulSoup html)))) bd)
                      (PInt _ 0);
              white_accuracy := fst acc;
              black_accuracy := snd acc;
              result := _extract_pgn_result unicodedata_lookup html;
              tallies := flat_map (tally_entries (BeautifulSoup html)) tally_types |}.
Proof.
  unfold parse_game_review_page. intros H.
  destruct (user_details_of html) as [ud|] eqn:Eud; [|discriminate].
  cbn [bind] in H.
  destruct (side_details ud "white") as [wd|] eqn:Ewd; [|discriminate].
  destruct (side_details ud "black") as [bd|] eqn:Ebd; [|discriminate].
  cbn [bind] in H.
  destruct (accuracies py_float int_over_ten (BeautifulSoup html)) as [acc|] eqn:Eacc;
    [|discriminate].
  cbn [bind] in H. injection H as <-.
  exists ud, wd, bd, acc. repeat split; assumption.
Qed.


(** C1, the failing input: on a page whose embedded user details end in a
    truncated escape, the decoding that [_extract_user_details] does
    outside its [try] raises, and the exception leaves
    [parse_game_review_page], whatever the rest of the page holds. *)
Theorem C1_truncated_escape_raises (gid : str) :
  parse Fixture.truncated_escape_html gid = Raises UnicodeError.
Proof.
  unfold parse_game_review_page.
  replace (user_details_of Fixture.truncated_escape_html)
    with (@Raises (pyval nzfloat) UnicodeError) by (vm_compute; reflexivity).
  reflexivity.
Qed.

(** Embedded details that load as something else than an object are not
    caught either. *)
Lemma parse_number_details_raises (gid : str) :
  json_loads (py "1") = Some (PInt _ 1) ->
  parse Fixture.number_details_html gid = Raises AttributeError.
Proof.
  intros Hjson. unfold parse_game_review_page.
  replace (user_details_of Fixture.number_details_html)
    with (Returns (PInt nzfloat 1)).
  - reflexivity.
  - unfold _extract_user_details.
    replace (re_search userDetails_re Fixture.number_details_html)
      with (Some (py "1")) by (vm_compute; reflexivity).
    replace (unicode_escape unicodedata_lookup (py "1"))
      with (Some (py "1")) by (vm_compute; reflexivity).
    now rewrite Hjson.
Qed.

Lemma tallies_without_elements (s : soup) (types : list str) :
  Forall (fun t => select s (tally_sel t "white") = []
                   /\ select s (tally_sel t "black") = []) types ->
  flat_map (tally_entries s) types
  = flat_map (fun t => [(t ++ py "_white", 0%Z); (t ++ py "_black", 0%Z)]) types.
Proof.
  induction 1 as [|t types [Hw Hb] _ IH]; [reflexivity|].
  cbn [flat_map]. rewrite IH. unfold tally_entries, select_one.
  now rewrite Hw, Hb.
Qed.

(** The part of C1 that holds: a page without embedded details, without
    an embedded PGN and without any of the selected elements gives the
    record of defaults. *)
Lemma parse_page_without_selectors (html gid : str) :
  re_search userDetails_re html = None ->
  re_search pgn_re html = None ->
  lacks_selectors (BeautifulSoup html) ->
  parse html gid = Returns (default_record nzfloat gid).
Proof.
  intros Hud Hpgn (Htop & Hbottom & Hattr & Hrow & Hacc & Htally).
  unfold parse_game_review_page, _extract_user_details. rewrite Hud.
  cbn [bind side_details lookup].
  unfold accuracies, labelled_row, username_from_dom, select_one,
    ratings_from_row, ratings_from_attrs, labelled_row, _extract_pgn_result.
  rewrite Htop, Hbottom, Hattr, Hrow, Hacc, Hpgn.
  rewrite (@tallies_without_elements _ _ Htally).
  reflexivity.
Qed.


End ParserProperties.


(** * Integers read from text *)

Lemma digit_val_nonneg (c : N) (d : Z) : digit_val c = Some d -> (0 <= d)%Z.
Proof.
  unfold digit_val. destruct (_ && _); [|discriminate].
  intros H. injection H as <-. apply N2Z.is_nonneg.
Qed.

Lemma int_digits_nonneg (s : str) :
  forall acc after z, (0 <= acc)%Z -> int_digits acc after s = Some z -> (0 <= z)%Z.
Proof.
  induction s as [|c s IH]; intros acc after z Hacc; cbn [int_digits].
  - destruct after; [|discriminate]. intros H. injection H as <-. assumption.
  - destruct (digit_val c) as [d|] eqn:Ed.
    + apply IH. apply digit_val_nonneg in Ed. lia.
    + destruct (_ && _); [|discriminate]. now apply IH.
Qed.

(** [int] gives a negative number only for a text with a minus sign. *)
Lemma py_int_nonneg (text : str) (z : Z) :
  ~ In hyphen text -> py_int text = Some z -> (0 <= z)%Z.
Proof.
  unfold py_int. intros Hno.
  destruct (strip text) as [|c rest] eqn:E; [discriminate|].
  destruct (N.eqb c 43); [apply int_digits_nonneg; lia|].
  destruct (N.eqb c hyphen) eqn:Ec.
  - exfalso. apply Hno. apply strip_incl. rewrite E.
    apply N.eqb_eq in Ec. subst. now left.
  - apply int_digits_nonneg. lia.
Qed.

Lemma safe_int_nonneg (text : option str) :
  (forall t, text = Some t -> ~ In hyphen t) -> (0 <= _safe_int text)%Z.
Proof.
  intros H. unfold _safe_int. destruct text as [t|]; [|lia].
  destruct (nonempty (strip t)); [|lia].
  destruct (py_int (strip t)) as [z|] eqn:E; [|lia].
  apply py_int_nonneg in E; [assumption|].
  intros Hin. apply strip_incl in Hin. now apply (H t).
Qed.





(** The ratings after the Game Rating row, colour by colour. *)
Lemma ratings_from_row_white (s : soup) (ratings : Z * Z) :
  fst (ratings_from_row s ratings)
  = if (fst ratings =? 0)%Z
    then match labelled_row s "Game Rating" with
         | Some row => _safe_int (option_map get_text (select_one_in row rating_white_sel))
         | None => 0%Z
         end
    else fst ratings.
Proof.
  unfold ratings_from_row. destruct ratings as [w b]. cbn [fst snd].
  destruct (w =? 0)%Z eqn:Ew; cbn [orb].
  - apply Z.eqb_eq in Ew. subst. now destruct (labelled_row s "Game Rating").
  - destruct (b =? 0)%Z; [|reflexivity]. now destruct (labelled_row s "Game Rating").
Qed.

Lemma ratings_from_row_black (s : soup) (ratings : Z * Z) :
  snd (ratings_from_row s ratings)
  = if (snd ratings =? 0)%Z
    then match labelled_row s "Game Rating" with
         | Some row => _safe_int (option_map get_text (select_one_in row rating_black_sel))
         | None => 0%Z
         end
    else snd ratings.
Proof.
  unfold ratings_from_row. destruct ratings as [w b]. cbn [fst snd].
  destruct (b =? 0)%Z eqn:Eb.
  - apply Z.eqb_eq in Eb. subst. rewrite orb_true_r.
    now destruct (labelled_row s "Game Rating").
  - rewrite orb_false_r. destruct (w =? 0)%Z; [|reflexivity].
    now destruct (labelled_row s "Game Rating").
Qed.

(** The loop over the attribute-encoded elements leaves, for each colour,
    the number of the last element that sets it. *)
Lemma last_cons {A : Type} (x d : A) (l : list A) : last (x :: l) d = last l x.
Proof.
  revert x d. induction l as [|y l IH]; intros x d; [reflexivity|].
  change (last (x :: y :: l) d) with (last (y :: l) d). now rewrite !IH.
Qed.

Lemma attr_loop_white (els : list tag) :
  forall init,
    fst (fold_left rating_attr_step els init)
    = last (map (fun el => match attr_rating el with Some num => num | None => 0%Z end)
                (filter sets_white els)) (fst init).
Proof.
  induction els as [|el els IH]; intros init; [reflexivity|].
  cbn [fold_left filter]. rewrite IH. unfold rating_attr_step.
  change (py_int (last_segment (attr "data-cy" (tag_attrs el)))) with (attr_rating el).
  unfold sets_white at 2.
  destruct (attr_rating el) as [num|] eqn:E; [|reflexivity].
  destruct (str_mem (py "review-rating-white") _).
  - cbn [map fst]. now rewrite E, last_cons.
  - now destruct (str_mem (py "review-rating-black") _).
Qed.

Lemma attr_loop_black (els : list tag) :
  forall init,
    snd (fold_left rating_attr_step els init)
    = last (map (fun el => match attr_rating el with Some num => num | None => 0%Z end)
                (filter sets_black els)) (snd init).
Proof.
  induction els as [|el els IH]; intros init; [reflexivity|].
  cbn [fold_left filter]. rewrite IH. unfold rating_attr_step.
  change (py_int (last_segment (attr "data-cy" (tag_attrs el)))) with (attr_rating el).
  unfold sets_black at 2.
  destruct (attr_rating el) as [num|] eqn:E; [|reflexivity].
  destruct (str_mem (py "review-rating-white") _); cbn [negb andb]; [reflexivity|].
  destruct (str_mem (py "review-rating-black") _); [|reflexivity].
  cbn [map snd]. now rewrite E, last_cons.
Qed.

(** A later attribute-encoded element replaces an earlier one of its
    colour, also with zero: on [Fixture.overridden_rating_page] the loop
    leaves zero for white, and the Game Rating row gives 1250. *)
Example rating_attr_later_zero :
  map attr_rating (filter sets_white (select Fixture.overridden_rating_page rating_attr_sel))
  = [Some 1300%Z; Some 0%Z]
  /\ ratings_from_attrs Fixture.overridden_rating_page = (0, 0)%Z
  /\ ratings_from_row Fixture.overridden_rating_page (0, 0)%Z = (1250, 0)%Z.
Proof. repeat split; vm_compute; reflexivity. Qed.

Section RatingProperties.

Variable nzfloat : Type.
Variable py_float : str -> option (pyfloat nzfloat).
Variable int_over_ten : Z -> option (pyfloat nzfloat).
Variable BeautifulSoup : str -> soup.
Variable json_loads : str -> option (pyval nzfloat).
Variable unicodedata_lookup : list N -> option N.

Local Abbreviation parse :=
  (parse_game_review_page py_float int_over_ten BeautifulSoup json_loads unicodedata_lookup).
Local Abbreviation user_details_of := (_extract_user_details json_loads unicodedata_lookup).
Local Abbreviation from_attrs html := (ratings_from_attrs (BeautifulSoup html)).
Local Abbreviation from_row html :=
  (ratings_from_row (BeautifulSoup html) (ratings_from_attrs (BeautifulSoup html))).

Lemma py_or_idem (v d : pyval nzfloat) : py_or (py_or v d) d = py_or v d.
Proof.
  unfold py_or. destruct (truthy v) eqn:E; [now rewrite E|].
  now destruct (truthy d).
Qed.

Lemma final_rating_nonzero (rating : Z) (details : pyval nzfloat) :
  rating <> 0%Z ->
  py_or (rating_from_details rating details) (PInt _ 0) = PInt _ rating.
Proof.
  intros H. apply Z.eqb_neq in H. unfold rating_from_details.
  assert (E : py_or (PInt nzfloat rating) (PInt _ 0) = PInt _ rating)
    by (unfold py_or; simpl; now rewrite H).
  destruct details; try exact E. now rewrite H.
Qed.

Lemma final_rating_zero (details : pyval nzfloat) :
  py_or (rating_from_details 0 details) (PInt _ 0)
  = py_or (detail details "gameRating") (PInt _ 0).
Proof.
  unfold rating_from_details.
  destruct details; try reflexivity. cbn [Z.eqb]. apply py_or_idem.
Qed.

(** C3 (amended): the attribute-encoded rating of a colour is the number
    of the last attribute-encoded element that sets this colour, a later
    element replacing an earlier one also with zero, and zero when no
    element sets it; when it is not zero it wins over the Game Rating
    row and over the embedded details; the Game Rating row is consulted
    for each colour whose rating is still zero, whatever the rating of
    the other colour; the embedded [gameRating] is used only for a
    colour whose rating is still zero after that; a rating that is not
    zero is never replaced by a later zero, nor by any later value. *)
Theorem C3_rating_resolution (html gid : str) (r : GameRecord nzfloat) :
  parse html gid = Returns r ->
  fst (from_attrs html)
  = last_rating (filter sets_white (select (BeautifulSoup html) rating_attr_sel))
  /\ snd (from_attrs html)
     = last_rating (filter sets_black (select (BeautifulSoup html) rating_attr_sel))
  /\ (fst (from_attrs html) <> 0%Z -> white_rating r = PInt _ (fst (from_attrs html)))
  /\ (snd (from_attrs html) <> 0%Z -> black_rating r = PInt _ (snd (from_attrs html)))
  /\ (fst (from_attrs html) = 0%Z ->
      fst (from_row html)
      = match labelled_row (BeautifulSoup html) "Game Rating" with
        | Some row => _safe_int (option_map get_text (select_one_in row rating_white_sel))
        | None => 0%Z
        end)
  /\ (snd (from_attrs html) = 0%Z ->
      snd (from_row html)
      = match labelled_row (BeautifulSoup html) "Game Rating" with
        | Some row => _safe_int (option_map get_text (select_one_in row rating_black_sel))
        | None => 0%Z
        end)
  /\ (fst (from_row html) <> 0%Z -> white_rating r = PInt _ (fst (from_row html)))
  /\ (snd (from_row html) <> 0%Z -> black_rating r = PInt _ (snd (from_row html)))
  /\ (fst (from_row html) = 0%Z ->
      exists ud wd, user_details_of html = Returns ud
                    /\ side_details ud "white" = Returns wd
                    /\ white_rating r = py_or (detail wd "gameRating") (PInt _ 0))
  /\ (snd (from_row html) = 0%Z ->
      exists ud bd, user_details_of html = Returns ud
                    /\ side_details ud "black" = Returns bd
                    /\ black_rating r = py_or (detail bd "gameRating") (PInt _ 0)).
Proof.
  intros H.
  apply parse_returns_inv in H as (ud & wd & bd & acc & Hud & Hwd & Hbd & _ & ->).
  cbn [white_rating black_rating].
  pose proof (ratings_from_row_white (BeautifulSoup html) (from_attrs html)) as Hw.
  pose proof (ratings_from_row_black (BeautifulSoup html) (from_attrs html)) as Hb.
  split; [apply attr_loop_white|].
  split; [apply attr_loop_black|].
  repeat split.
  - intros Hne.
    assert (E : fst (from_row html) = fst (from_attrs html))
      by (rewrite Hw; apply Z.eqb_neq in Hne; now rewrite Hne).
    rewrite E. now apply final_rating_nonzero.
  - intros Hne.
    assert (E : snd (from_row html) = snd (from_attrs html))
      by (rewrite Hb; apply Z.eqb_neq in Hne; now rewrite Hne).
    rewrite E. now apply final_rating_nonzero.
  - intros E. rewrite Hw, E. reflexivity.
  - intros E. rewrite Hb, E. reflexivity.
  - intros Hne. now apply final_rating_nonzero.
  - intros Hne. now apply final_rating_nonzero.
  - intros E. exists ud, wd. rewrite E. repeat split; try assumption.
    apply final_rating_zero.
  - intros E. exists ud, bd. rewrite E. repeat split; try assumption.
    apply final_rating_zero.
Qed.

End RatingProperties.

(** C3, as stated, fails: on [Fixture.rating_page] the white rating is
    1300 after the attribute-encoded elements, so the two ratings are not
    both zero, and yet the Game Rating row is consulted: the black rating
    of the record, 1450, is the text of that row. *)
Lemma C3_counterexample :
  ratings_from_attrs Fixture.rating_page = (1300, 0)%Z
  /\ ratings_from_row Fixture.rating_page (1300, 0)%Z = (1300, 1450)%Z
  /\ exists r, Fixture.parse Fixture.rating_html (py "1") = Returns r
               /\ white_rating r = PInt _ 1300
               /\ black_rating r = PInt _ 1450.
Proof.
  split; [vm_compute; reflexivity|].
  split; [vm_compute; reflexivity|].
  eexists. split; [vm_compute; reflexivity|].
  split; reflexivity.
Qed.

(** C3 on the Game Rating page: the attribute gives white, the row black. *)
Lemma C3_rating_resolution_witness :
  exists r, Fixture.parse Fixture.rating_html (py "1") = Returns r
            /\ white_rating r = PInt _ 1300
            /\ black_rating r = PInt _ 1450.
Proof.
  assert (H : exists r, Fixture.parse Fixture.rating_html (py "1") = Returns r)
    by (eexists; vm_compute; reflexivity).
  destruct H as [r E]. exists r. split; [exact E|].
  pose proof (C3_rating_resolution Fixture.py_float Fixture.int_over_ten
                Fixture.BeautifulSoup Fixture.json_loads
                Fixture.unicodedata_lookup Fixture.rating_html (py "1") E)
    as (_ & _ & Hw & _ & _ & _ & _ & Hb & _).
  split.
  - apply Hw. vm_compute. discriminate.
  - apply Hb. vm_compute. discriminate.
Defined.

Section AccuracyProperties.

Variable nzfloat : Type.
Variable py_float : str -> option (pyfloat nzfloat).
Variable int_over_ten : Z -> option (pyfloat nzfloat).
Variable BeautifulSoup : str -> soup.
Variable json_loads : str -> option (pyval nzfloat).
Variable unicodedata_lookup : list N -> option N.

Local Abbreviation parse :=
  (parse_game_review_page py_float int_over_ten BeautifulSoup json_loads unicodedata_lookup).
Local Abbreviation white_of row := (accuracy_of py_float (select_one_in row accuracy_white_sel)).
Local Abbreviation black_of row := (accuracy_of py_float (select_one_in row accuracy_black_sel)).
Local Abbreviation item_value item := (_safe_float py_float (Some (get_text_strip item))).



End AccuracyProperties.


Section IntegerProperties.

Variable nzfloat : Type.
Variable py_float : str -> option (pyfloat nzfloat).
Variable int_over_ten : Z -> option (pyfloat nzfloat).
Variable BeautifulSoup : str -> soup.
Variable json_loads : str -> option (pyval nzfloat).
Variable unicodedata_lookup : list N -> option N.

Local Abbreviation parse :=
  (parse_game_review_page py_float int_over_ten BeautifulSoup json_loads unicodedata_lookup).
Local Abbreviation user_details_of := (_extract_user_details json_loads unicodedata_lookup).







End IntegerProperties.



(* ===================================================================== *)
(** * Properties of the queries of analytics.py                            *)
(* ===================================================================== *)

Module AnalyticsFacts.
Import Analytics.

Lemma distinct_In (l : list str) (x : str) : In x (distinct l) <-> In x l.
Proof.
  induction l as [|y l IH]; simpl; [tauto|].
  rewrite filter_In, IH, negb_true_iff, str_eqb_neq.
  destruct (list_eq_dec N.eq_dec y x); intuition congruence.
Qed.

Lemma distinct_NoDup (l : list str) : NoDup (distinct l).
Proof.
  induction l as [|y l IH]; simpl; constructor.
  - rewrite filter_In, negb_true_iff, str_eqb_neq. tauto.
  - now apply NoDup_filter.
Qed.

Lemma sum_indicator {A : Type} (p : A -> bool) (l : list A) :
  fold_right Z.add 0%Z (map (fun x => if p x then 1%Z else 0%Z) l) = count_if p l.
Proof.
  unfold count_if. induction l as [|x l IH]; [reflexivity|].
  cbn [map fold_right filter]. rewrite IH.
  destruct (p x); cbn [List.length]; lia.
Qed.

Lemma sql_sum_nonempty (l : list Z) :
  l <> [] -> sql_sum l = Some (fold_right Z.add 0%Z l).
Proof. destruct l; [congruence | reflexivity]. Qed.

Lemma filter_map_commute {A B : Type} (f : A -> B) (p : B -> bool) (l : list A) :
  filter p (map f l) = map f (filter (fun x => p (f x)) l).
Proof.
  induction l as [|x l IH]; [reflexivity|].
  cbn [map filter]. rewrite IH. now destruct (p (f x)).
Qed.

Lemma filter_filter {A : Type} (p q : A -> bool) (l : list A) :
  filter p (filter q l) = filter (fun x => q x && p x) l.
Proof.
  induction l as [|x l IH]; [reflexivity|].
  cbn [filter]. destruct (q x); cbn [filter andb]; rewrite IH; reflexivity.
Qed.

Lemma NoDup_map_injective {A B : Type} (f : A -> B) (l : list A) :
  (forall a b, f a = f b -> a = b) -> NoDup l -> NoDup (map f l).
Proof.
  intros Hinj. induction 1 as [|x l Hx _ IH]; cbn [map]; constructor; [|exact IH].
  intros Hin. apply in_map_iff in Hin as [y [E Hy]]. apply Hinj in E. now subst.
Qed.

Section Facts.

Variable real : Type.
Variable real_of_int : Z -> real.
Variable real_one : real.
Variable real_mul : real -> real -> real.
Variable real_div : real -> real -> real.
Variable real_avg : list real -> real.
Variable real_round : real -> Z -> real.

Local Abbreviation summarize := (summarize real_of_int real_one real_mul real_div real_avg real_round).
Local Abbreviation player_rows := (player_rows real_of_int real_one real_mul real_div real_avg real_round).
Local Abbreviation get_player_stats :=
  (get_player_stats real_of_int real_one real_mul real_div real_avg real_round).
Local Abbreviation per_game := (per_game real_of_int real_one real_mul real_div real_round).

(** ** The rows of [player_games] *)

(** The rows of a player are the white rows of the games played as
    white, then the black rows of the games played as black. *)
Lemma rows_of_player (u : str) (games : list (Game real)) :
  u <> [] ->
  rows_of u (player_games games)
  = map (@white_row real) (as_white u games) ++ map (@black_row real) (as_black u games).
Proof.
  intros Hu. unfold rows_of, player_games, as_white, as_black.
  rewrite filter_app, !filter_map_commute, !filter_filter.
  f_equal; f_equal; apply filter_ext; intros g; cbn [username white_row black_row].
  - destruct (str_eqb (white_username g) u) eqn:E; [|apply andb_false_r].
    apply str_eqb_eq in E. rewrite E.
    replace (str_eqb u []) with false by (symmetry; now apply str_eqb_neq).
    reflexivity.
  - destruct (str_eqb (black_username g) u) eqn:E; [|apply andb_false_r].
    apply str_eqb_eq in E. rewrite E.
    replace (str_eqb u []) with false by (symmetry; now apply str_eqb_neq).
    reflexivity.
Qed.

Lemma player_games_In (games : list (Game real)) (row : PlayerGame real) :
  In row (player_games games)
  <-> exists g, In g games
                /\ ((white_username g <> [] /\ row = white_row g)
                    \/ (black_username g <> [] /\ row = black_row g)).
Proof.
  unfold player_games. rewrite in_app_iff, !in_map_iff. split.
  - intros [[g [<- Hg]]|[g [<- Hg]]]; apply filter_In in Hg as [Hin Hne];
      apply negb_true_iff, str_eqb_neq in Hne; exists g; split; auto.
  - intros [g [Hin [[Hne ->]|[Hne ->]]]]; [left | right]; exists g;
      (split; [reflexivity|]); apply filter_In; split; try assumption;
      now apply negb_true_iff, str_eqb_neq.
Qed.

(** Each game contributes its sides once. *)
Lemma player_games_sides (games : list (Game real)) :
  Permutation (player_games games) (flat_map (@sides real) games).
Proof.
  unfold player_games.
  induction games as [|g games IH]; [reflexivity|].
  cbn [filter flat_map]. unfold sides at 1.
  destruct (negb (str_eqb (white_username g) [])), (negb (str_eqb (black_username g) []));
    cbn [map app].
  - constructor. rewrite <- IH. symmetry. apply Permutation_middle.
  - constructor. exact IH.
  - rewrite <- IH. symmetry. apply Permutation_middle.
  - exact IH.
Qed.

Lemma player_games_username (games : list (Game real)) (u : str) :
  In u (map (@username real) (player_games games))
  <-> u <> [] /\ as_white u games ++ as_black u games <> [].
Proof.
  rewrite in_map_iff. split.
  - intros [row [<- Hin]]. apply player_games_In in Hin as [g [Hin [[Hne ->]|[Hne ->]]]];
      (split; [exact Hne|]); cbn [username white_row black_row]; intros E;
      apply app_eq_nil in E as [Ew Eb].
    + assert (H : In g (as_white (white_username g) games))
        by (apply filter_In; split; [assumption | apply str_eqb_refl]).
      rewrite Ew in H. contradiction.
    + assert (H : In g (as_black (black_username g) games))
        by (apply filter_In; split; [assumption | apply str_eqb_refl]).
      rewrite Eb in H. contradiction.
  - intros [Hu Hne].
    destruct (as_white u games) as [|g gs] eqn:Ew.
    + destruct (as_black u games) as [|g gs] eqn:Eb; [contradiction|].
      assert (H : In g (as_black u games)) by (rewrite Eb; now left).
      apply filter_In in H as [Hin E]. apply str_eqb_eq in E.
      exists (black_row g). split; [exact E|].
      apply player_games_In. exists g. split; [assumption|]. right. split; congruence.
    + assert (H : In g (as_white u games)) by (rewrite Ew; now left).
      apply filter_In in H as [Hin E]. apply str_eqb_eq in E.
      exists (white_row g). split; [exact E|].
      apply player_games_In. exists g. split; [assumption|]. left. split; congruence.
Qed.

(** ** GROUP BY *)

Lemma group_keys (rows : list (PlayerGame real)) :
  map fst (group_by_username rows) = distinct (map (@username real) rows).
Proof.
  unfold group_by_username. rewrite map_map. cbn [fst]. apply map_id.
Qed.

Lemma group_In (rows : list (PlayerGame real)) (g : str * list (PlayerGame real)) :
  In g (group_by_username rows)
  <-> In (fst g) (map (@username real) rows) /\ snd g = rows_of (fst g) rows.
Proof.
  unfold group_by_username. rewrite in_map_iff. split.
  - intros [u [<- Hu]]. apply (proj1 (distinct_In _ _)) in Hu. cbn [fst snd].
    split; [exact Hu | reflexivity].
  - intros [Hu E]. exists (fst g). split; [|apply distinct_In; exact Hu].
    destruct g as [u rs]. cbn [fst snd] in *. subst rs. reflexivity.
Qed.

Lemma rows_of_nonempty (rows : list (PlayerGame real)) (u : str) :
  In u (map (@username real) rows) -> rows_of u rows <> [].
Proof.
  intros Hu E. apply in_map_iff in Hu as [row [<- Hin]].
  assert (H : In row (rows_of (username row) rows))
    by (apply filter_In; split; [assumption | apply str_eqb_refl]).
  rewrite E in H. contradiction.
Qed.

(** ** ORDER BY *)

Lemma insert_row_perm (x : Summary real) (l : list (Summary real)) :
  Permutation (insert_row x l) (x :: l).
Proof.
  induction l as [|y l IH]; cbn [insert_row]; [reflexivity|].
  destruct (before x y); [reflexivity|].
  rewrite IH. apply perm_swap.
Qed.

Lemma order_by_perm (l : list (Summary real)) : Permutation (order_by l) l.
Proof.
  induction l as [|x l IH]; cbn [order_by fold_right]; [reflexivity|].
  fold (order_by l). rewrite insert_row_perm. now constructor.
Qed.

Lemma before_total (a b : Summary real) : before a b = false -> before b a = true.
Proof.
  unfold before, null_leb.
  destruct (total a Brilliant) as [x|], (total b Brilliant) as [y|]; intros H;
    repeat match type of H with
           | context [(?p <=? ?q)%Z] => destruct (Z.leb_spec p q)
           end;
    try discriminate;
    repeat match goal with
           | |- context [(?p <=? ?q)%Z] => destruct (Z.leb_spec p q)
           end;
    try reflexivity; lia.
Qed.

Lemma insert_row_sorted (x : Summary real) (l : list (Summary real)) :
  Sorted (fun a b => before a b = true) l ->
  Sorted (fun a b => before a b = true) (insert_row x l).
Proof.
  induction 1 as [|y l Hl IH Hhd]; cbn [insert_row].
  - repeat constructor.
  - destruct (before x y) eqn:E.
    + constructor; [now constructor | now constructor].
    + constructor; [exact IH|].
      destruct l as [|z l]; cbn [insert_row].
      * constructor. now apply before_total.
      * destruct (before x z); constructor;
          [now apply before_total | now inversion Hhd].
Qed.

Lemma order_by_sorted (l : list (Summary real)) :
  Sorted (fun a b => before a b = true) (order_by l).
Proof.
  induction l as [|x l IH]; cbn [order_by fold_right]; [constructor|].
  now apply insert_row_sorted.
Qed.

(** ** The result rows *)

Lemma player_rows_In (games : list (Game real)) (s : Summary real) :
  In s (player_rows games)
  <-> exists u, In u (map (@username real) (player_games games))
                /\ s = summarize (u, rows_of u (player_games games)).
Proof.
  unfold Analytics.player_rows.
  split.
  - intros H. apply (Permutation_in _ (order_by_perm _)) in H.
    apply in_map_iff in H as [[u rs] [<- Hg]].
    apply group_In in Hg as [Hu E]. cbn [fst snd] in *. subst rs. now exists u.
  - intros [u [Hu ->]].
    apply (Permutation_in _ (Permutation_sym (order_by_perm _))).
    apply in_map. apply group_In. now split.
Qed.

Lemma player_rows_usernames (games : list (Game real)) :
  NoDup (map (@s_username real) (player_rows games)).
Proof.
  unfold Analytics.player_rows.
  apply (Permutation_NoDup (Permutation_sym (Permutation_map _ (order_by_perm _)))).
  rewrite map_map. cbn [s_username Analytics.summarize].
  change (fun x : str * list (PlayerGame real) => fst x) with (@fst str (list (PlayerGame real))).
  rewrite group_keys. apply distinct_NoDup.
Qed.

Lemma lookup_username (s : Summary real) :
  lookup (py "username") (dict_of_row s) = Some (SText _ (s_username s)).
Proof. reflexivity. Qed.

Lemma lookup_games_played (s : Summary real) :
  int_column (py "games_played") (dict_of_row s) = Some (games_played s).
Proof. reflexivity. Qed.

Lemma lookup_wins (s : Summary real) :
  lookup (py "wins") (dict_of_row s) = Some (int_or_null _ (wins s)).
Proof. reflexivity. Qed.

Lemma lookup_losses (s : Summary real) :
  lookup (py "losses") (dict_of_row s) = Some (int_or_null _ (losses s)).
Proof. reflexivity. Qed.

Lemma lookup_draws (s : Summary real) :
  lookup (py "draws") (dict_of_row s) = Some (int_or_null _ (draws s)).
Proof. reflexivity. Qed.

Lemma lookup_total (s : Summary real) (c : category) :
  lookup (total_column c) (dict_of_row s) = Some (int_or_null _ (total s c)).
Proof. destruct c; reflexivity. Qed.

Lemma lookup_mean (s : Summary real) (c : category) :
  lookup (mean_column c) (dict_of_row s)
  = match c with
    | Brilliant => Some (real_or_null (avg_brilliant_per_game s))
    | Great => Some (real_or_null (avg_great_per_game s))
    | Blunder => Some (real_or_null (avg_blunder_per_game s))
    | _ => None
    end.
Proof. destruct c; reflexivity. Qed.


Lemma sum_app (l1 l2 : list Z) :
  fold_right Z.add 0%Z (l1 ++ l2)
  = (fold_right Z.add 0%Z l1 + fold_right Z.add 0%Z l2)%Z.
Proof. induction l1 as [|x l1 IH]; cbn [app fold_right]; [reflexivity | lia]. Qed.

(** The sum of a 0/1 column over the rows of a player. *)
Lemma sum_side_column (column : PlayerGame real -> Z) (pw pb : Game real -> bool)
      (u : str) (games : list (Game real)) :
  u <> [] ->
  as_white u games ++ as_black u games <> [] ->
  (forall g, column (white_row g) = if pw g then 1%Z else 0%Z) ->
  (forall g, column (black_row g) = if pb g then 1%Z else 0%Z) ->
  sql_sum (map column (rows_of u (player_games games)))
  = Some (count_if pw (as_white u games) + count_if pb (as_black u games))%Z.
Proof.
  intros Hu Hne Hw Hb. rewrite rows_of_player by assumption.
  rewrite sql_sum_nonempty.
  - rewrite map_app, !map_map, sum_app.
    rewrite (map_ext _ _ Hw), (map_ext _ _ Hb), !sum_indicator. reflexivity.
  - intros E. apply map_eq_nil in E. apply app_eq_nil in E as [Ew Eb].
    apply map_eq_nil in Ew, Eb. rewrite Ew, Eb in Hne. now apply Hne.
Qed.

Lemma int_or_null_column (key : str) (d : list (str * sqlval real)) (x : option Z) :
  lookup key d = Some (int_or_null _ x) -> int_column key d = x.
Proof. unfold int_column. intros ->. now destruct x. Qed.

(** C4: the rows that [get_player_stats] groups are the white side and
    the black side of each stored game, a side with an empty username
    left out; there is one result row for each username of such a side;
    its [games_played] counts the rows of the player, a white row is a win
    when the result is 1-0 and a loss when it is 0-1, a black row the
    other way round, and a row of either colour is a draw when the
    result is 1/2-1/2. *)
Theorem C4_player_groups (games : list (Game real)) :
  Permutation (player_games games) (flat_map (@sides real) games)
  /\ (forall row,
      In row (player_games games)
      <-> exists g, In g games
                    /\ ((white_username g <> [] /\ row = white_row g)
                        \/ (black_username g <> [] /\ row = black_row g)))
  /\ NoDup (map (lookup (py "username")) (get_player_stats games))
  /\ (forall d, In d (get_player_stats games) ->
                exists u, lookup (py "username") d = Some (SText _ u)
                          /\ u <> []
                          /\ as_white u games ++ as_black u games <> [])
  /\ (forall u,
        u <> [] ->
        as_white u games ++ as_black u games <> [] ->
        exists d,
          In d (get_player_stats games)
          /\ lookup (py "username") d = Some (SText _ u)
          /\ int_column (py "games_played") d
             = Some (Z.of_nat (List.length (as_white u games)
                               + List.length (as_black u games)))
          /\ int_column (py "wins") d
             = Some (count_if (has_result "1-0") (as_white u games)
                     + count_if (has_result "0-1") (as_black u games))%Z
          /\ int_column (py "losses") d
             = Some (count_if (has_result "0-1") (as_white u games)
                     + count_if (has_result "1-0") (as_black u games))%Z
          /\ int_column (py "draws") d
             = Some (count_if (has_result "1/2-1/2") (as_white u games)
                     + count_if (has_result "1/2-1/2") (as_black u games))%Z).
Proof.
  split; [apply player_games_sides|].
  split; [apply player_games_In|].
  split.
  { unfold Analytics.get_player_stats. rewrite map_map.
    rewrite (map_ext _ (fun s => Some (SText real (s_username s))))
      by (intros s; apply lookup_username).
    rewrite <- (map_map (@s_username real) (fun u => Some (SText real u))).
    apply NoDup_map_injective; [|apply player_rows_usernames].
    intros a b E. congruence. }
  split.
  { intros d Hd. unfold Analytics.get_player_stats in Hd.
    apply in_map_iff in Hd as [s [<- Hs]].
    apply player_rows_In in Hs as [u [Hu ->]].
    exists u. split; [reflexivity|]. now apply player_games_username. }
  intros u Hu Hne.
  exists (dict_of_row (summarize (u, rows_of u (player_games games)))).
  split.
  { unfold Analytics.get_player_stats. apply in_map. apply player_rows_In.
    exists u. split; [|reflexivity]. now apply player_games_username. }
  split; [reflexivity|].
  split.
  { rewrite lookup_games_played. cbn [games_played Analytics.summarize snd].
    unfold sql_count. rewrite rows_of_player by assumption.
    now rewrite length_app, !length_map. }
  split; [|split]; apply int_or_null_column;
    [rewrite lookup_wins | rewrite lookup_losses | rewrite lookup_draws];
    do 2 f_equal; cbn [wins losses draws Analytics.summarize snd];
    apply sum_side_column; try assumption; reflexivity.
Qed.

(** ** Ordering *)

Lemma int_total_brilliant (s : Summary real) :
  int_column (py "total_brilliant") (dict_of_row s) = total s Brilliant.
Proof. apply int_or_null_column. exact (lookup_total s Brilliant). Qed.

Lemma before_ranked (a b : Summary real) (x y : Z) :
  total a Brilliant = Some x ->
  total b Brilliant = Some y ->
  before a b = true ->
  ranked_before (dict_of_row a) (dict_of_row b).
Proof.
  intros Ha Hb H. exists x, (games_played a), y, (games_played b).
  rewrite !int_total_brilliant, !lookup_games_played.
  repeat split; try assumption.
  unfold before, null_leb in H. rewrite Ha, Hb in H.
  repeat match type of H with
         | context [(?p <=? ?q)%Z] => destruct (Z.leb_spec p q)
         end; try discriminate; lia.
Qed.

Lemma ranked_before_trans (d1 d2 d3 : list (str * sqlval real)) :
  ranked_before d1 d2 -> ranked_before d2 d3 -> ranked_before d1 d3.
Proof.
  intros (b1 & n1 & b2 & n2 & H1 & H2 & H3 & H4 & H12)
         (b2' & n2' & b3 & n3 & H3' & H4' & H5 & H6 & H23).
  rewrite H3 in H3'. rewrite H4 in H4'. injection H3' as <-. injection H4' as <-.
  exists b1, n1, b3, n3. repeat split; try assumption. lia.
Qed.

Lemma player_rows_total (games : list (Game real)) (c : category) :
  Forall (fun s => exists x, total s c = Some x) (player_rows games).
Proof.
  apply Forall_forall. intros s Hs.
  apply player_rows_In in Hs as [u [Hu ->]].
  cbn [total Analytics.summarize snd]. eexists. apply sql_sum_nonempty.
  intros E. apply map_eq_nil in E. now apply rows_of_nonempty in Hu.
Qed.

Lemma sorted_rows_ranked (l : list (Summary real)) :
  Forall (fun s => exists x, total s Brilliant = Some x) l ->
  Sorted (fun a b => before a b = true) l ->
  Sorted (@ranked_before real) (map (@dict_of_row real) l).
Proof.
  intros Hall Hsorted. induction Hsorted as [|a l Hl IH Hhd]; cbn [map]; constructor.
  - apply IH. now inversion Hall.
  - inversion Hall as [|? ? [x Hx] Hall']; subst.
    destruct Hhd as [|b l Hab]; cbn [map]; constructor.
    inversion Hall' as [|? ? [y Hy] _]; subst.
    now apply before_ranked with (x := x) (y := y).
Qed.

(** C5: the rows returned by [get_player_stats] are in descending order
    of [total_brilliant], rows with equal totals in descending order of
    [games_played]; every row precedes, in this order, all the rows
    after it. *)
Theorem C5_descending_order (games : list (Game real)) :
  StronglySorted (@ranked_before real) (get_player_stats games).
Proof.
  apply Sorted_StronglySorted; [exact ranked_before_trans|].
  unfold Analytics.get_player_stats. apply sorted_rows_ranked.
  - apply player_rows_total.
  - apply order_by_sorted.
Qed.

(** ** Totals and means *)

(** C6 (amended): every result row holds, for each of the ten
    categories, the sum of the category over the rows of the player; it
    holds a per-game mean, the sum over the count of rows rounded to two
    decimals, for the categories brilliant, great and blunder only; the
    count of rows of a result row is at least one, so that no division
    by zero arises. *)
Theorem C6_totals_and_means (games : list (Game real)) (d : list (str * sqlval real)) :
  In d (get_player_stats games) ->
  exists u n,
    lookup (py "username") d = Some (SText _ u)
    /\ int_column (py "games_played") d = Some n
    /\ n = sql_count (rows_of u (player_games games))
    /\ (1 <= n)%Z
    /\ (forall c,
          int_column (total_column c) d
          = Some (fold_right Z.add 0%Z
                             (map (fun r => moves r c) (rows_of u (player_games games)))))
    /\ (forall c,
          In c mean_categories ->
          lookup (mean_column c) d
          = Some (SReal
                    (real_round
                       (real_div
                          (real_mul real_one
                             (real_of_int
                                (fold_right Z.add 0%Z
                                   (map (fun r => moves r c)
                                        (rows_of u (player_games games))))))
                          (real_of_int n)) 2)))
    /\ (forall c, ~ In c mean_categories -> lookup (mean_column c) d = None).
Proof.
  intros Hd. unfold Analytics.get_player_stats in Hd.
  apply in_map_iff in Hd as [s [<- Hs]].
  apply player_rows_In in Hs as [u [Hu ->]].
  pose proof (rows_of_nonempty _ _ Hu) as Hne.
  set (rows := rows_of u (player_games games)) in *.
  assert (Hn : (1 <= sql_count rows)%Z).
  { unfold sql_count. destruct rows; [contradiction | cbn [List.length]; lia]. }
  assert (Hsum : forall c, total (summarize (u, rows)) c
                           = Some (fold_right Z.add 0%Z (map (fun r => moves r c) rows))).
  { intros c. cbn [total Analytics.summarize snd]. apply sql_sum_nonempty.
    intros E. now apply map_eq_nil in E. }
  assert (Hmean : forall c,
             per_game (sql_sum (map (fun r => moves r c) rows)) (sql_count rows)
             = Some (real_round
                       (real_div
                          (real_mul real_one
                             (real_of_int (fold_right Z.add 0%Z (map (fun r => moves r c) rows))))
                          (real_of_int (sql_count rows))) 2)).
  { intros c. specialize (Hsum c). cbn [total Analytics.summarize snd] in Hsum.
    rewrite Hsum. unfold Analytics.per_game.
    destruct (sql_count rows =? 0)%Z eqn:E; [|reflexivity].
    apply Z.eqb_eq in E. lia. }
  exists u, (sql_count rows).
  split; [reflexivity|].
  split; [reflexivity|].
  split; [reflexivity|].
  split; [exact Hn|].
  split.
  { intros c. rewrite <- Hsum. apply int_or_null_column. apply lookup_total. }
  split.
  - intros c Hc. rewrite lookup_mean.
    destruct Hc as [<-|[<-|[<-|[]]]];
      cbn [avg_brilliant_per_game avg_great_per_game avg_blunder_per_game
           Analytics.summarize snd];
      fold rows; rewrite Hmean; reflexivity.
  - intros c Hc. rewrite lookup_mean.
    destruct c; try reflexivity; exfalso; apply Hc; cbn; tauto.
Qed.

(** C8: without stored games [get_player_stats] returns no row and
    [get_season_summary] returns three zeros; nothing is divided and no
    NULL reaches the result. *)
Theorem C8_empty_collection :
  get_player_stats [] = []
  /\ get_season_summary (real:=real) []
     = {| total_games := 0; unique_players := 0; total_brilliant_moves := 0 |}.
Proof. split; reflexivity. Qed.

End Facts.

(** C6, as stated, fails: the first result row for the two games of the
    example of the specification has no per-game mean of the book
    moves. *)
Lemma C6_counterexample :
  exists d, In d (Fixture.player_stats [Fixture.game_a; Fixture.game_b])
            /\ lookup (py "username") d = Some (SText _ (py "bob"))
            /\ lookup (mean_column Book) d = None.
Proof. eexists. split; [left; reflexivity|]. split; vm_compute; reflexivity. Qed.

(** C4 for the player bob of the example: two games, both won. *)
Lemma C4_player_groups_witness :
  exists d, In d (Fixture.player_stats [Fixture.game_a; Fixture.game_b])
            /\ lookup (py "username") d = Some (SText _ (py "bob"))
            /\ int_column (py "games_played") d = Some 2%Z
            /\ int_column (py "wins") d = Some 2%Z
            /\ int_column (py "losses") d = Some 0%Z
            /\ int_column (py "draws") d = Some 0%Z.
Proof.
  destruct (C4_player_groups Fixture.real_of_int Fixture.real_one Fixture.real_mul
              Fixture.real_div Fixture.real_avg Fixture.real_round
              [Fixture.game_a; Fixture.game_b]) as (_ & _ & _ & _ & H).
  destruct (H (py "bob")) as (d & Hd & Hu & Hn & Hw & Hl & Hdr).
  - vm_compute. discriminate.
  - vm_compute. discriminate.
  - exists d.
    split; [exact Hd|]. split; [exact Hu|]. split; [exact Hn|].
    split; [exact Hw|]. split; [exact Hl | exact Hdr].
Defined.

(** C6 for the first result row of the example. *)
Lemma C6_totals_and_means_witness :
  exists d u n,
    In d (Fixture.player_stats [Fixture.game_a; Fixture.game_b])
    /\ lookup (py "username") d = Some (SText _ u)
    /\ int_column (py "games_played") d = Some n
    /\ (1 <= n)%Z
    /\ lookup (mean_column Blunder) d
       = Some (SReal
                 (Fixture.real_round
                    (Fixture.real_div
                       (Fixture.real_mul Fixture.real_one
                          (Fixture.real_of_int
                             (fold_right Z.add 0%Z
                                (map (fun r => moves r Blunder)
                                     (rows_of u (player_games
                                                   [Fixture.game_a; Fixture.game_b]))))))
                       (Fixture.real_of_int n)) 2)).
Proof.
  set (stats := Fixture.player_stats [Fixture.game_a; Fixture.game_b]).
  assert (Hin : In (hd [] stats) stats) by (left; reflexivity).
  destruct (C6_totals_and_means Fixture.real_of_int Fixture.real_one Fixture.real_mul
              Fixture.real_div Fixture.real_avg Fixture.real_round _ _ Hin)
    as (u & n & Hu & Hn & _ & Hpos & _ & Hmean & _).
  exists (hd [] stats), u, n. repeat split; try assumption.
  apply Hmean. cbn. tauto.
Defined.

End AnalyticsFacts.

(* ===================================================================== *)
(** * Properties of the matcher                                            *)
(* ===================================================================== *)

Lemma rmatch_one (p : N -> bool) (r : regex) (c : N) (s : str) (k : capture) :
  rmatch (Q One p :: r) (c :: s) k = if p c then rmatch r s (cap_push c k) else None.
Proof. reflexivity. Qed.

Lemma rmatch_star_nil (p : N -> bool) (r : regex) (k : capture) :
  rmatch (Q Star p :: r) [] k = rmatch r [] k.
Proof. reflexivity. Qed.

Lemma rmatch_star_cons (p : N -> bool) (r : regex) (c : N) (s : str) (k : capture) :
  rmatch (Q Star p :: r) (c :: s) k
  = if p c
    then match rmatch (Q Star p :: r) s (cap_push c k) with
         | Some g => Some g
         | None => rmatch r (c :: s) k
         end
    else rmatch r (c :: s) k.
Proof. reflexivity. Qed.

Lemma rmatch_lazy_nil (p : N -> bool) (r : regex) (k : capture) :
  rmatch (Q LazyStar p :: r) [] k = rmatch r [] k.
Proof. cbn [rmatch]. now destruct (rmatch r [] k). Qed.

Lemma rmatch_lazy_cons (p : N -> bool) (r : regex) (c : N) (s : str) (k : capture) :
  rmatch (Q LazyStar p :: r) (c :: s) k
  = match rmatch r (c :: s) k with
    | Some g => Some g
    | None => if p c then rmatch (Q LazyStar p :: r) s (cap_push c k) else None
    end.
Proof. reflexivity. Qed.

Lemma cap_push_all (P : N -> bool) (c : N) (k : capture) :
  (cap_open k = true -> P c = true) ->
  Forall (fun x => P x = true) (cap_rev k) ->
  Forall (fun x => P x = true) (cap_rev (cap_push c k)).
Proof.
  intros Hc Hk. unfold cap_push. destruct (cap_open k); [|exact Hk].
  cbn [cap_rev]. constructor; auto.
Qed.

Lemma cap_push_open (c : N) (k : capture) : cap_open (cap_push c k) = cap_open k.
Proof. unfold cap_push. now destruct (cap_open k) eqn:E. Qed.

(** The group of a match holds only characters that its pattern lets in. *)
Lemma rmatch_group_all (P : N -> bool) (r : regex) :
  forall s k g,
    captures P (cap_open k) r ->
    Forall (fun x => P x = true) (cap_rev k) ->
    rmatch r s k = Some g ->
    Forall (fun x => P x = true) g.
Proof.
  induction r as [|[q p| |] r IH]; intros s k g Hr Hk.
  - cbn [rmatch]. intros E. injection E as <-. now apply Forall_rev.
  - destruct Hr as [Hp Hr].
    assert (Hpush : forall c, p c = true ->
                      captures P (cap_open (cap_push c k)) r
                      /\ Forall (fun x => P x = true) (cap_rev (cap_push c k))).
    { intros c Hc. rewrite cap_push_open. split; [exact Hr|].
      apply cap_push_all; auto. }
    destruct q.
    + destruct s as [|c s]; [discriminate|]. rewrite rmatch_one.
      destruct (p c) eqn:Hc; [|discriminate].
      destruct (Hpush c Hc). now apply IH.
    + revert k Hr Hk Hp Hpush. induction s as [|c s IHs]; intros k Hr Hk Hp Hpush.
      * rewrite rmatch_star_nil. now apply IH.
      * rewrite rmatch_star_cons. destruct (p c) eqn:Hc; [|now apply IH].
        destruct (rmatch (Q Star p :: r) s (cap_push c k)) as [g'|] eqn:E; [|now apply IH].
        intros E'. injection E' as <-. destruct (Hpush c Hc) as [Hr' Hk'].
        apply (IHs (cap_push c k)); auto.
        -- intros Ho c' Hc'. apply Hp; [now rewrite cap_push_open in Ho | exact Hc'].
        -- intros c' Hc'. rewrite !cap_push_open. split; [exact Hr|].
           apply cap_push_all; [|exact Hk'].
           rewrite cap_push_open. intros Ho. now apply Hp.
    + revert k Hr Hk Hp Hpush. induction s as [|c s IHs]; intros k Hr Hk Hp Hpush.
      * rewrite rmatch_lazy_nil. now apply IH.
      * rewrite rmatch_lazy_cons.
        destruct (rmatch r (c :: s) k) as [g'|] eqn:E.
        -- intros E'. injection E' as <-. now apply (IH (c :: s) k).
        -- destruct (p c) eqn:Hc; [|discriminate].
           destruct (Hpush c Hc) as [Hr' Hk'].
           apply (IHs (cap_push c k)); auto.
           ++ intros Ho c' Hc'. apply Hp; [now rewrite cap_push_open in Ho | exact Hc'].
           ++ intros c' Hc'. rewrite !cap_push_open. split; [exact Hr|].
              apply cap_push_all; [|exact Hk'].
              rewrite cap_push_open. intros Ho. now apply Hp.
  - cbn [rmatch]. apply IH; [exact Hr | constructor].
  - cbn [rmatch]. apply IH; [exact Hr | exact Hk].
Qed.

Lemma cap_push_nonempty (c : N) (k : capture) (h : bool) :
  (h = true -> cap_rev k <> []) -> h = true -> cap_rev (cap_push c k) <> [].
Proof.
  intros Hk Eh. unfold cap_push. destruct (cap_open k); [discriminate | auto].
Qed.

(** The group of a match is not empty when its pattern asks for a
    character. *)
Lemma rmatch_group_nonempty (r : regex) :
  forall s k g have,
    takes_one (cap_open k) have r = true ->
    (have = true -> cap_rev k <> []) ->
    rmatch r s k = Some g ->
    g <> [].
Proof.
  induction r as [|[q p| |] r IH]; intros s k g have Hr Hk.
  - cbn [rmatch takes_one] in *. intros E. injection E as <-. subst have.
    intros E. apply (f_equal (@rev N)) in E. rewrite rev_involutive in E. now apply Hk.
  - destruct q; cbn [takes_one] in Hr.
    + destruct s as [|c s]; [discriminate|]. rewrite rmatch_one.
      destruct (p c); [|discriminate].
      apply (IH s (cap_push c k) g (have || cap_open k)).
      * now rewrite cap_push_open.
      * intros Eh. unfold cap_push. destruct (cap_open k); [discriminate|].
        rewrite orb_false_r in Eh. auto.
    + revert k Hr Hk. induction s as [|c s IHs]; intros k Hr Hk.
      * rewrite rmatch_star_nil. now apply (IH [] k g have).
      * rewrite rmatch_star_cons. destruct (p c); [|now apply (IH (c :: s) k g have)].
        destruct (rmatch (Q Star p :: r) s (cap_push c k)) as [g'|] eqn:E;
          [|now apply (IH (c :: s) k g have)].
        intros E'. injection E' as <-. revert E.
        apply (IHs (cap_push c k)).
        -- now rewrite cap_push_open.
        -- now apply cap_push_nonempty.
    + revert k Hr Hk. induction s as [|c s IHs]; intros k Hr Hk.
      * rewrite rmatch_lazy_nil. now apply (IH [] k g have).
      * rewrite rmatch_lazy_cons.
        destruct (rmatch r (c :: s) k) as [g'|] eqn:E.
        -- intros E'. injection E' as <-. now apply (IH (c :: s) k g' have).
        -- destruct (p c); [|discriminate].
           apply (IHs (cap_push c k)).
           ++ now rewrite cap_push_open.
           ++ now apply cap_push_nonempty.
  - cbn [rmatch takes_one] in *. apply (IH s (cap_start k) g false); [exact Hr | discriminate].
  - cbn [rmatch takes_one] in *. apply (IH s (cap_stop k) g have); [exact Hr | exact Hk].
Qed.

Lemma lit_literal (s : string) : lit s = literal (py s).
Proof. reflexivity. Qed.

(** A match of a pattern that starts with a literal starts with the
    literal. *)
Lemma rmatch_literal (l : str) (r : regex) :
  forall s k g, rmatch (literal l ++ r) s k = Some g -> exists s', strip_prefix l s = Some s'.
Proof.
  induction l as [|c l IH]; intros s k g; cbn [literal map app strip_prefix].
  - intros _. now exists s.
  - destruct s as [|c' s]; [discriminate|]. rewrite rmatch_one.
    destruct (N.eqb c c'); [|discriminate]. apply IH.
Qed.

(** Outside the group a literal takes its text and leaves the capture as
    it is. *)
Lemma rmatch_literal_app (l : str) (r : regex) :
  forall s k, cap_open k = false -> rmatch (literal l ++ r) (l ++ s) k = rmatch r s k.
Proof.
  induction l as [|c l IH]; intros s k Hk; cbn [literal map app]; [reflexivity|].
  rewrite rmatch_one, N.eqb_refl.
  replace (cap_push c k) with k by (unfold cap_push; now rewrite Hk).
  now apply IH.
Qed.

Lemma str_contains_here (needle hay rest : str) :
  strip_prefix needle hay = Some rest -> str_contains needle hay = true.
Proof. intros H. destruct hay; cbn [str_contains]; now rewrite H. Qed.

Lemma str_contains_later (needle : str) (c : N) (hay : str) :
  str_contains needle hay = true -> str_contains needle (c :: hay) = true.
Proof.
  intros H. cbn [str_contains]. now destruct (strip_prefix needle (c :: hay)).
Qed.

(** No match without the literal text. *)
Lemma re_search_literal (l : str) (r : regex) (s : str) (g : str) :
  re_search (literal l ++ r) s = Some g -> str_contains l s = true.
Proof.
  induction s as [|c s IH]; cbn [re_search].
  - destruct (rmatch _ [] cap_init) eqn:E; [|discriminate].
    intros _. apply rmatch_literal in E as [s' E]. now apply str_contains_here with s'.
  - destruct (rmatch _ (c :: s) cap_init) eqn:E.
    + intros _. apply rmatch_literal in E as [s' E]. now apply str_contains_here with s'.
    + intros H. apply str_contains_later. now apply IH.
Qed.

Lemma re_search_without_literal (l : str) (r : regex) (s : str) :
  str_contains l s = false -> re_search (literal l ++ r) s = None.
Proof.
  intros H. destruct (re_search (literal l ++ r) s) eqn:E; [|reflexivity].
  apply re_search_literal in E. congruence.
Qed.

(** What [re.search] returns is the group of a match somewhere. *)
Lemma re_search_rmatch (r : regex) (s g : str) :
  re_search r s = Some g -> exists s', rmatch r s' cap_init = Some g.
Proof.
  induction s as [|c s IH]; cbn [re_search].
  - destruct (rmatch r [] cap_init) eqn:E; [|discriminate].
    intros H. injection H as <-. now exists [].
  - destruct (rmatch r (c :: s) cap_init) eqn:E.
    + intros H. injection H as <-. now exists (c :: s).
    + exact IH.
Qed.

Lemma isdigit_not_hyphen (g : str) :
  Forall (fun c => isdigit c = true) g -> ~ In hyphen g.
Proof.
  intros H Hin. rewrite Forall_forall in H. specialize (H _ Hin). discriminate.
Qed.

(* ===================================================================== *)
(** * Properties of [parse_pgn_text]                                       *)
(* ===================================================================== *)

Lemma tag_re_captures (name : string) (class : N -> bool) :
  captures class false (tag_re name class).
Proof.
  unfold tag_re. rewrite !lit_literal.
  assert (Hlit : forall l r, captures class false r -> captures class false (literal l ++ r)).
  { induction l as [|c l IH]; intros r Hr; cbn [literal map app captures]; [exact Hr|].
    split; [discriminate | now apply IH]. }
  apply Hlit, Hlit. cbn. repeat split; intros; try discriminate; assumption.
Qed.

Lemma tag_re_literal (name : string) (class : N -> bool) :
  exists r, tag_re name class = literal (py "[" ++ py name) ++ r.
Proof.
  unfold tag_re. rewrite !lit_literal. eexists.
  unfold literal. rewrite map_app, <- app_assoc. reflexivity.
Qed.

Lemma elo_nonneg (name : string) (pgn g : str) :
  re_search (tag_re name isdigit) pgn = Some g -> (0 <= _safe_int (Some g))%Z.
Proof.
  intros H. apply re_search_rmatch in H as [s' H].
  apply rmatch_group_all with (P := isdigit) in H;
    [| apply tag_re_captures | constructor].
  apply safe_int_nonneg. intros t E. injection E as <-.
  now apply isdigit_not_hyphen.
Qed.

(** X1: [parse_pgn_text] never returns a negative rating; a rating is zero
    when the PGN does not hold the opening text of its tag, and the result
    is empty when the PGN does not hold the opening text of the result
    tag. *)
Theorem parse_pgn_text_ratings (pgn : str) :
  (0 <= pgn_white_rating (parse_pgn_text pgn))%Z
  /\ (0 <= pgn_black_rating (parse_pgn_text pgn))%Z
  /\ (str_contains (py "[WhiteElo") pgn = false -> pgn_white_rating (parse_pgn_text pgn) = 0%Z)
  /\ (str_contains (py "[BlackElo") pgn = false -> pgn_black_rating (parse_pgn_text pgn) = 0%Z)
  /\ (str_contains (py "[Result") pgn = false -> pgn_result (parse_pgn_text pgn) = []).
Proof.
  unfold parse_pgn_text. cbn [pgn_white_rating pgn_black_rating pgn_result].
  split; [|split; [|split; [|split]]].
  - destruct (re_search WhiteElo_re pgn) eqn:E; [|lia]. now apply elo_nonneg in E.
  - destruct (re_search BlackElo_re pgn) eqn:E; [|lia]. now apply elo_nonneg in E.
  - intros H. unfold WhiteElo_re. destruct (tag_re_literal "WhiteElo" isdigit) as [r ->].
    now rewrite re_search_without_literal.
  - intros H. unfold BlackElo_re. destruct (tag_re_literal "BlackElo" isdigit) as [r ->].
    now rewrite re_search_without_literal.
  - intros H. unfold Result_re. destruct (tag_re_literal "Result" not_dquote) as [r ->].
    now rewrite re_search_without_literal.
Qed.

(** X1 on a PGN text without tags. *)
Lemma parse_pgn_text_ratings_witness :
  pgn_white_rating (parse_pgn_text (py "1. e4 e5 1-0")) = 0%Z
  /\ pgn_black_rating (parse_pgn_text (py "1. e4 e5 1-0")) = 0%Z
  /\ pgn_result (parse_pgn_text (py "1. e4 e5 1-0")) = [].
Proof.
  destruct (parse_pgn_text_ratings (py "1. e4 e5 1-0")) as (_ & _ & Hw & Hb & Hr).
  split; [apply Hw; reflexivity|]. split; [apply Hb; reflexivity | apply Hr; reflexivity].
Defined.

(* ===================================================================== *)
(** * Properties of cli.py                                                 *)
(* ===================================================================== *)

Lemma re_search_alt_rmatch (rs : list regex) (s g : str) :
  re_search_alt rs s = Some g -> exists r s', In r rs /\ rmatch r s' cap_init = Some g.
Proof.
  assert (Hfirst : forall s', rmatch_first rs s' = Some g ->
                              exists r, In r rs /\ rmatch r s' cap_init = Some g).
  { intros s'. induction rs as [|r rs IH]; cbn [rmatch_first]; [discriminate|].
    destruct (rmatch r s' cap_init) eqn:E.
    - intros H. injection H as <-. exists r. split; [now left | exact E].
    - intros H. destruct (IH H) as [r' [Hin Hr']]. exists r'. split; [now right | exact Hr']. }
  induction s as [|c s IH]; cbn [re_search_alt].
  - destruct (rmatch_first rs []) eqn:E; [|discriminate].
    intros H. injection H as <-. destruct (Hfirst _ E) as [r [Hin Hr]]. now exists r, [].
  - destruct (rmatch_first rs (c :: s)) eqn:E.
    + intros H. injection H as <-. destruct (Hfirst _ E) as [r [Hin Hr]]. now exists r, (c :: s).
    + exact IH.
Qed.

Lemma literal_captures (P : N -> bool) (l : str) (r : regex) :
  captures P false r -> captures P false (literal l ++ r).
Proof.
  induction l as [|c l IH]; intros Hr; cbn [literal map app captures]; [exact Hr|].
  split; [discriminate | now apply IH].
Qed.

Lemma literal_takes_one (l : str) (r : regex) (have : bool) :
  takes_one false have (literal l ++ r) = takes_one false have r.
Proof.
  revert have. induction l as [|c l IH]; intros have; cbn [literal map app takes_one];
    [reflexivity|].
  rewrite orb_false_r. apply IH.
Qed.

(** The sample tables of the fixture are as the tables of the interpreter
    are known to be. *)
Lemma sample_digit_tables : digit_tables Fixture.is_decimal Fixture.is_digit_char.
Proof.
  assert (Hdec : forall c, (c < 128)%N -> Fixture.is_decimal c = isdigit c).
  { intros c Hc. unfold Fixture.is_decimal.
    destruct (1632 <=? c)%N eqn:E; [apply N.leb_le in E; lia|].
    cbn [andb]. apply orb_false_r. }
  split; [exact Hdec|]. split.
  - intros c Hc. unfold Fixture.is_digit_char. rewrite (Hdec c Hc).
    destruct (c =? 178)%N eqn:E; [apply N.eqb_eq in E; lia|]. apply orb_false_r.
  - intros c Hc. unfold Fixture.is_digit_char. now rewrite Hc.
Qed.

Section IdentifierProperties.

Variable is_decimal : N -> bool.
Variable is_digit_char : N -> bool.
Hypothesis tables : digit_tables is_decimal is_digit_char.

Lemma game_id_tail_captures : captures is_decimal false (game_id_tail is_decimal).
Proof. cbn. repeat split; intros; try discriminate; assumption. Qed.

Lemma game_id_res_group (r : regex) (s g : str) :
  In r (game_id_res is_decimal) -> rmatch r s cap_init = Some g ->
  g <> [] /\ Forall (fun c => is_decimal c = true) g.
Proof.
  intros Hin H.
  assert (Hr : exists l, r = literal l ++ game_id_tail is_decimal).
  { destruct Hin as [<-|[<-|[]]]; eexists; rewrite lit_literal; reflexivity. }
  destruct Hr as [l ->]. split.
  - apply rmatch_group_nonempty with (have := false) in H; [exact H| |discriminate].
    cbn [cap_open cap_init]. rewrite literal_takes_one. reflexivity.
  - apply rmatch_group_all with (P := is_decimal) in H; [exact H| |constructor].
    apply literal_captures, game_id_tail_captures.
Qed.

Lemma str_isdigit_spec (s : str) :
  str_isdigit is_digit_char s = true
  <-> s <> [] /\ Forall (fun c => is_digit_char c = true) s.
Proof.
  unfold str_isdigit. rewrite andb_true_iff, forallb_forall, Forall_forall.
  destruct s; cbn [nonempty]; intuition congruence.
Qed.

(** The letters g and a are no digits, and the slash is no decimal digit. *)
Lemma digit_char_other (c : N) :
  is_digit_char c = true -> negb (N.eqb 103 c) && negb (N.eqb 97 c) = true.
Proof.
  destruct tables as (_ & Hdig & _). intros H.
  apply andb_true_iff. split; apply negb_true_iff, N.eqb_neq; intros <-;
    rewrite Hdig in H by reflexivity; discriminate.
Qed.

Lemma decimal_not_slash : is_decimal 47 = false.
Proof. destruct tables as (Hdec & _). now rewrite Hdec. Qed.

Lemma extract_game_id_isdigit (value gid : str) :
  extract_game_id is_decimal is_digit_char value = Some gid ->
  str_isdigit is_digit_char gid = true.
Proof.
  unfold extract_game_id.
  destruct (re_search_alt (game_id_res is_decimal) value) as [g|] eqn:E.
  - intros H. injection H as <-.
    apply re_search_alt_rmatch in E as (r & s' & Hin & Hr).
    apply str_isdigit_spec.
    destruct (@game_id_res_group r s' g Hin Hr) as [Hne Hall]. split; [exact Hne|].
    destruct tables as (_ & _ & Himp).
    eapply Forall_impl; [|exact Hall]. exact Himp.
  - destruct (str_isdigit is_digit_char value) eqn:Ed; [|discriminate].
    intros H. now injection H as <-.
Qed.

(** No alternative of the pattern starts at a character other than the
    letters g and a. *)
Lemma rmatch_first_other (c : N) (s : str) :
  N.eqb 103 c = false -> N.eqb 97 c = false ->
  rmatch_first (game_id_res is_decimal) (c :: s) = None.
Proof.
  intros Hg Ha. unfold game_id_res. cbn [rmatch_first].
  rewrite !lit_literal.
  change (py "game/live") with (103%N :: py "ame/live").
  change (py "analysis/game/live") with (97%N :: py "nalysis/game/live").
  cbn [literal map app]. rewrite !rmatch_one, Hg, Ha. reflexivity.
Qed.

Lemma re_search_alt_skip (pre s : str) :
  forallb (fun c => negb (N.eqb 103 c) && negb (N.eqb 97 c)) pre = true ->
  re_search_alt (game_id_res is_decimal) (pre ++ s)
  = re_search_alt (game_id_res is_decimal) s.
Proof.
  induction pre as [|c pre IH]; cbn [forallb app]; [reflexivity|].
  intros H. apply andb_true_iff in H as [Hc H]. apply andb_true_iff in Hc as [Hg Ha].
  apply negb_true_iff in Hg, Ha.
  cbn [re_search_alt]. rewrite rmatch_first_other by assumption. now apply IH.
Qed.

Lemma extract_game_id_of_digits (value : str) :
  str_isdigit is_digit_char value = true ->
  extract_game_id is_decimal is_digit_char value = Some value.
Proof.
  intros H. unfold extract_game_id. rewrite H.
  replace (re_search_alt (game_id_res is_decimal) value) with (@None str); [reflexivity|].
  apply str_isdigit_spec in H as [_ H]. symmetry.
  rewrite <- (app_nil_r value), re_search_alt_skip; [reflexivity|].
  apply forallb_forall. intros c Hc. rewrite Forall_forall in H. now apply digit_char_other, H.
Qed.

(** X2: whatever [extract_game_id] returns is a non-empty string of which
    [str.isdigit] is true, and [extract_game_id] returns it unchanged
    when it is applied to it again.  The digits are those of the
    interpreter, not only the ASCII ones. *)
Theorem extract_game_id_digits (value gid : str) :
  extract_game_id is_decimal is_digit_char value = Some gid ->
  str_isdigit is_digit_char gid = true
  /\ extract_game_id is_decimal is_digit_char gid = Some gid.
Proof.
  intros H. apply extract_game_id_isdigit in H.
  split; [exact H | now apply extract_game_id_of_digits].
Qed.

(** X3: [extract_game_id] returns its argument itself exactly when
    [str.isdigit] is true of the argument; an address is never returned
    as it is. *)
Theorem extract_game_id_numeric (value : str) :
  extract_game_id is_decimal is_digit_char value = Some value
  <-> str_isdigit is_digit_char value = true.
Proof.
  split; [apply extract_game_id_isdigit | apply extract_game_id_of_digits].
Qed.

(** A greedy run of decimal digits takes all of them before a character
    that is not one. *)
Lemma rmatch_digits (d rest : str) :
  forall k,
    cap_open k = true ->
    forallb is_decimal d = true ->
    match rest with [] => True | c :: _ => is_decimal c = false end ->
    rmatch [Q Star is_decimal; GroupClose] (d ++ rest) k = Some (rev (cap_rev k) ++ d).
Proof.
  induction d as [|c d IH]; intros k Hk Hd Hrest; cbn [app forallb] in *.
  - rewrite app_nil_r. destruct rest as [|c rest]; [reflexivity|].
    rewrite rmatch_star_cons, Hrest. reflexivity.
  - apply andb_true_iff in Hd as [Hc Hd].
    rewrite rmatch_star_cons, Hc, IH; try assumption.
    + unfold cap_push. rewrite Hk. cbn [cap_rev rev]. now rewrite <- app_assoc.
    + now rewrite cap_push_open.
Qed.

Lemma rmatch_analysis_url (d rest : str) :
  str_isdecimal is_decimal d = true ->
  match rest with [] => True | c :: _ => is_decimal c = false end ->
  rmatch_first (game_id_res is_decimal) (py "analysis/game/live/" ++ d ++ rest) = Some d.
Proof.
  intros Hd Hrest. unfold game_id_res. cbn [rmatch_first].
  replace (rmatch (lit "game/live" ++ game_id_tail is_decimal)
                  (py "analysis/game/live/" ++ d ++ rest) cap_init) with (@None str)
    by reflexivity.
  unfold game_id_tail. rewrite !lit_literal.
  change (py "analysis/game/live/") with (py "analysis/game/live" ++ py "/").
  rewrite <- !app_assoc.
  rewrite rmatch_literal_app by reflexivity.
  rewrite rmatch_literal_app by reflexivity.
  apply andb_true_iff in Hd as [Hne Hd].
  destruct d as [|c d]; [discriminate|]. cbn [forallb] in Hd.
  apply andb_true_iff in Hd as [Hc Hd].
  assert (E : rmatch ([GroupOpen] ++ plus is_decimal ++ [GroupClose]) ((c :: d) ++ rest)
                     cap_init
              = Some (c :: d)).
  { change (rmatch (Q One is_decimal :: [Q Star is_decimal; GroupClose]) (c :: (d ++ rest))
                   (cap_start cap_init) = Some (c :: d)).
    rewrite rmatch_one, Hc.
    rewrite rmatch_digits; [reflexivity | reflexivity | assumption | assumption]. }
  now rewrite E.
Qed.

(** X4: the identifier of a game comes back from the address of its review
    page, as config.py writes it: for a number that [\d+] matches as a
    whole, what [extract_game_id] finds in [GAME_REVIEW_URL] of the number
    is that number, also when a query or anything else that does not
    start with a decimal digit follows the number. *)
Theorem extract_game_id_review_url (gid rest : str) :
  str_isdecimal is_decimal gid = true ->
  match rest with [] => True | c :: _ => is_decimal c = false end ->
  extract_game_id is_decimal is_digit_char (GAME_REVIEW_URL gid) = Some gid
  /\ extract_game_id is_decimal is_digit_char
                     (py "https://www.chess.com/analysis/game/live/" ++ gid ++ rest)
     = Some gid.
Proof.
  intros Hd Hrest.
  assert (H : forall rest',
             match rest' with [] => True | c :: _ => is_decimal c = false end ->
             extract_game_id is_decimal is_digit_char
                             (py "https://www.chess.com/analysis/game/live/" ++ gid ++ rest')
             = Some gid).
  { intros rest' Hrest'. unfold extract_game_id.
    change (py "https://www.chess.com/analysis/game/live/")
      with (py "https://www.chess.com/" ++ py "analysis/game/live/").
    rewrite <- app_assoc, re_search_alt_skip by reflexivity.
    assert (E : re_search_alt (game_id_res is_decimal)
                              (py "analysis/game/live/" ++ gid ++ rest')
                = Some gid).
    { change (py "analysis/game/live/") with (97%N :: py "nalysis/game/live/").
      cbn [app re_search_alt].
      change (97%N :: py "nalysis/game/live/" ++ gid ++ rest')
        with (py "analysis/game/live/" ++ gid ++ rest').
      now rewrite rmatch_analysis_url. }
    now rewrite E. }
  split; [|now apply H].
  unfold GAME_REVIEW_URL. apply H. exact decimal_not_slash.
Qed.

(** ** [load_game_ids_from_csv] *)

Lemma load_rows_digits (col : str) (rows : list (list (str * option str))) :
  forall ids,
    load_rows is_decimal is_digit_char col rows = Returns ids ->
    Forall (fun gid => str_isdigit is_digit_char gid = true) ids
    /\ (List.length ids <= List.length rows)%nat.
Proof.
  induction rows as [|row rows IH]; intros ids; cbn [load_rows].
  - intros H. injection H as <-. split; [constructor | cbn; lia].
  - destruct (lookup col row) as [[v|]|]; cbn [bind]; try discriminate.
    + destruct (load_rows is_decimal is_digit_char col rows) as [ids'|]; cbn [bind];
        [|discriminate].
      destruct (IH ids' eq_refl) as [Hd Hl].
      destruct (nonempty (strip v)).
      * destruct (extract_game_id is_decimal is_digit_char (strip v)) as [g|] eqn:E.
        -- destruct (nonempty g); intros H; injection H as <-; cbn [List.length];
             (split; [|lia]); [constructor|]; try assumption.
           now apply extract_game_id_isdigit in E.
        -- intros H. injection H as <-. cbn [List.length]. split; [assumption | lia].
      * intros H. injection H as <-. cbn [List.length]. split; [assumption | lia].
    + destruct (load_rows is_decimal is_digit_char col rows) as [ids'|]; cbn [bind];
        [|discriminate].
      destruct (IH ids' eq_refl) as [Hd Hl].
      change (strip []) with (@nil N). cbn [nonempty].
      intros H. injection H as <-. cbn [List.length]. split; [assumption | lia].
Qed.

Lemma load_rows_returns (col : str) (rows : list (list (str * option str))) :
  Forall (fun row => lookup col row <> Some None) rows ->
  exists ids, load_rows is_decimal is_digit_char col rows = Returns ids.
Proof.
  induction 1 as [|row rows Hrow _ [ids IH]]; cbn [load_rows].
  - now exists [].
  - destruct (lookup col row) as [[v|]|]; [| contradiction |];
      cbn [bind]; rewrite IH; cbn [bind]; eexists; reflexivity.
Qed.

(** X5: [str.isdigit] is true of each identifier that
    [load_game_ids_from_csv] returns, and there is at most one for each
    row; it returns whenever no row lacks the cell of the column it
    reads, and without a header it returns no identifier. *)
Theorem load_game_ids_digits (fieldnames : list str) (rows : list (list (str * option str))) :
  (forall ids,
      load_game_ids_from_csv is_decimal is_digit_char fieldnames rows = Returns ids ->
      Forall (fun gid => str_isdigit is_digit_char gid = true) ids
      /\ (List.length ids <= List.length rows)%nat)
  /\ (Forall (fun row => lookup (id_column fieldnames) row <> Some None) rows ->
      exists ids, load_game_ids_from_csv is_decimal is_digit_char fieldnames rows = Returns ids)
  /\ load_game_ids_from_csv is_decimal is_digit_char [] rows = Returns [].
Proof.
  split; [|split; [|reflexivity]].
  - intros ids. unfold load_game_ids_from_csv. destruct fieldnames.
    + intros H. injection H as <-. split; [constructor | cbn; lia].
    + apply load_rows_digits.
  - intros H. unfold load_game_ids_from_csv. destruct fieldnames.
    + now exists [].
    + now apply load_rows_returns.
Qed.

End IdentifierProperties.

(** X2 on the address of a live game with a query. *)
Lemma extract_game_id_digits_witness :
  extract_game_id Fixture.is_decimal Fixture.is_digit_char
                  (py "https://www.chess.com/game/live/165168859868?tab=review")
  = Some (py "165168859868")
  /\ str_isdigit Fixture.is_digit_char (py "165168859868") = true
  /\ extract_game_id Fixture.is_decimal Fixture.is_digit_char (py "165168859868")
     = Some (py "165168859868").
Proof.
  split; [vm_compute; reflexivity|].
  apply (extract_game_id_digits sample_digit_tables
           (py "https://www.chess.com/game/live/165168859868?tab=review")).
  vm_compute. reflexivity.
Defined.

(** X3 on a number in Arabic-Indic digits and on the superscript two. *)
Lemma extract_game_id_numeric_witness :
  extract_game_id Fixture.is_decimal Fixture.is_digit_char Fixture.arabic_123
  = Some Fixture.arabic_123
  /\ extract_game_id Fixture.is_decimal Fixture.is_digit_char [178%N] = Some [178%N].
Proof.
  split.
  - apply (extract_game_id_numeric sample_digit_tables Fixture.arabic_123).
    vm_compute. reflexivity.
  - apply (extract_game_id_numeric sample_digit_tables [178%N]).
    vm_compute. reflexivity.
Defined.

(** X4 on the identifier of the tests, with and without a query. *)
Lemma extract_game_id_review_url_witness :
  extract_game_id Fixture.is_decimal Fixture.is_digit_char
                  (GAME_REVIEW_URL (py "165168859868"))
  = Some (py "165168859868")
  /\ extract_game_id Fixture.is_decimal Fixture.is_digit_char
                     (py "https://www.chess.com/analysis/game/live/" ++ py "165168859868"
                      ++ py "?tab=review")
     = Some (py "165168859868").
Proof.
  apply (extract_game_id_review_url sample_digit_tables
           (py "165168859868") (py "?tab=review")); reflexivity.
Defined.

(** X5 on a file with the columns name and game_id: an address, a number,
    a cell without identifier and an empty cell. *)
Lemma load_game_ids_digits_witness :
  exists ids,
    load_game_ids_from_csv Fixture.is_decimal Fixture.is_digit_char
                           Fixture.csv_header Fixture.csv_rows = Returns ids
    /\ ids = [py "165168859868"; py "42"]
    /\ Forall (fun gid => str_isdigit Fixture.is_digit_char gid = true) ids
    /\ (List.length ids <= List.length Fixture.csv_rows)%nat.
Proof.
  destruct (load_game_ids_digits sample_digit_tables Fixture.csv_header Fixture.csv_rows)
    as (Hd & Hr & _).
  destruct Hr as [ids E].
  { unfold Fixture.csv_rows. repeat constructor; vm_compute; discriminate. }
  exists ids. split; [exact E|].
  split; [| exact (Hd ids E)].
  assert (E' : load_game_ids_from_csv Fixture.is_decimal Fixture.is_digit_char
                                      Fixture.csv_header Fixture.csv_rows
               = Returns [py "165168859868"; py "42"]) by (vm_compute; reflexivity).
  rewrite E in E'. now injection E'.
Defined.

(* ===================================================================== *)
(** * Further properties of [parse_game_review_page]                       *)
(* ===================================================================== *)

Section RecordProperties.

Variable nzfloat : Type.
Variable py_float : str -> option (pyfloat nzfloat).
Variable int_over_ten : Z -> option (pyfloat nzfloat).
Variable BeautifulSoup : str -> soup.
Variable json_loads : str -> option (pyval nzfloat).
Variable unicodedata_lookup : list N -> option N.

Local Abbreviation parse :=
  (parse_game_review_page py_float int_over_ten BeautifulSoup json_loads unicodedata_lookup).
Local Abbreviation user_details_of := (_extract_user_details json_loads unicodedata_lookup).
Local Abbreviation accuracies_of html :=
  (accuracies py_float int_over_ten (BeautifulSoup html)).

(** The username that the panels of the page give. *)
Local Abbreviation panel_username s panel :=
  (match select_one s panel with
   | Some player =>
       match select_one_in player username_sel with
       | Some el => PStr nzfloat (get_text_strip el)
       | None => PStr nzfloat []
       end
   | None => PStr nzfloat []
   end).

Lemma username_truthy (s : soup) (panel : selector) (v : pyval nzfloat) :
  truthy v = true -> py_or (username_from_dom s panel v) (PStr _ []) = v.
Proof. intros H. unfold username_from_dom, py_or. now rewrite H, H. Qed.

Lemma username_falsy (s : soup) (panel : selector) (v : pyval nzfloat) :
  truthy v = false -> py_or (username_from_dom s panel v) (PStr _ []) = panel_username s panel.
Proof.
  intros H. unfold username_from_dom, py_or. rewrite H.
  destruct (select_one s panel) as [player|]; [|now rewrite H].
  destruct (select_one_in player username_sel) as [el|]; [|reflexivity].
  cbn [truthy]. now destruct (get_text_strip el).
Qed.

(** X6: a username of the embedded details that is not empty wins over the
    panels of the page; otherwise the username is the stripped text of
    the username element of the panel (top for white, bottom for black),
    and the empty string when the panel or the element is missing. *)
Theorem username_resolution (html gid : str) (r : GameRecord nzfloat) :
  parse html gid = Returns r ->
  exists ud wd bd,
    user_details_of html = Returns ud
    /\ side_details ud "white" = Returns wd
    /\ side_details ud "black" = Returns bd
    /\ (truthy (detail wd "username") = true -> white_username r = detail wd "username")
    /\ (truthy (detail bd "username") = true -> black_username r = detail bd "username")
    /\ (truthy (detail wd "username") = false ->
        white_username r = panel_username (BeautifulSoup html) top_player_sel)
    /\ (truthy (detail bd "username") = false ->
        black_username r = panel_username (BeautifulSoup html) bottom_player_sel).
Proof.
  intros H.
  apply parse_returns_inv in H as (ud & wd & bd & acc & Hud & Hwd & Hbd & _ & ->).
  exists ud, wd, bd. cbn [white_username black_username].
  repeat split; try assumption.
  - apply username_truthy.
  - apply username_truthy.
  - apply username_falsy.
  - apply username_falsy.
Qed.

(** ** Pages without embedded details *)

Lemma userDetails_re_literal : exists r, userDetails_re = literal (py "userDetails:") ++ r.
Proof. unfold userDetails_re. rewrite lit_literal. eexists. reflexivity. Qed.

Lemma pgn_re_literal : exists r, pgn_re = literal (py "pgn:") ++ r.
Proof. unfold pgn_re. rewrite lit_literal. eexists. reflexivity. Qed.

Lemma no_details_text (html : str) :
  str_contains (py "userDetails:") html = false ->
  user_details_of html = Returns (@PDict nzfloat []).
Proof.
  intros H. unfold _extract_user_details.
  destruct userDetails_re_literal as [r ->]. now rewrite re_search_without_literal.
Qed.

Lemma no_pgn_text (html : str) :
  str_contains (py "pgn:") html = false ->
  _extract_pgn_result unicodedata_lookup html = [].
Proof.
  intros H. unfold _extract_pgn_result.
  destruct pgn_re_literal as [r ->]. now rewrite re_search_without_literal.
Qed.

Lemma rating_without_details (rating : Z) :
  py_or (rating_from_details rating (@PDict nzfloat [])) (PInt _ 0) = PInt _ rating.
Proof.
  destruct (Z.eq_dec rating 0) as [->|Hne]; [reflexivity|].
  now apply final_rating_nonzero.
Qed.

(** X7: a record that [parse_game_review_page] returns for a page that
    does not hold the text userDetails: is read from the elements of the
    page alone: its usernames are those of the panels, its ratings those
    of the attribute-encoded elements and of the Game Rating row; and
    without the text pgn: its result is empty. *)
Theorem page_without_details (html gid : str) (r : GameRecord nzfloat) :
  str_contains (py "userDetails:") html = false ->
  parse html gid = Returns r ->
  white_username r = panel_username (BeautifulSoup html) top_player_sel
  /\ black_username r = panel_username (BeautifulSoup html) bottom_player_sel
  /\ white_rating r
     = PInt _ (fst (ratings_from_row (BeautifulSoup html)
                                     (ratings_from_attrs (BeautifulSoup html))))
  /\ black_rating r
     = PInt _ (snd (ratings_from_row (BeautifulSoup html)
                                     (ratings_from_attrs (BeautifulSoup html))))
  /\ (str_contains (py "pgn:") html = false -> result r = []).
Proof.
  intros Hno H. pose proof (no_details_text html Hno) as Hud.
  unfold parse_game_review_page in H. rewrite Hud in H.
  cbn [bind side_details lookup] in H.
  destruct (accuracies_of html) as [acc|e]; cbn [bind] in H; [|discriminate].
  injection H as <-.
  cbn [white_username black_username white_rating black_rating result].
  split; [now apply username_falsy|].
  split; [now apply username_falsy|].
  split; [apply rating_without_details|].
  split; [apply rating_without_details|].
  apply no_pgn_text.
Qed.

(** ** The tallies of a record *)

Lemma tally_entries_lookup (s : soup) (t : str) :
  In t tally_types ->
  lookup (t ++ py "_white") (flat_map (tally_entries s) tally_types)
  = Some (_safe_int (option_map get_text (select_one s (tally_sel t "white"))))
  /\ lookup (t ++ py "_black") (flat_map (tally_entries s) tally_types)
     = Some (_safe_int (option_map get_text (select_one s (tally_sel t "black")))).
Proof.
  intros Hin. unfold tally_types in Hin.
  repeat (destruct Hin as [<-|Hin]; [split; reflexivity|]).
  contradiction.
Qed.

(** X8: each of the twenty tally keys of a record holds the integer read
    from the first element that carries the [data-cy] of its category and
    colour, and zero when the page has no such element: no key hides
    another. *)
Theorem tally_of_record (html gid : str) (r : GameRecord nzfloat) (t : str) :
  parse html gid = Returns r ->
  In t tally_types ->
  lookup (t ++ py "_white") (tallies r)
  = Some (_safe_int (option_map get_text
                                (select_one (BeautifulSoup html) (tally_sel t "white"))))
  /\ lookup (t ++ py "_black") (tallies r)
     = Some (_safe_int (option_map get_text
                                   (select_one (BeautifulSoup html) (tally_sel t "black"))))
  /\ (select (BeautifulSoup html) (tally_sel t "white") = [] ->
      lookup (t ++ py "_white") (tallies r) = Some 0%Z)
  /\ (select (BeautifulSoup html) (tally_sel t "black") = [] ->
      lookup (t ++ py "_black") (tallies r) = Some 0%Z).
Proof.
  intros H Hin.
  apply parse_returns_inv in H as (ud & wd & bd & acc & _ & _ & _ & _ & ->).
  cbn [tallies].
  destruct (@tally_entries_lookup (BeautifulSoup html) t Hin) as [Hw Hb].
  split; [exact Hw|]. split; [exact Hb|]. split.
  - intros E. rewrite Hw. unfold select_one. now rewrite E.
  - intros E. rewrite Hb. unfold select_one. now rewrite E.
Qed.

End RecordProperties.

(** X6 on the page of the tests, which holds no embedded details. *)
Lemma username_resolution_witness :
  exists r,
    Fixture.parse Fixture.sample_html (py "165168859868") = Returns r
    /\ white_username r = PStr _ (py "white_player")
    /\ black_username r = PStr _ (py "black_player").
Proof.
  assert (H : exists r, Fixture.parse Fixture.sample_html (py "165168859868") = Returns r)
    by (eexists; vm_compute; reflexivity).
  destruct H as [r E]. exists r. split; [exact E|].
  destruct (username_resolution _ _ _ _ _ _ _ E)
    as (ud & wd & bd & Hud & Hwd & Hbd & _ & _ & Hw & Hb).
  assert (Eud : ud = @PDict Fixture.decimal []).
  { assert (E' : _extract_user_details Fixture.json_loads Fixture.unicodedata_lookup
                                       Fixture.sample_html
                 = Returns (@PDict Fixture.decimal [])) by (vm_compute; reflexivity).
    rewrite Hud in E'. now injection E'. }
  subst ud. cbn in Hwd, Hbd. injection Hwd as <-. injection Hbd as <-.
  split.
  - rewrite Hw by reflexivity. vm_compute. reflexivity.
  - rewrite Hb by reflexivity. vm_compute. reflexivity.
Defined.

(** X7 on the Game Rating page, which holds neither text. *)
Lemma page_without_details_witness :
  exists r,
    Fixture.parse Fixture.rating_html (py "7") = Returns r
    /\ white_username r = PStr _ []
    /\ black_username r = PStr _ []
    /\ result r = [].
Proof.
  assert (H : exists r, Fixture.parse Fixture.rating_html (py "7") = Returns r)
    by (eexists; vm_compute; reflexivity).
  destruct H as [r E]. exists r. split; [exact E|].
  destruct (@page_without_details _ Fixture.py_float Fixture.int_over_ten
                                  Fixture.BeautifulSoup Fixture.json_loads
                                  Fixture.unicodedata_lookup
                                  Fixture.rating_html (py "7") r)
    as (Hw & Hb & _ & _ & Hres).
  { vm_compute. reflexivity. }
  { exact E. }
  split; [rewrite Hw; vm_compute; reflexivity|].
  split; [rewrite Hb; vm_compute; reflexivity|].
  apply Hres. vm_compute. reflexivity.
Defined.

(** X8 for the best moves of the page of the tests. *)
Lemma tally_of_record_witness :
  exists r,
    Fixture.parse Fixture.sample_html (py "165168859868") = Returns r
    /\ lookup (py "BestMove_white") (tallies r) = Some 4%Z
    /\ lookup (py "BestMove_black") (tallies r) = Some 10%Z.
Proof.
  assert (H : exists r, Fixture.parse Fixture.sample_html (py "165168859868") = Returns r)
    by (eexists; vm_compute; reflexivity).
  destruct H as [r E]. exists r. split; [exact E|].
  destruct (@tally_of_record _ _ _ _ _ _ _ _ _ (py "BestMove") E) as (Hw & Hb & _).
  { vm_compute. tauto. }
  change (py "BestMove" ++ py "_white") with (py "BestMove_white") in Hw.
  change (py "BestMove" ++ py "_black") with (py "BestMove_black") in Hb.
  rewrite Hw, Hb. split; vm_compute; reflexivity.
Defined.

(* ===================================================================== *)
(** * What [insert_game] binds                                             *)
(* ===================================================================== *)

Section StorageProperties.

Variable nzfloat : Type.
Variable py_float : str -> option (pyfloat nzfloat).
Variable int_over_ten : Z -> option (pyfloat nzfloat).
Variable BeautifulSoup : str -> soup.
Variable json_loads : str -> option (pyval nzfloat).
Variable unicodedata_lookup : list N -> option N.

Local Abbreviation parse :=
  (parse_game_review_page py_float int_over_ten BeautifulSoup json_loads unicodedata_lookup).

(** X9: for the record that [parse_game_review_page] returns,
    [insert_game] binds the identifier, the usernames and the ratings of
    the record, then its twenty tallies in the order of the record, then
    its accuracies and its result: one value for each column, and no
    default of [insert_game] takes the place of a value of the record. *)
Theorem insert_game_of_record (html gid : str) (r : GameRecord nzfloat) :
  parse html gid = Returns r ->
  insert_game_params (as_dict r)
  = [PStr _ gid; white_username r; black_username r; white_rating r; black_rating r]
    ++ map (fun kv => PInt _ (snd kv)) (tallies r)
    ++ [PFloat (white_accuracy r); PFloat (black_accuracy r); PStr _ (result r)]
  /\ List.length (insert_game_params (as_dict r)) = List.length insert_columns
  /\ map fst (tallies r)
     = [py "Brilliant_white"; py "Brilliant_black"; py "GreatFind_white"; py "GreatFind_black";
        py "Book_white"; py "Book_black"; py "BestMove_white"; py "BestMove_black";
        py "Excellent_white"; py "Excellent_black"; py "Good_white"; py "Good_black";
        py "Inaccuracy_white"; py "Inaccuracy_black"; py "Mistake_white"; py "Mistake_black";
        py "Miss_white"; py "Miss_black"; py "Blunder_white"; py "Blunder_black"].
Proof.
  intros H.
  apply parse_returns_inv in H as (ud & wd & bd & acc & _ & _ & _ & _ & ->).
  split; [reflexivity|]. split; reflexivity.
Qed.

(** The result of a PGN text is one of the four symbols, or empty. *)
Lemma pgn_result_symbol (pgn : str) :
  In (pgn_result (parse_pgn_text pgn)) ([] :: result_symbols).
Proof.
  unfold parse_pgn_text. cbn [pgn_result].
  destruct (re_search Result_re pgn); [apply result_of_tag_closed | now left].
Qed.

Lemma pgn_ratings_nonneg (pgn : str) :
  (0 <= pgn_white_rating (parse_pgn_text pgn))%Z
  /\ (0 <= pgn_black_rating (parse_pgn_text pgn))%Z.
Proof.
  unfold parse_pgn_text. cbn [pgn_white_rating pgn_black_rating]. split.
  - destruct (re_search WhiteElo_re pgn) eqn:E; [|lia]. now apply elo_nonneg in E.
  - destruct (re_search BlackElo_re pgn) eqn:E; [|lia]. now apply elo_nonneg in E.
Qed.

(** X10: for a game entered as a PGN text, [cmd_manual_pgn] has
    [insert_game] bind the code and the usernames of the command line,
    two ratings that are not negative, zero for each of the twenty
    tallies and for both accuracies, and as result the option of the
    command line when it is given and not empty, else the result of the
    PGN text, which is one of the four symbols or empty. *)
Theorem manual_pgn_params (pgn_code white black : str) (result_arg : option str) (pgn : str) :
  exists wr br res,
    insert_game_params (manual_pgn_data nzfloat pgn_code white black result_arg pgn)
    = [PStr _ pgn_code; PStr _ white; PStr _ black; PInt _ wr; PInt _ br]
      ++ repeat (PInt _ 0%Z) 20
      ++ [PFloat (FZero nzfloat); PFloat (FZero nzfloat); PStr _ res]
    /\ (0 <= wr)%Z /\ (0 <= br)%Z
    /\ (forall given, result_arg = Some given -> given <> [] -> res = given)
    /\ (result_arg = None \/ result_arg = Some [] ->
        res = pgn_result (parse_pgn_text pgn)
        /\ In res ([] :: result_symbols)).
Proof.
  exists (pgn_white_rating (parse_pgn_text pgn)), (pgn_black_rating (parse_pgn_text pgn)),
         (result_or result_arg (pgn_result (parse_pgn_text pgn))).
  split.
  { unfold manual_pgn_data. generalize (parse_pgn_text pgn). intros parsed. reflexivity. }
  destruct (pgn_ratings_nonneg pgn) as [Hw Hb].
  split; [exact Hw|]. split; [exact Hb|]. split.
  - intros given -> Hne. cbn [result_or]. now destruct given.
  - intros [->| ->]; cbn [result_or nonempty]; (split; [reflexivity | apply pgn_result_symbol]).
Qed.

End StorageProperties.

(** X9 on the page of the tests. *)
Lemma insert_game_of_record_witness :
  exists r,
    Fixture.parse Fixture.sample_html (py "165168859868") = Returns r
    /\ insert_game_params (as_dict r)
       = [PStr _ (py "165168859868"); PStr _ (py "white_player"); PStr _ (py "black_player");
          PInt _ 1300; PInt _ 1450]
         ++ map (PInt _) [0; 1; 1; 0; 5; 5; 4; 10; 11; 9; 10; 4; 2; 4; 0; 2; 0; 0; 1; 0]%Z
         ++ [PFloat (Fixture.to_float 766 1); PFloat (Fixture.to_float 815 1);
             PStr _ (py "0-1")].
Proof.
  assert (H : exists r, Fixture.parse Fixture.sample_html (py "165168859868") = Returns r)
    by (eexists; vm_compute; reflexivity).
  destruct H as [r E]. exists r. split; [exact E|].
  destruct (insert_game_of_record _ _ _ _ _ _ _ E) as (Hp & _ & _).
  rewrite Hp.
  assert (E' : Fixture.parse Fixture.sample_html (py "165168859868")
               = Returns {| game_id := py "165168859868";
                            white_username := PStr _ (py "white_player");
                            black_username := PStr _ (py "black_player");
                            white_rating := PInt _ 1300;
                            black_rating := PInt _ 1450;
                            white_accuracy := Fixture.to_float 766 1;
                            black_accuracy := Fixture.to_float 815 1;
                            result := py "0-1";
                            tallies := combine
                              [py "Brilliant_white"; py "Brilliant_black";
                               py "GreatFind_white"; py "GreatFind_black";
                               py "Book_white"; py "Book_black";
                               py "BestMove_white"; py "BestMove_black";
                               py "Excellent_white"; py "Excellent_black";
                               py "Good_white"; py "Good_black";
                               py "Inaccuracy_white"; py "Inaccuracy_black";
                               py "Mistake_white"; py "Mistake_black";
                               py "Miss_white"; py "Miss_black";
                               py "Blunder_white"; py "Blunder_black"]
                              [0; 1; 1; 0; 5; 5; 4; 10; 11; 9; 10; 4; 2; 4; 0; 2; 0; 0; 1; 0]%Z |})
    by (vm_compute; reflexivity).
  rewrite E in E'. injection E' as ->. reflexivity.
Defined.

(* ===================================================================== *)
(** * The two queries of analytics.py together                             *)
(* ===================================================================== *)

Module SeasonFacts.
Import Analytics.
Import AnalyticsFacts.

Local Abbreviation sum l := (fold_right Z.add 0%Z l).

Lemma distinct_NoDup_id (l : list str) : NoDup l -> distinct l = l.
Proof.
  induction 1 as [|x l Hx Hl IH]; [reflexivity|].
  cbn [distinct]. rewrite IH. f_equal.
  clear -Hx. induction l as [|y l IH]; [reflexivity|].
  cbn [filter]. destruct (str_eqb y x) eqn:E.
  - apply str_eqb_eq in E. subst. exfalso. apply Hx. now left.
  - cbn [negb]. f_equal. apply IH. intros H. apply Hx. now right.
Qed.

Lemma sum_perm (l l' : list Z) : Permutation l l' -> sum l = sum l'.
Proof. induction 1; cbn [fold_right]; lia. Qed.

Lemma sum_map_add {A : Type} (a b : A -> Z) (l : list A) :
  sum (map (fun x => (a x + b x)%Z) l) = (sum (map a l) + sum (map b l))%Z.
Proof. induction l as [|x l IH]; cbn [map fold_right]; lia. Qed.

Lemma sum_zeros {A : Type} (l : list A) : sum (map (fun _ => 0%Z) l) = 0%Z.
Proof. induction l as [|x l IH]; cbn [map fold_right]; lia. Qed.

Lemma sum_ones {A : Type} (l : list A) : sum (map (fun _ => 1%Z) l) = sql_count l.
Proof.
  unfold sql_count. induction l as [|x l IH]; [reflexivity|].
  cbn [map fold_right List.length]. lia.
Qed.

Lemma sum_or_zero (l : list Z) :
  match sql_sum l with Some z => z | None => 0%Z end = sum l.
Proof. now destruct l. Qed.

Lemma sum_key_absent (k : str) (v : Z) (ks : list str) :
  ~ In k ks -> sum (map (fun u => if str_eqb k u then v else 0%Z) ks) = 0%Z.
Proof.
  induction ks as [|u ks IH]; intros Hk; [reflexivity|].
  cbn [map fold_right]. destruct (str_eqb k u) eqn:E.
  - apply str_eqb_eq in E. subst. exfalso. apply Hk. now left.
  - rewrite IH; [lia|]. intros H. apply Hk. now right.
Qed.

Lemma sum_key_once (k : str) (v : Z) (ks : list str) :
  NoDup ks -> In k ks -> sum (map (fun u => if str_eqb k u then v else 0%Z) ks) = v.
Proof.
  induction 1 as [|u ks Hu Hks IH]; intros Hk; [contradiction|].
  cbn [map fold_right]. destruct (str_eqb k u) eqn:E.
  - apply str_eqb_eq in E. subst. rewrite sum_key_absent by assumption. lia.
  - apply str_eqb_neq in E. destruct Hk as [->|Hk]; [contradiction|].
    rewrite IH by assumption. lia.
Qed.

Lemma filter_all {A : Type} (p : A -> bool) (l : list A) :
  Forall (fun x => p x = true) l -> filter p l = l.
Proof.
  induction 1 as [|x l Hx _ IH]; [reflexivity|].
  cbn [filter]. now rewrite Hx, IH.
Qed.

Lemma int64_add_exact (a b : Z) :
  (Z.abs (a + b) <= int64_max)%Z -> int64_add a b = Some (a + b)%Z.
Proof.
  unfold int64_add, in_int64, int64_min, int64_max. intros H.
  replace ((_ <=? a + b)%Z && (a + b <=? _)%Z) with true; [reflexivity|].
  symmetry. apply andb_true_iff. split; apply Z.leb_le; lia.
Qed.

Section Totals.

Variable real : Type.
Variable real_of_int : Z -> real.
Variable real_one : real.
Variable real_mul : real -> real -> real.
Variable real_div : real -> real -> real.
Variable real_avg : list real -> real.
Variable real_round : real -> Z -> real.

Local Abbreviation summarize := (summarize real_of_int real_one real_mul real_div real_avg real_round).
Local Abbreviation player_rows := (player_rows real_of_int real_one real_mul real_div real_avg real_round).
Local Abbreviation get_player_stats :=
  (get_player_stats real_of_int real_one real_mul real_div real_avg real_round).

(** GROUP BY loses no row and repeats none: the sums of the groups add up
    to the sum of all rows. *)
Lemma group_sum (f : PlayerGame real -> Z) (ks : list str) (rows : list (PlayerGame real)) :
  NoDup ks ->
  (forall r, In r rows -> In (username r) ks) ->
  sum (map (fun u => sum (map f (rows_of u rows))) ks) = sum (map f rows).
Proof.
  intros Hks. induction rows as [|r rows IH]; intros Hin.
  - cbn [rows_of filter map fold_right]. apply sum_zeros.
  - rewrite (map_ext _ (fun u => ((if str_eqb (username r) u then f r else 0)
                                  + sum (map f (rows_of u rows)))%Z)).
    + rewrite sum_map_add, sum_key_once, IH; cbn [map fold_right]; try reflexivity;
        try assumption.
      * intros r' Hr'. apply Hin. now right.
      * apply Hin. now left.
    + intros u. unfold rows_of. cbn [filter].
      destruct (str_eqb (username r) u); cbn [map fold_right]; lia.
Qed.

(** The sum of a column of the result over the players is the sum of the
    column it aggregates over the rows of [player_games]. *)
Lemma sum_column_groups (key : str) (f : PlayerGame real -> Z) (games : list (Game real)) :
  (forall g, match int_column key (dict_of_row (summarize g)) with
             | Some z => z
             | None => 0%Z
             end = sum (map f (snd g))) ->
  sum_column key (get_player_stats games) = sum (map f (player_games games)).
Proof.
  intros Hcol. unfold sum_column, Analytics.get_player_stats, Analytics.player_rows.
  rewrite map_map.
  rewrite (sum_perm (Permutation_map _ (order_by_perm _))).
  unfold group_by_username. rewrite !map_map.
  rewrite (map_ext _ (fun u => sum (map f (rows_of u (player_games games)))))
    by (intros u; apply Hcol).
  apply group_sum; [apply distinct_NoDup|].
  intros r Hr. apply distinct_In, in_map, Hr.
Qed.

Lemma games_played_column (g : str * list (PlayerGame real)) :
  match int_column (py "games_played") (dict_of_row (summarize g)) with
  | Some z => z
  | None => 0%Z
  end = sum (map (fun _ => 1%Z) (snd g)).
Proof. rewrite lookup_games_played, sum_ones. reflexivity. Qed.

Lemma total_column_sum (c : category) (g : str * list (PlayerGame real)) :
  match int_column (total_column c) (dict_of_row (summarize g)) with
  | Some z => z
  | None => 0%Z
  end = sum (map (fun r => moves r c) (snd g)).
Proof.
  rewrite (int_or_null_column _ _ _ (lookup_total (summarize g) c)).
  apply sum_or_zero.
Qed.

Lemma wins_column (g : str * list (PlayerGame real)) :
  match int_column (py "wins") (dict_of_row (summarize g)) with
  | Some z => z
  | None => 0%Z
  end = sum (map (@win real) (snd g)).
Proof.
  rewrite (int_or_null_column _ _ _ (lookup_wins (summarize g))).
  apply sum_or_zero.
Qed.

Lemma losses_column (g : str * list (PlayerGame real)) :
  match int_column (py "losses") (dict_of_row (summarize g)) with
  | Some z => z
  | None => 0%Z
  end = sum (map (@loss real) (snd g)).
Proof.
  rewrite (int_or_null_column _ _ _ (lookup_losses (summarize g))).
  apply sum_or_zero.
Qed.

(** X11: the rows of [get_player_stats] are as many as the players that
    [get_season_summary] counts. *)
Theorem stats_rows_are_players (games : list (Game real)) :
  Z.of_nat (List.length (get_player_stats games)) = unique_players (get_season_summary games).
Proof.
  unfold Analytics.get_player_stats, Analytics.player_rows, get_season_summary.
  cbn [unique_players].
  rewrite length_map, (Permutation_length (order_by_perm _)), length_map.
  unfold group_by_username. rewrite length_map.
  rewrite (distinct_NoDup_id (distinct_NoDup _)).
  unfold player_games. rewrite map_app, !map_map. reflexivity.
Qed.

(** X12: grouping by player loses nothing and counts nothing twice: over
    the rows of [get_player_stats], the totals of a move category add up
    to the moves of that category on the sides of the stored games that
    have a username, and the numbers of games add up to the number of
    these sides. *)
Theorem stats_totals_partition (games : list (Game real)) (c : category) :
  sum_column (total_column c) (get_player_stats games)
  = sum (map (fun r => moves r c) (flat_map (@sides real) games))
  /\ sum_column (py "games_played") (get_player_stats games)
     = Z.of_nat (List.length (flat_map (@sides real) games)).
Proof.
  split.
  - rewrite (sum_column_groups _ (fun r => moves r c)) by apply total_column_sum.
    apply sum_perm, Permutation_map, player_games_sides.
  - rewrite (sum_column_groups _ (fun _ => 1%Z)) by apply games_played_column.
    rewrite sum_ones. unfold sql_count.
    now rewrite (Permutation_length (player_games_sides games)).
Qed.

Lemma player_games_all (games : list (Game real)) :
  Forall (fun g => white_username g <> [] /\ black_username g <> []) games ->
  player_games games = map (@white_row real) games ++ map (@black_row real) games.
Proof.
  intros H. unfold player_games. rewrite !filter_all; [reflexivity| |].
  - eapply Forall_impl; [|exact H]. intros g [_ Hb]. cbn beta.
    apply negb_true_iff, str_eqb_neq, Hb.
  - eapply Forall_impl; [|exact H]. intros g [Hw _]. cbn beta.
    apply negb_true_iff, str_eqb_neq, Hw.
Qed.

Lemma sum_both_sides (f : PlayerGame real -> Z) (games : list (Game real)) :
  sum (map f (map (@white_row real) games ++ map (@black_row real) games))
  = sum (map (fun g => (f (white_row g) + f (black_row g))%Z) games).
Proof. rewrite map_app, sum_app, !map_map, sum_map_add. reflexivity. Qed.

(** While the brilliant moves are in range, the SUM of SQLite is the
    integer sum, from whatever running total that leaves room for them. *)
Lemma brilliant_weight_nonneg (games : list (Game real)) :
  (0 <= sum (map (fun g => (Z.abs (tally g Brilliant White)
                            + Z.abs (tally g Brilliant Black))%Z) games))%Z.
Proof. induction games as [|g games IH]; cbn [map fold_right]; lia. Qed.

Lemma brilliant_sum_exact (games : list (Game real)) :
  forall acc,
    (Z.abs acc + sum (map (fun g => (Z.abs (tally g Brilliant White)
                                     + Z.abs (tally g Brilliant Black))%Z) games)
     <= int64_max)%Z ->
    int64_sum_from acc (map (fun g => int64_add (tally g Brilliant White)
                                                (tally g Brilliant Black)) games)
    = Some (acc + sum (map (fun g => (tally g Brilliant White
                                      + tally g Brilliant Black)%Z) games))%Z.
Proof.
  induction games as [|g games IH]; intros acc H; cbn [map fold_right int64_sum_from] in *.
  - f_equal. lia.
  - pose proof (brilliant_weight_nonneg games) as Hpos.
    rewrite (int64_add_exact (tally g Brilliant White) (tally g Brilliant Black)) by lia.
    rewrite (int64_add_exact acc) by lia.
    rewrite IH by lia. f_equal. lia.
Qed.

Lemma total_brilliant_exact (games : list (Game real)) :
  brilliant_in_range games ->
  total_brilliant_int64 games = Some (total_brilliant_moves (get_season_summary games)).
Proof.
  intros H. unfold total_brilliant_int64, get_season_summary. cbn [total_brilliant_moves].
  rewrite sum_or_zero. rewrite brilliant_sum_exact; [reflexivity|exact H].
Qed.

(** X13: when every stored game has both usernames, the two queries
    agree: the games of the players add up to twice [total_games], and
    the players have won as many games as they have lost; and as long as
    the brilliant moves of the stored games add up within the 64-bit
    integers of SQLite, the SUM of [get_season_summary] is an integer and
    the brilliant moves of the players add up to
    [total_brilliant_moves]. *)
Theorem stats_agree_with_summary (games : list (Game real)) :
  Forall (fun g => white_username g <> [] /\ black_username g <> []) games ->
  sum_column (py "games_played") (get_player_stats games)
  = (2 * total_games (get_season_summary games))%Z
  /\ (brilliant_in_range games ->
      total_brilliant_int64 games = Some (total_brilliant_moves (get_season_summary games))
      /\ sum_column (py "total_brilliant") (get_player_stats games)
         = total_brilliant_moves (get_season_summary games))
  /\ sum_column (py "wins") (get_player_stats games)
     = sum_column (py "losses") (get_player_stats games).
Proof.
  intros H. pose proof (player_games_all H) as Hall.
  split; [|split].
  - rewrite (sum_column_groups _ (fun _ => 1%Z)) by apply games_played_column.
    rewrite sum_ones, Hall. unfold sql_count, get_season_summary. cbn [total_games].
    unfold sql_count. rewrite length_app, !length_map. lia.
  - intros Hrange. split; [now apply total_brilliant_exact|].
    change (py "total_brilliant") with (total_column Brilliant).
    rewrite (sum_column_groups _ (fun r => moves r Brilliant)) by apply total_column_sum.
    rewrite Hall, sum_both_sides. unfold get_season_summary. cbn [total_brilliant_moves].
    rewrite sum_or_zero. reflexivity.
  - rewrite (sum_column_groups _ (@win real)) by apply wins_column.
    rewrite (sum_column_groups _ (@loss real)) by apply losses_column.
    rewrite Hall, !sum_both_sides. f_equal. apply map_ext.
    intros g. cbn [white_row black_row win loss]. lia.
Qed.

(** ** The rows of a player *)

Lemma when_result_cases (g : Game real) :
  let w := when_result g "1-0" in
  let l := when_result g "0-1" in
  let d := when_result g "1/2-1/2" in
  (0 <= w /\ 0 <= l /\ 0 <= d /\ w + l + d <= 1)%Z.
Proof.
  unfold when_result.
  destruct (str_eqb (result g) (py "1-0")) eqn:E1.
  { apply str_eqb_eq in E1. rewrite E1. cbn. lia. }
  destruct (str_eqb (result g) (py "0-1")) eqn:E2.
  { apply str_eqb_eq in E2. rewrite E2. cbn. lia. }
  destruct (str_eqb (result g) (py "1/2-1/2")); cbn zeta; lia.
Qed.

Lemma player_game_bounds (games : list (Game real)) (r : PlayerGame real) :
  In r (player_games games) ->
  (0 <= win r /\ 0 <= loss r /\ 0 <= draw r /\ win r + loss r + draw r <= 1)%Z.
Proof.
  intros H. apply player_games_In in H as (g & _ & [[_ ->]|[_ ->]]);
    cbn [white_row black_row win loss draw];
    pose proof (when_result_cases g) as Hc; cbn zeta in Hc; lia.
Qed.

Lemma sums_bounded (rows : list (PlayerGame real)) :
  Forall (fun r => (0 <= win r /\ 0 <= loss r /\ 0 <= draw r
                    /\ win r + loss r + draw r <= 1)%Z) rows ->
  (0 <= sum (map (@win real) rows) /\ 0 <= sum (map (@loss real) rows)
   /\ 0 <= sum (map (@draw real) rows)
   /\ sum (map (@win real) rows) + sum (map (@loss real) rows) + sum (map (@draw real) rows)
      <= sql_count rows)%Z.
Proof.
  unfold sql_count. induction 1 as [|r rows Hr _ IH]; cbn [map fold_right List.length]; lia.
Qed.

(** X14: in each row of [get_player_stats] the wins, the losses and the
    draws are integers that are not negative, and together they are at
    most the games played, which are at least one: a game whose result is
    none of the three symbols counts as played only. *)
Theorem stats_row_bounds (games : list (Game real)) (d : list (str * sqlval real)) :
  In d (get_player_stats games) ->
  exists n w l dr,
    int_column (py "games_played") d = Some n
    /\ int_column (py "wins") d = Some w
    /\ int_column (py "losses") d = Some l
    /\ int_column (py "draws") d = Some dr
    /\ (1 <= n /\ 0 <= w /\ 0 <= l /\ 0 <= dr /\ w + l + dr <= n)%Z.
Proof.
  intros H. unfold Analytics.get_player_stats in H.
  apply in_map_iff in H as (s & <- & Hs).
  apply player_rows_In in Hs as (u & Hu & ->).
  pose proof (rows_of_nonempty _ _ Hu) as Hne.
  set (rows := rows_of u (player_games games)) in *.
  assert (Hb : Forall (fun r => (0 <= win r /\ 0 <= loss r /\ 0 <= draw r
                                 /\ win r + loss r + draw r <= 1)%Z) rows).
  { apply Forall_forall. intros r Hr. apply (player_game_bounds games).
    unfold rows, rows_of in Hr. now apply filter_In in Hr as [Hr _]. }
  apply sums_bounded in Hb.
  exists (sql_count rows), (sum (map (@win real) rows)), (sum (map (@loss real) rows)),
         (sum (map (@draw real) rows)).
  split; [apply lookup_games_played|].
  split; [rewrite (int_or_null_column _ _ _ (lookup_wins _)); cbn [wins Analytics.summarize snd];
          apply sql_sum_nonempty; now destruct rows|].
  split; [rewrite (int_or_null_column _ _ _ (lookup_losses _)); cbn [losses Analytics.summarize snd];
          apply sql_sum_nonempty; now destruct rows|].
  split; [rewrite (int_or_null_column _ _ _ (lookup_draws _)); cbn [draws Analytics.summarize snd];
          apply sql_sum_nonempty; now destruct rows|].
  assert (1 <= sql_count rows)%Z by (unfold sql_count; destruct rows; [contradiction | cbn; lia]).
  lia.
Qed.

(** ** The order of the stored games *)

Lemma usernames_In (games games' : list (Game real)) (x : str) :
  (forall g, In g games -> In g games') ->
  In x (map (@white_username real)
            (filter (fun g => negb (str_eqb (white_username g) [])) games)
        ++ map (@black_username real)
               (filter (fun g => negb (str_eqb (black_username g) [])) games)) ->
  In x (map (@white_username real)
            (filter (fun g => negb (str_eqb (white_username g) [])) games')
        ++ map (@black_username real)
               (filter (fun g => negb (str_eqb (black_username g) [])) games')).
Proof.
  intros Hsub H. apply in_app_iff in H. apply in_app_iff.
  destruct H as [H|H]; [left|right];
    apply in_map_iff in H as (g & <- & Hg); apply filter_In in Hg as [Hg Hp];
    apply in_map, filter_In; split; auto.
Qed.

Lemma brilliant_in_range_perm (games games' : list (Game real)) :
  Permutation games games' -> brilliant_in_range games -> brilliant_in_range games'.
Proof.
  unfold brilliant_in_range. intros H.
  now rewrite (sum_perm (Permutation_map _ H)).
Qed.

(** X15: as long as the brilliant moves of the stored games add up within
    the 64-bit integers of SQLite, [get_season_summary] does not depend
    on the order in which the games are stored: in either order the SUM
    is an integer, the one that the summary holds. *)
Theorem season_summary_order (games games' : list (Game real)) :
  Permutation games games' ->
  brilliant_in_range games ->
  get_season_summary games = get_season_summary games'
  /\ total_brilliant_int64 games = Some (total_brilliant_moves (get_season_summary games))
  /\ total_brilliant_int64 games' = Some (total_brilliant_moves (get_season_summary games')).
Proof.
  intros H Hrange.
  split; [|split; apply total_brilliant_exact;
           [exact Hrange | exact (brilliant_in_range_perm H Hrange)]].
  unfold get_season_summary. f_equal.
  - unfold sql_count. now rewrite (Permutation_length H).
  - f_equal. apply Permutation_length.
    apply NoDup_Permutation; try apply distinct_NoDup.
    intros x. rewrite !distinct_In. split; apply usernames_In; intros g.
    + now apply Permutation_in.
    + apply Permutation_in. now symmetry.
  - rewrite !sum_or_zero. apply sum_perm, Permutation_map, H.
Qed.

End Totals.

(** X13 on the two games of the example: four sides, three brilliant
    moves, two wins and two losses. *)
Lemma stats_agree_with_summary_witness :
  sum_column (py "games_played") (Fixture.player_stats [Fixture.game_a; Fixture.game_b]) = 4%Z
  /\ total_brilliant_int64 [Fixture.game_a; Fixture.game_b] = Some 3%Z
  /\ sum_column (py "total_brilliant") (Fixture.player_stats [Fixture.game_a; Fixture.game_b])
     = 3%Z
  /\ sum_column (py "wins") (Fixture.player_stats [Fixture.game_a; Fixture.game_b])
     = sum_column (py "losses") (Fixture.player_stats [Fixture.game_a; Fixture.game_b]).
Proof.
  destruct (stats_agree_with_summary Fixture.real_of_int Fixture.real_one Fixture.real_mul
              Fixture.real_div Fixture.real_avg Fixture.real_round
              (games := [Fixture.game_a; Fixture.game_b])) as (Hn & Hb & Hw).
  { repeat constructor; discriminate. }
  destruct Hb as [Hs Hb].
  { unfold brilliant_in_range. vm_compute. discriminate. }
  split; [exact Hn|]. split; [exact Hs|]. split; [exact Hb | exact Hw].
Defined.

(** X14 for the first row of the example. *)
Lemma stats_row_bounds_witness :
  exists d n w l dr,
    hd_error (Fixture.player_stats [Fixture.game_a; Fixture.game_b]) = Some d
    /\ int_column (py "games_played") d = Some n
    /\ int_column (py "wins") d = Some w
    /\ int_column (py "losses") d = Some l
    /\ int_column (py "draws") d = Some dr
    /\ (1 <= n /\ 0 <= w /\ 0 <= l /\ 0 <= dr /\ w + l + dr <= n)%Z.
Proof.
  assert (H : exists d, hd_error (Fixture.player_stats [Fixture.game_a; Fixture.game_b]) = Some d)
    by (eexists; vm_compute; reflexivity).
  destruct H as [d E]. exists d.
  assert (Hin : In d (Fixture.player_stats [Fixture.game_a; Fixture.game_b])).
  { destruct (Fixture.player_stats [Fixture.game_a; Fixture.game_b]) as [|d' l]; [discriminate|].
    injection E as ->. now left. }
  destruct (stats_row_bounds _ _ _ _ _ _ _ _ Hin) as (n & w & l & dr & H).
  exists n, w, l, dr. split; [exact E | exact H].
Defined.

(** X15 on the two games of the example, in both orders. *)
Lemma season_summary_order_witness :
  get_season_summary [Fixture.game_a; Fixture.game_b]
  = get_season_summary [Fixture.game_b; Fixture.game_a]
  /\ total_brilliant_int64 [Fixture.game_a; Fixture.game_b] = Some 3%Z
  /\ total_brilliant_int64 [Fixture.game_b; Fixture.game_a] = Some 3%Z.
Proof.
  apply (@season_summary_order Fixture.milli [Fixture.game_a; Fixture.game_b]
                               [Fixture.game_b; Fixture.game_a]).
  - apply perm_swap.
  - unfold brilliant_in_range. vm_compute. discriminate.
Defined.

End SeasonFacts.
